(** * Creek monitoring dashboard: a shallow embedding of the client code

    The development follows the JavaScript sources module by module:

    - [JS]            the fragments of the language the code relies on
                      (truthiness, JSON values, how a call completes);
    - [Model]         the records held in the four JSON resources;
    - [ChartManager]  src/js/charts.js;
    - [DataLoader]    src/js/data-loader.js, in its two revisions;
    - [MapManager]    the map module;
    - [SidebarManager] and [CreekMonitoringApp]  src/js/app.js.

    The page.  The elements the scripts look up by id are taken to
    exist; of each element the model keeps what the code writes to it
    (a flag for a class or for [style.display], the interpolated parts
    of the HTML), and the page as loaded is a parameter of the
    constructors.  The listeners the code installs are the events of a
    session.

    Numbers.  A JavaScript number is modelled by an exact rational
    ([Q]): the values are finite decimal readings parsed from JSON, and
    every statement below is about the arithmetic the code writes down,
    not about binary64 rounding.  Equality of numbers is [Qeq] ([==]).

    Objects used as dictionaries are [gmap string _] (their own keys
    only: a key that names a property of [Object.prototype] is not
    considered); [Object.keys], [Object.values] and [Object.entries]
    enumerate a map in its own order, and no statement below depends on
    that order.  A [Set] is the list of its members in insertion order,
    without repetition.  A function whose body can read a property of
    [null] or [undefined] returns how it completed together with the
    state it left. *)

From Stdlib Require Import QArith Qminmax Qabs Lqa.
From Stdlib Require Import Sorting.Sorted Sorting.Permutation.
From Stdlib Require OrdersEx.
From stdpp Require Import gmap strings list fin_maps.

(* ===================================================================== *)
(** ** JavaScript fragments *)
(* ===================================================================== *)

Module JS.

(** How a call ends: normally, or by a thrown exception that the
    callee does not catch.  The state reached so far is kept in both
    cases. *)
Inductive completion : Type :=
| Normal
| Throw.

(** [Boolean(s)] for a string. *)
Definition truthy_str (s : string) : bool :=
  negb (String.eqb s "").

(** [Boolean(x)] for [x] a string, [null] or [undefined]. *)
Definition truthy_ostr (o : option string) : bool :=
  match o with
  | Some s => truthy_str s
  | None => false
  end.

(** [x !== null] *)
Definition not_null {A : Type} (o : option A) : bool :=
  match o with
  | Some _ => true
  | None => false
  end.

(** [Boolean(x)] for a number. *)
Definition truthy_num (q : Q) : bool :=
  negb (Qeq_bool q 0).

(** [x || y] on numbers. *)
Definition or_num (x y : Q) : Q :=
  if truthy_num x then x else y.

(** [Math.min(x, ...xs)] and [Math.max(x, ...xs)] for a non-empty
    argument list. *)
Definition Math_min (x : Q) (xs : list Q) : Q := fold_left Qmin xs x.
Definition Math_max (x : Q) (xs : list Q) : Q := fold_left Qmax xs x.

(** [new Set(xs)], [set.add(x)], [set.delete(x)]: members in insertion
    order. *)
Definition Set_add (x : string) (s : list string) : list string :=
  if decide (x ∈ s) then s else s ++ [x].

Definition Set_delete (x : string) (s : list string) : list string :=
  filter (λ y, y ≠ x) s.

Definition Set_of (xs : list string) : list string :=
  fold_left (λ s x, Set_add x s) xs [].

(** [xs.forEach(body)] where the body may throw ([None]): the loop
    stops at the first exception. *)
Fixpoint forEach {A S : Type} (body : S → A → option S) (xs : list A)
    (s : S) : option S :=
  match xs with
  | [] => Some s
  | x :: xs' =>
      match body s x with
      | Some s' => forEach body xs' s'
      | None => None
      end
  end.

(** [Object.keys(o)] and [Object.values(o)]. *)
Definition Object_keys {V : Type} (o : gmap string V) : list string :=
  (map_to_list o).*1.

Definition Object_values {V : Type} (o : gmap string V) : list V :=
  (map_to_list o).*2.

(** A parsed JSON document. *)
#[warnings="-register-all"]
Inductive JSON : Type :=
| JNull
| JBool (b : bool)
| JNum (q : Q)
| JStr (s : string)
| JArr (items : list JSON)
| JObj (fields : list (string * JSON)).

(** [Boolean(v)] for a JSON value; [None] stands for [undefined]. *)
Definition truthy (v : JSON) : bool :=
  match v with
  | JNull => false
  | JBool b => b
  | JNum q => truthy_num q
  | JStr s => truthy_str s
  | JArr _ => true
  | JObj _ => true
  end.

Definition truthy_opt (o : option JSON) : bool :=
  match o with
  | Some v => truthy v
  | None => false
  end.

End JS.

(* ===================================================================== *)
(** ** The data model of the four resources *)
(* ===================================================================== *)

Module Model.

(** stations.json: code -> station. *)
Record Station : Type := {
  st_name : string;
  st_latitude : Q;
  st_longitude : Q;
  st_analytes : list string;
  st_measurement_count : nat
}.

(** measurements.json: code -> analyte -> series. *)
Record Measurement : Type := {
  m_date : option string;
  m_value : Q
}.

(** latest_values.json: code -> analyte -> latest value. *)
Record LatestValue : Type := {
  lv_value : Q;
  lv_date : option string;
  lv_status : string;
  lv_unit : option string
}.

(** analyte_ranges.json: analyte -> range; [None] is [null]. *)
Record AnalyteRange : Type := {
  range_min : option Q;
  range_max : option Q;
  range_unit : option string
}.

(** The aggregate returned by [loadAllData]. *)
Record AppData : Type := {
  stations : gmap string Station;
  measurements : gmap string (gmap string (list Measurement));
  latestValues : gmap string (gmap string LatestValue);
  analyteRanges : gmap string AnalyteRange
}.

End Model.

(* ===================================================================== *)
(** ** ChartManager (src/js/charts.js) *)
(* ===================================================================== *)

Module ChartManager.
Import JS Model.

Record Point : Type := {
  pt_x : string;      (* the Date built from the measurement's date *)
  pt_y : Q
}.

(** The fields of a Chart.js dataset that depend on the data; the
    constant ones (white point borders, [fill], [tension]) are left
    out. *)
Record Dataset : Type := {
  ds_label : string;
  ds_data : list Point;
  ds_borderColor : string;
  ds_backgroundColor : string;
  ds_pointBackgroundColor : string;
  ds_pointHoverBackgroundColor : string;
  ds_unit : option string;
  ds_acceptableRange : option AnalyteRange
}.

(** The chart widget: its datasets and the options the manager writes. *)
Record Chart : Type := {
  datasets : list Dataset;
  title_text : string;
  y_title_text : string;
  y_min : option Q;       (* [None] is [undefined]: automatic scale *)
  y_max : option Q
}.

Record state : Type := {
  chart : option Chart;
  data : option AppData;
  currentStation : option string;
  visibleAnalytes : list string;
  analyteColors : gmap string string
}.

Definition colorPalette : list string :=
  [ "#28a745"; "#007bff"; "#ffc107"; "#dc3545"; "#6f42c1";
    "#fd7e14"; "#20c997"; "#e83e8c"; "#6c757d"; "#17a2b8" ]%string.

(** The chart described by [this.config]. *)
Definition new_Chart : Chart :=
  {| datasets := [];
     title_text := "Water Quality Time Series";
     y_title_text := "Value";
     y_min := None;
     y_max := None |}.

Definition constructor : state :=
  {| chart := None;
     data := None;
     currentStation := None;
     visibleAnalytes := [];
     analyteColors := ∅ |}.

(** [initChart(data)]; [canvas] tells whether the canvas element
    exists. *)
Definition initChart (d : AppData) (canvas : bool) (s : state) : state :=
  {| chart := if canvas then Some new_Chart else chart s;
     data := Some d;
     currentStation := currentStation s;
     visibleAnalytes := visibleAnalytes s;
     analyteColors := analyteColors s |}.

(** [this.colorPalette[i]]; the index is always in range. *)
Definition palette_at (i : nat) : string :=
  default ""%string (colorPalette !! i).

(** The colour step of [createDataset]: keep the stored colour when it
    is truthy, otherwise store the palette entry at
    [colorIndex % length]. *)
Definition assign_color (colors : gmap string string) (analyte : string)
    (colorIndex : nat) : gmap string string :=
  if truthy_ostr (colors !! analyte) then colors
  else <[analyte := palette_at (colorIndex mod length colorPalette)]> colors.

(** The point list of a dataset: measurements with a falsy date are
    dropped. *)
Definition chartData (ms : list Measurement) : list Point :=
  omap (λ m, if truthy_ostr (m_date m)
             then Some {| pt_x := default ""%string (m_date m);
                          pt_y := m_value m |}
             else None) ms.

Definition createDataset (d : AppData) (colors : gmap string string)
    (analyte : string) (ms : list Measurement) (colorIndex : nat)
  : gmap string string * Dataset :=
  let colors' := assign_color colors analyte colorIndex in
  let color := default ""%string (colors' !! analyte) in
  let acceptableRange := analyteRanges d !! analyte in
  let unit := match acceptableRange with
              | Some r => range_unit r
              | None => Some ""%string
              end in
  (colors',
   {| ds_label := analyte;
      ds_data := chartData ms;
      ds_borderColor := color;
      ds_backgroundColor := color +:+ "20";
      ds_pointBackgroundColor := color;
      ds_pointHoverBackgroundColor := color;
      ds_unit := unit;
      ds_acceptableRange := acceptableRange |}).

(** [this.data.analyteRanges?.[analyte]?.unit] *)
Definition unit_of (d : AppData) (analyte : string) : option string :=
  match analyteRanges d !! analyte with
  | Some r => range_unit r
  | None => None
  end.

(** [[...new Set(units)]] *)
Definition uniqueUnits (units : list string) : list string :=
  Set_of units.

(** The label computed by [updateYAxisTitle]. *)
Definition yAxisTitle (d : AppData) (visible : list string) : string :=
  match visible with
  | [] => "Value"
  | [analyte] =>
      match unit_of d analyte with
      | Some u => if truthy_str u then analyte +:+ " (" +:+ u +:+ ")"
                  else analyte
      | None => analyte
      end
  | _ =>
      let units :=
        omap (λ a, match unit_of d a with
                   | Some u => if truthy_str u then Some u else None
                   | None => None
                   end) visible in
      match uniqueUnits units with
      | [u] => "Value (" +:+ u +:+ ")"
      | _ => "Value"
      end
  end.

Definition set_y_title (t : string) (c : Chart) : Chart :=
  {| datasets := datasets c;
     title_text := title_text c;
     y_title_text := t;
     y_min := y_min c;
     y_max := y_max c |}.

Definition updateYAxisTitle (d : AppData) (visible : list string)
    (c : Chart) : Chart :=
  set_y_title (yAxisTitle d visible) c.

Definition set_y_range (lo hi : option Q) (c : Chart) : Chart :=
  {| datasets := datasets c;
     title_text := title_text c;
     y_title_text := y_title_text c;
     y_min := lo;
     y_max := hi |}.

(** [allValues]: the [y] of every point of every dataset. *)
Definition allValues (c : Chart) : list Q :=
  concat (map (λ ds, map pt_y (ds_data ds)) (datasets c)).

(** The padding of [fitAxesToData]:
    [range > 0 ? range * 0.1 : Math.abs(min * 0.1) || 1]. *)
Definition padding (min max : Q) : Q :=
  let range := (max - min)%Q in
  if Qlt_le_dec 0 range then (range * 0.1)%Q
  else or_num (Qabs (min * 0.1)) 1.

Definition fitAxesToData (c : Chart) : Chart :=
  match datasets c with
  | [] => set_y_range None None c
  | _ :: _ =>
      match allValues c with
      | [] => set_y_range None None c
      | v :: vs =>
          let min := Math_min v vs in
          let max := Math_max v vs in
          let padding := padding min max in
          set_y_range (Some (Qmax 0 (min - padding)))
                      (Some (max + padding)%Q) c
      end
  end.

Definition set_datasets (dss : list Dataset) (c : Chart) : Chart :=
  {| datasets := dss;
     title_text := title_text c;
     y_title_text := y_title_text c;
     y_min := y_min c;
     y_max := y_max c |}.

Definition set_title (t : string) (c : Chart) : Chart :=
  {| datasets := datasets c;
     title_text := t;
     y_title_text := y_title_text c;
     y_min := y_min c;
     y_max := y_max c |}.

(** The loop of [updateChart] over the visible analytes, when the
    station has measurements: the accumulator is the colour table, the
    datasets built so far and [colorIndex]. *)
Definition dataset_step (d : AppData)
    (stationData : gmap string (list Measurement))
    (acc : gmap string string * list Dataset * nat) (analyte : string)
  : gmap string string * list Dataset * nat :=
  let '(colors, dss, colorIndex) := acc in
  match stationData !! analyte with
  | Some (m :: ms) =>
      let '(colors', ds) :=
        createDataset d colors analyte (m :: ms) colorIndex in
      (colors', dss ++ [ds], S colorIndex)
  | _ => acc
  end.

Definition build_datasets (d : AppData)
    (stationData : gmap string (list Measurement))
    (visible : list string) (colors : gmap string string)
  : gmap string string * list Dataset * nat :=
  fold_left (dataset_step d stationData) visible (colors, [], 0).

Definition with_chart (c : Chart) (s : state) : state :=
  {| chart := Some c;
     data := data s;
     currentStation := currentStation s;
     visibleAnalytes := visibleAnalytes s;
     analyteColors := analyteColors s |}.

Definition with_colors (colors : gmap string string) (s : state) : state :=
  {| chart := chart s;
     data := data s;
     currentStation := currentStation s;
     visibleAnalytes := visibleAnalytes s;
     analyteColors := colors |}.

Definition with_visible (v : list string) (s : state) : state :=
  {| chart := chart s;
     data := data s;
     currentStation := currentStation s;
     visibleAnalytes := v;
     analyteColors := analyteColors s |}.

(** The tail of [updateChart] once the datasets are built: title,
    y-axis label, axis fit. *)
Definition redraw (d : AppData) (cur : string) (visible : list string)
    (dss : list Dataset) (c : Chart) : Chart :=
  let stationName := match stations d !! cur with
                     | Some info => st_name info
                     | None => cur
                     end in
  fitAxesToData
    (updateYAxisTitle d visible
       (set_title ("Water Quality Time Series - " +:+ stationName)
          (set_datasets dss c))).

(** [updateChart()].  Reading a property of [null] or [undefined]
    throws: that happens when no data was installed, or when the
    current station has no measurement entry and some analyte is
    visible (the chart's datasets are already emptied then). *)
Definition updateChart (s : state) : completion * state :=
  match chart s, currentStation s with
  | Some c, Some cur =>
      if negb (truthy_str cur) then (Normal, s) else
      match data s with
      | None => (Throw, s)
      | Some d =>
          match measurements d !! cur, visibleAnalytes s with
          | None, _ :: _ => (Throw, with_chart (set_datasets [] c) s)
          | None, [] =>
              (Normal, with_chart (redraw d cur [] [] c) s)
          | Some stationData, visible =>
              let '(colors, dss, _) :=
                build_datasets d stationData visible (analyteColors s) in
              (Normal,
               with_chart (redraw d cur visible dss c) (with_colors colors s))
          end
      end
  | _, _ => (Normal, s)
  end.

(** [clearChart()] *)
Definition clearChart (s : state) : state :=
  {| chart := match chart s with
              | Some c =>
                  Some (set_y_title "Value"
                          (set_title "Water Quality Time Series"
                             (set_datasets [] c)))
              | None => None
              end;
     data := data s;
     currentStation := None;
     visibleAnalytes := [];
     analyteColors := analyteColors s |}.

(** [showStation(stationCode, visibleAnalytes)] *)
Definition showStation (stationCode : string) (visible : list string)
    (s : state) : completion * state :=
  let s1 := {| chart := chart s;
               data := data s;
               currentStation := Some stationCode;
               visibleAnalytes := Set_of visible;
               analyteColors := analyteColors s |} in
  match chart s1 with
  | None => (Normal, s1)
  | Some _ =>
      match data s1 with
      | None => (Normal, clearChart s1)
      | Some d =>
          match measurements d !! stationCode with
          | None => (Normal, clearChart s1)
          | Some _ => updateChart s1
          end
      end
  end.

(** [toggleAnalyte(analyte, visible)] *)
Definition toggleAnalyte (analyte : string) (visible : bool) (s : state)
  : completion * state :=
  updateChart
    (with_visible (if visible then Set_add analyte (visibleAnalytes s)
                   else Set_delete analyte (visibleAnalytes s)) s).

(** [setVisibleAnalytes(analytes)] *)
Definition setVisibleAnalytes (analytes : list string) (s : state)
  : completion * state :=
  updateChart (with_visible (Set_of analytes) s).

(** The calls a session makes on the chart manager. *)
Inductive call : Type :=
| ShowStation (stationCode : string) (visible : list string)
| ToggleAnalyte (analyte : string) (visible : bool)
| SetVisibleAnalytes (analytes : list string)
| UpdateChart
| ClearChart.

Definition perform (c : call) (s : state) : completion * state :=
  match c with
  | ShowStation code visible => showStation code visible s
  | ToggleAnalyte a v => toggleAnalyte a v s
  | SetVisibleAnalytes l => setVisibleAnalytes l s
  | UpdateChart => updateChart s
  | ClearChart => (Normal, clearChart s)
  end.

(** A session: each call runs on the state the previous one left,
    whether it returned or threw (the event loop goes on). *)
Definition session (cs : list call) (s : state) : state :=
  fold_left (λ st c, snd (perform c st)) cs s.

(** [getVisibleAnalytes()] *)
Definition getVisibleAnalytes (s : state) : list string := visibleAnalytes s.

(** One entry of the object returned by [getStatistics]. *)
Record Statistics : Type := {
  stat_count : nat;
  stat_min : Q;
  stat_max : Q;
  stat_average : Q;
  stat_latest : Q;
  stat_unit : string
}.

(** [values.reduce((sum, val) => sum + val, 0)] *)
Definition sum_values (values : list Q) : Q := fold_left Qplus values 0%Q.

(** The entry computed from a non-empty series [m :: ms]. *)
Definition statistics_for (d : AppData) (analyte : string)
    (m : Measurement) (ms : list Measurement) : Statistics :=
  let values := map m_value (m :: ms) in
  {| stat_count := length values;
     stat_min := Math_min (m_value m) (map m_value ms);
     stat_max := Math_max (m_value m) (map m_value ms);
     stat_average := (sum_values values / inject_Z (Z.of_nat (length values)))%Q;
     stat_latest := default (m_value m) (last values);
     stat_unit := match unit_of d analyte with
                  | Some u => if truthy_str u then u else ""
                  | None => ""
                  end |}.




(** [destroy()] *)
Definition destroy (s : state) : state :=
  {| chart := None;
     data := data s;
     currentStation := None;
     visibleAnalytes := [];
     analyteColors := analyteColors s |}.

End ChartManager.

(* ===================================================================== *)
(** ** DataLoader (src/js/data-loader.js and its revision with demo data) *)
(* ===================================================================== *)

Module DataLoader.
Import JS Model.

(** *** [loadJSON]: the cache, the in-flight table and the network *)

(** What the network answers to one [fetch(url)]. *)
Inductive response : Type :=
| Ok_json (v : JSON)          (* [response.ok], body parsed to [v] *)
| Http_error (status : nat)   (* [!response.ok]: the handler throws *)
| Fetch_error.                (* [fetch] or [response.json()] rejects *)

Inductive promise_state : Type :=
| Pending
| Fulfilled (v : JSON)
| Rejected.

(** The promise built by [fetch(url).then(..).then(..).catch(..)]. *)
Record promise : Type := {
  p_url : string;
  p_key : string;
  p_state : promise_state
}.

(** [promises] holds one entry per network request issued, oldest
    first; a promise is named by its position. *)
Record state : Type := {
  cache : gmap string JSON;
  loading : gmap string nat;
  promises : list promise
}.

Definition empty_cache : gmap string JSON :=
  <["stations" := JNull]>
    (<["measurements" := JNull]>
       (<["latestValues" := JNull]>
          (<["analyteRanges" := JNull]> ∅))).

Definition constructor : state :=
  {| cache := empty_cache; loading := ∅; promises := [] |}.

(** What the body of [loadJSON] returns: a cached value, or a promise
    of the in-flight table (the caller's promise follows it). *)
Inductive returned : Type :=
| Value (v : JSON)
| Promise (id : nat).

(** The last part of [loadJSON]: issue the request and record its
    promise under the cache key. *)
Definition start_fetch (url cacheKey : string) (s : state)
  : returned * state :=
  let id := length (promises s) in
  (Promise id,
   {| cache := cache s;
      loading := <[cacheKey := id]> (loading s);
      promises := promises s ++
                  [{| p_url := url; p_key := cacheKey; p_state := Pending |}] |}).

Definition loadJSON (url cacheKey : string) (s : state)
  : returned * state :=
  if truthy_opt (cache s !! cacheKey) then
    (Value (default JNull (cache s !! cacheKey)), s)
  else
    match loading s !! cacheKey with
    | Some id => (Promise id, s)
    | None => start_fetch url cacheKey s
    end.

Definition set_state (st : promise_state) (p : promise) : promise :=
  {| p_url := p_url p; p_key := p_key p; p_state := st |}.

(** The network answers the request of promise [id]: the second
    [then] handler stores the data and clears the in-flight entry; the
    [catch] handler clears the in-flight entry and rethrows.  A promise
    settles once. *)
Definition settle (id : nat) (r : response) (s : state) : state :=
  match promises s !! id with
  | Some p =>
      match p_state p with
      | Pending =>
          match r with
          | Ok_json v =>
              {| cache := <[p_key p := v]> (cache s);
                 loading := delete (p_key p) (loading s);
                 promises := <[id := set_state (Fulfilled v) p]> (promises s) |}
          | _ =>
              {| cache := cache s;
                 loading := delete (p_key p) (loading s);
                 promises := <[id := set_state Rejected p]> (promises s) |}
          end
      | _ => s
      end
  | None => s
  end.

(** [clearCache()] *)
Definition clearCache (s : state) : state :=
  {| cache := empty_cache; loading := loading s; promises := promises s |}.

(** The events of a page session seen by the loader: calls of
    [loadJSON] and answers of the network, in any interleaving. *)
Inductive event : Type :=
| Call (url cacheKey : string)
| Answer (id : nat) (r : response).

Definition step (s : state) (e : event) : state :=
  match e with
  | Call url cacheKey => snd (loadJSON url cacheKey s)
  | Answer id r => settle id r s
  end.

Definition run (es : list event) (s : state) : state :=
  fold_left step es s.

Definition reachable (s : state) : Prop :=
  ∃ es, s = run es constructor.

(** The number of network requests issued so far. *)
Definition requests (s : state) : nat := length (promises s).

(** *** [loadAllData] *)

Definition error : Type := string.

Inductive outcome (A : Type) : Type :=
| Resolved (a : A)
| Failed (e : error).
Arguments Resolved {A} a.
Arguments Failed {A} e.

(** A promise as awaited: when it settles and how. *)
Record awaited (A : Type) : Type := {
  settled_at : nat;
  result : outcome A
}.
Arguments settled_at {A} _.
Arguments result {A} _.

(** [Promise.all([x, y])]: fulfilled once both are, rejected as soon
    as one is, with the reason of the first to reject. *)
Definition Promise_all2 {A B : Type} (x : awaited A) (y : awaited B)
  : awaited (A * B) :=
  match result x, result y with
  | Resolved a, Resolved b =>
      {| settled_at := Nat.max (settled_at x) (settled_at y);
         result := Resolved (a, b) |}
  | Failed e, Resolved _ =>
      {| settled_at := settled_at x; result := Failed e |}
  | Resolved _, Failed e =>
      {| settled_at := settled_at y; result := Failed e |}
  | Failed e1, Failed e2 =>
      if Nat.leb (settled_at x) (settled_at y)
      then {| settled_at := settled_at x; result := Failed e1 |}
      else {| settled_at := settled_at y; result := Failed e2 |}
  end.

(** [loadAllData()] of src/js/data-loader.js: the four loads are
    joined; the [catch] logs and rethrows. *)
Definition loadAllData
    (loadStations : awaited (gmap string Station))
    (loadMeasurements : awaited (gmap string (gmap string (list Measurement))))
    (loadLatestValues : awaited (gmap string (gmap string LatestValue)))
    (loadAnalyteRanges : awaited (gmap string AnalyteRange))
  : outcome AppData :=
  match result (Promise_all2
                  (Promise_all2 (Promise_all2 loadStations loadMeasurements)
                                loadLatestValues)
                  loadAnalyteRanges) with
  | Resolved (s, m, l, r) =>
      Resolved {| stations := s; measurements := m;
                  latestValues := l; analyteRanges := r |}
  | Failed e => Failed e
  end.

(** *** Demo data *)

(** The status computed for the latest value of a generated series. *)
Definition demo_status (range : AnalyteRange) (value : Q) : string :=
  if not_null (range_min range) || not_null (range_max range) then
    let withinRange :=
      match range_min range with
      | None => true
      | Some lo => Qle_bool lo value
      end &&
      match range_max range with
      | None => true
      | Some hi => Qle_bool value hi
      end in
    if withinRange then "acceptable" else "outside_range"
  else "no_range".

Definition stationCoords : list (string * (Q * Q)) :=
  [ ("SRA190", (-121.9883528, 37.7714199));
    ("SRA161", (-121.981522, 37.811637));
    ("SRA160", (-121.9852663, 37.8122981));
    ("SRA141", (-121.9976948, 37.8238159));
    ("SRA120", (-122.0205907, 37.8407117));
    ("SRA100", (-122.0391426, 37.8647308)) ]%Q%string.

Section Demo.

(** [generateTimeSeries(analyte, range)] draws from [Math.random]
    and the clock, so its result belongs to the call: the first
    argument names the station the call is made for. *)
Variable generateTimeSeries :
  string → string → AnalyteRange → list Measurement.

(** The per-analyte body of [generateDemoData]; the accumulator is
    [measurements[stationCode]] and [latestValues[stationCode]].
    Reading [range.min] of a missing range or [latest.value] of an
    empty series throws. *)
Definition demo_analyte (analyteRanges : gmap string AnalyteRange)
    (stationCode : string)
    (acc : gmap string (list Measurement) * gmap string LatestValue)
    (analyte : string)
  : option (gmap string (list Measurement) * gmap string LatestValue) :=
  match analyteRanges !! analyte with
  | None => None
  | Some range =>
      let timeSeries := generateTimeSeries stationCode analyte range in
      match last timeSeries with
      | None => None
      | Some latest =>
          let status := demo_status range (m_value latest) in
          Some (<[analyte := timeSeries]> acc.1,
                <[analyte := {| lv_value := m_value latest;
                                lv_date := m_date latest;
                                lv_status := status;
                                lv_unit := range_unit range |}]> acc.2)
      end
  end.

(** The per-station body. *)
Definition demo_station (analyteRanges : gmap string AnalyteRange)
    (acc : gmap string Station
           * gmap string (gmap string (list Measurement))
           * gmap string (gmap string LatestValue))
    (entry : string * (Q * Q))
  : option (gmap string Station
            * gmap string (gmap string (list Measurement))
            * gmap string (gmap string LatestValue)) :=
  let '(stationCode, (lon, lat)) := entry in
  let analytes := Object_keys analyteRanges in
  match forEach (demo_analyte analyteRanges stationCode) analytes (∅, ∅) with
  | None => None
  | Some (ms, lvs) =>
      Some (<[stationCode := {| st_name := "Station " +:+ stationCode;
                                st_latitude := lat;
                                st_longitude := lon;
                                st_analytes := analytes;
                                st_measurement_count := 50 |}]> acc.1.1,
            <[stationCode := ms]> acc.1.2,
            <[stationCode := lvs]> acc.2)
  end.

(** [generateDemoData(analyteRanges)]; [None] when it throws. *)
Definition generateDemoData (analyteRanges : gmap string AnalyteRange)
  : option (gmap string Station
            * gmap string (gmap string (list Measurement))
            * gmap string (gmap string LatestValue)) :=
  forEach (demo_station analyteRanges) stationCoords (∅, ∅, ∅).

(** [loadAllData()] of the revision with demo data: the ranges are
    awaited first; the three other loads are joined, and replaced
    together by generated data when the join fails. *)
Definition loadAllData_demo
    (loadStations : awaited (gmap string Station))
    (loadMeasurements : awaited (gmap string (gmap string (list Measurement))))
    (loadLatestValues : awaited (gmap string (gmap string LatestValue)))
    (loadAnalyteRanges : awaited (gmap string AnalyteRange))
  : outcome AppData :=
  match result loadAnalyteRanges with
  | Failed e => Failed e
  | Resolved r =>
      match result (Promise_all2 (Promise_all2 loadStations loadMeasurements)
                                 loadLatestValues) with
      | Resolved (s, m, l) =>
          Resolved {| stations := s; measurements := m;
                      latestValues := l; analyteRanges := r |}
      | Failed _ =>
          match generateDemoData r with
          | Some (s, m, l) =>
              Resolved {| stations := s; measurements := m;
                          latestValues := l; analyteRanges := r |}
          | None => Failed "TypeError"
          end
      end
  end.

End Demo.

(** *** [getAnalytes] *)

(** Insertion of a string into a list kept in ascending order. *)
Fixpoint insert_sorted (x : string) (l : list string) : list string :=
  match l with
  | [] => [x]
  | y :: l' => if String.leb x y then x :: l else y :: insert_sorted x l'
  end.

(** [array.sort()] on strings: ascending by code units.  The order is
    total, so the sorted array does not depend on the algorithm; an
    insertion sort stands for the engine's. *)
Definition Array_sort (l : list string) : list string :=
  foldr insert_sorted [] l.

Definition getAnalytes (data : AppData) : list string :=
  Array_sort
    (fold_left (λ analytes station,
                  fold_left (λ set analyte, Set_add analyte set)
                            (st_analytes station) analytes)
               (Object_values (stations data)) []).

(** [getStationsForAnalyte(data, analyte)]: the station codes whose
    latest values have an entry for the analyte. *)
Definition has_latest (data : AppData) (analyte stationCode : string) : bool :=
  match latestValues data !! stationCode with
  | Some entries => not_null (entries !! analyte)
  | None => false
  end.

Definition getStationsForAnalyte (data : AppData) (analyte : string)
  : list string :=
  filter (λ stationCode, has_latest data analyte stationCode = true)
         (Object_keys (stations data)).

(** *** Sessions that also clear the cache *)

Inductive action : Type :=
| Load (url cacheKey : string)
| Net (id : nat) (r : response)
| Clear.

Definition exec (s : state) (a : action) : state :=
  match a with
  | Load url cacheKey => snd (loadJSON url cacheKey s)
  | Net id r => settle id r s
  | Clear => clearCache s
  end.

Definition execs (acts : list action) (s : state) : state :=
  fold_left exec acts s.

End DataLoader.

(* ===================================================================== *)
(** ** The application controller (src/js/app.js) *)
(* ===================================================================== *)

Module App.
Import Model DataLoader.

Record state : Type := {
  data : option AppData;
  loading : bool;
  error_message : option string;   (* the modal, when shown *)
  widgets_initialized : bool       (* map, chart and selector set up *)
}.

(** [init()], given how [loadAllData()] settled. *)
Definition init (loaded : outcome AppData) : state :=
  match loaded with
  | Resolved d =>
      {| data := Some d;
         loading := false;
         error_message := None;
         widgets_initialized := true |}
  | Failed _ =>
      {| data := None;
         loading := false;
         error_message :=
           Some "Failed to load application data. Please check your connection and try again."%string;
         widgets_initialized := false |}
  end.

End App.

(* ===================================================================== *)
(** ** MapManager (the map module) *)
(* ===================================================================== *)

Module MapManager.
Import JS Model.

(** The interpolated parts of the popup's HTML. *)
Inductive PopupBody : Type :=
| Latest (analyte : string) (value : Q) (unit : string)
         (statusClass statusText : string) (date : option string)
| NoData (analyte : string)
| NoAnalyte.

Record PopupContent : Type := {
  pc_title : string;
  pc_code : string;
  pc_location : Q * Q;
  pc_body : PopupBody
}.

(** A Leaflet circle marker: an object of the heap, shared by
    [this.markers] and the map's layer list. *)
Record Marker : Type := {
  latlng : Q * Q;
  radius : Q;
  fillColor : string;
  popup : option PopupContent
}.

Inductive View : Type :=
| Center (center : Q * Q) (zoom : nat)
| Bounds (south west north east : Q).   (* the last [fitBounds] *)

Record Leaflet : Type := {
  layers : list nat;      (* the markers on the map, by identity *)
  view : View
}.

Record state : Type := {
  map : option Leaflet;
  markers : gmap string nat;
  heap : gmap nat Marker;
  next : nat;               (* identity of the next object created *)
  currentAnalyte : option string;
  data : option AppData
}.

Definition constructor : state :=
  {| map := None; markers := ∅; heap := ∅; next := 0;
     currentAnalyte := None; data := None |}.

Definition config_center : Q * Q := (37.82, -121.99)%Q.
Definition config_zoom : nat := 13.

(** [initMap()] *)
Definition initMap (s : state) : state :=
  {| map := Some {| layers := []; view := Center config_center config_zoom |};
     markers := markers s; heap := heap s; next := next s;
     currentAnalyte := currentAnalyte s; data := data s |}.

(** [setData(data)] *)
Definition setData (d : option AppData) (s : state) : state :=
  {| map := map s; markers := markers s; heap := heap s; next := next s;
     currentAnalyte := currentAnalyte s; data := d |}.

(** [this.markerColors[status]] *)
Definition markerColors (status : string) : option string :=
  if decide (status = "acceptable") then Some "#28a745"
  else if decide (status = "outside_range") then Some "#dc3545"
  else if decide (status = "no_range") then Some "#007bff"
  else if decide (status = "no_data") then Some "#6c757d"
  else None.

(** [this.markerColors[status] || this.markerColors.no_data] *)
Definition color_for (status : string) : string :=
  match markerColors status with
  | Some c => if truthy_str c then c else "#6c757d"
  | None => "#6c757d"
  end.

(** [createStationMarker(lat, lng, status)] *)
Definition createStationMarker (lat lng : Q) (status : string) : Marker :=
  {| latlng := (lat, lng);
     radius := 8;
     fillColor := color_for status;
     popup := None |}.

(** The [statusText] table of [createPopupContent], with its
    ['No Data'] default. *)
Definition statusText (status : string) : string :=
  if decide (status = "acceptable") then "Within Range"
  else if decide (status = "outside_range") then "Outside Range"
  else if decide (status = "no_range") then "No Range Defined"
  else "No Data".

(** [createPopupContent(stationCode, station, analyte, latestValue)] *)
Definition createPopupContent (stationCode : string) (station : Station)
    (analyte : option string) (latestValue : option LatestValue)
  : PopupContent :=
  {| pc_title := if truthy_str (st_name station) then st_name station
                 else stationCode;
     pc_code := stationCode;
     pc_location := (st_latitude station, st_longitude station);
     pc_body :=
       match analyte with
       | Some a =>
           if truthy_str a then
             match latestValue with
             | Some lv =>
                 Latest a (lv_value lv)
                   (if truthy_ostr (lv_unit lv)
                    then " " +:+ default "" (lv_unit lv) else "")
                   (if truthy_str (lv_status lv) then lv_status lv
                    else "no_data")
                   (statusText (lv_status lv))
                   (lv_date lv)
             | None => NoData a
             end
           else NoAnalyte
       | None => NoAnalyte
       end |}.

(** [analyte && this.data.latestValues[code] &&
     this.data.latestValues[code][analyte]]: the entry when all three
    are truthy. *)
Definition latest_entry (d : AppData) (stationCode : string)
    (analyte : option string) : option LatestValue :=
  match analyte with
  | Some a =>
      if truthy_str a then
        match latestValues d !! stationCode with
        | Some entries => entries !! a
        | None => None
        end
      else None
  | None => None
  end.

Definition status_of (latestValue : option LatestValue) : string :=
  match latestValue with
  | Some lv => lv_status lv
  | None => "no_data"
  end.

Definition bindPopup (c : PopupContent) (m : Marker) : Marker :=
  {| latlng := latlng m; radius := radius m;
     fillColor := fillColor m; popup := Some c |}.

Definition setStyle_fillColor (c : string) (m : Marker) : Marker :=
  {| latlng := latlng m; radius := radius m;
     fillColor := c; popup := popup m |}.

(** [setPopupContent]: Leaflet replaces the content of the bound
    popup. *)
Definition setPopupContent (c : PopupContent) (m : Marker) : Marker :=
  {| latlng := latlng m; radius := radius m;
     fillColor := fillColor m; popup := Some c |}.

(** [addStationMarker(stationCode, station, analyte)].  It throws when
    an analyte is given and no data is installed, or when there is no
    map to add the marker to. *)
Definition addStationMarker (stationCode : string) (station : Station)
    (analyte : option string) (s : state) : completion * state :=
  if truthy_ostr analyte && negb (not_null (data s)) then (Throw, s) else
  let latestValue := match data s with
                     | Some d => latest_entry d stationCode analyte
                     | None => None
                     end in
  let status := status_of latestValue in
  let marker :=
    bindPopup (createPopupContent stationCode station analyte latestValue)
      (createStationMarker (st_latitude station) (st_longitude station)
                           status) in
  let id := next s in
  match map s with
  | None =>
      (Throw,
       {| map := None; markers := markers s;
          heap := <[id := marker]> (heap s); next := S id;
          currentAnalyte := currentAnalyte s; data := data s |})
  | Some m =>
      (Normal,
       {| map := Some {| layers := layers m ++ [id]; view := view m |};
          markers := <[stationCode := id]> (markers s);
          heap := <[id := marker]> (heap s); next := S id;
          currentAnalyte := currentAnalyte s; data := data s |})
  end.

(** [clearMarkers()] *)
Definition clearMarkers (s : state) : completion * state :=
  match Object_values (markers s), map s with
  | [], _ =>
      (Normal,
       {| map := map s; markers := ∅; heap := heap s; next := next s;
          currentAnalyte := currentAnalyte s; data := data s |})
  | _ :: _, None => (Throw, s)
  | ids, Some m =>
      (Normal,
       {| map := Some {| layers := filter (λ id, id ∉ ids) (layers m);
                         view := view m |};
          markers := ∅; heap := heap s; next := next s;
          currentAnalyte := currentAnalyte s; data := data s |})
  end.

(** The bounds of a non-empty list of positions. *)
Definition getBounds (p : Q * Q) (ps : list (Q * Q)) : View :=
  Bounds (Math_min p.1 ps.*1) (Math_min p.2 ps.*2)
         (Math_max p.1 ps.*1) (Math_max p.2 ps.*2).

(** [fitToMarkers()] *)
Definition fitToMarkers (s : state) : completion * state :=
  let markerPositions :=
    omap (λ id, latlng <$> heap s !! id) (Object_values (markers s)) in
  match markerPositions with
  | [] => (Normal, s)
  | p :: ps =>
      match map s with
      | None => (Throw, s)
      | Some m =>
          (Normal,
           {| map := Some {| layers := layers m; view := getBounds p ps |};
              markers := markers s; heap := heap s; next := next s;
              currentAnalyte := currentAnalyte s; data := data s |})
      end
  end.

(** The loop of [addStationMarkers] over [Object.entries(stations)]. *)
Fixpoint add_all (entries : list (string * Station))
    (analyte : option string) (s : state) : completion * state :=
  match entries with
  | [] => (Normal, s)
  | (stationCode, station) :: rest =>
      match addStationMarker stationCode station analyte s with
      | (Normal, s') => add_all rest analyte s'
      | (Throw, s') => (Throw, s')
      end
  end.

Definition set_currentAnalyte (a : option string) (s : state) : state :=
  {| map := map s; markers := markers s; heap := heap s; next := next s;
     currentAnalyte := a; data := data s |}.

(** [addStationMarkers(analyte = null)] *)
Definition addStationMarkers (analyte : option string) (s : state)
  : completion * state :=
  let s0 := set_currentAnalyte analyte s in
  match data s0 with
  | None => (Normal, s0)
  | Some d =>
      match clearMarkers s0 with
      | (Throw, s1) => (Throw, s1)
      | (Normal, s1) =>
          match add_all (map_to_list (stations d)) analyte s1 with
          | (Throw, s2) => (Throw, s2)
          | (Normal, s2) => fitToMarkers s2
          end
      end
  end.

(** The body of the loop of [updateMarkerColors] for one entry of
    [this.markers]; it works on the heap only. *)
Definition recolor (d : option AppData) (analyte : option string)
    (stationCode : string) (id : nat) (h : gmap nat Marker)
  : completion * gmap nat Marker :=
  if truthy_ostr analyte && negb (not_null d) then (Throw, h) else
  let status := match d with
                | Some d' => status_of (latest_entry d' stationCode analyte)
                | None => "no_data"
                end in
  let h1 := alter (setStyle_fillColor (color_for status)) id h in
  match d with
  | None => (Throw, h1)
  | Some d' =>
      match stations d' !! stationCode with
      | None => (Throw, h1)
      | Some station =>
          let latestValue :=
            if truthy_ostr analyte
            then latest_entry d' stationCode analyte
            else None in
          (Normal,
           alter (setPopupContent
                    (createPopupContent stationCode station analyte
                                        latestValue)) id h1)
      end
  end.

Fixpoint recolor_all (d : option AppData) (analyte : option string)
    (entries : list (string * nat)) (h : gmap nat Marker)
  : completion * gmap nat Marker :=
  match entries with
  | [] => (Normal, h)
  | (stationCode, id) :: rest =>
      match recolor d analyte stationCode id h with
      | (Normal, h') => recolor_all d analyte rest h'
      | (Throw, h') => (Throw, h')
      end
  end.

(** [updateMarkerColors(analyte)] *)
Definition updateMarkerColors (analyte : option string) (s : state)
  : completion * state :=
  let '(c, h) :=
    recolor_all (data s) analyte (map_to_list (markers s)) (heap s) in
  (c,
   {| map := map s; markers := markers s; heap := h; next := next s;
      currentAnalyte := analyte; data := data s |}).

(** [Math.max(0.5, Math.min(1.5, zoom / 13))] *)
Definition scaleFactor (zoom : Q) : Q := Qmax 0.5 (Qmin 1.5 (zoom / 13)).

Definition setRadius (r : Q) (m : Marker) : Marker :=
  {| latlng := latlng m; radius := r;
     fillColor := fillColor m; popup := popup m |}.

(** [updateMarkerSizes()], run on [zoomend]; [zoom] is what
    [this.map.getZoom()] returns. *)
Definition updateMarkerSizes (zoom : Q) (s : state) : completion * state :=
  match map s with
  | None => (Throw, s)
  | Some _ =>
      (Normal,
       {| map := map s; markers := markers s;
          heap := fold_left (λ h id, alter (setRadius (8 * scaleFactor zoom)) id h)
                            (Object_values (markers s)) (heap s);
          next := next s;
          currentAnalyte := currentAnalyte s; data := data s |})
  end.

(** [destroy()] *)
Definition destroy (s : state) : completion * state :=
  match map s with
  | None => (Normal, s)
  | Some _ =>
      match clearMarkers s with
      | (Throw, s') => (Throw, s')
      | (Normal, s') =>
          (Normal,
           {| map := None; markers := markers s'; heap := heap s';
              next := next s'; currentAnalyte := currentAnalyte s';
              data := data s' |})
      end
  end.

(** The calls made on the map manager during a page session. *)
Inductive call : Type :=
| InitMap
| SetData (d : option AppData)
| AddStationMarkers (analyte : option string)
| UpdateMarkerColors (analyte : option string)
| UpdateMarkerSizes (zoom : Q)
| ClearMarkers
| Destroy.

Definition perform (c : call) (s : state) : completion * state :=
  match c with
  | InitMap => (Normal, initMap s)
  | SetData d => (Normal, setData d s)
  | AddStationMarkers a => addStationMarkers a s
  | UpdateMarkerColors a => updateMarkerColors a s
  | UpdateMarkerSizes zoom => updateMarkerSizes zoom s
  | ClearMarkers => clearMarkers s
  | Destroy => destroy s
  end.

Definition session (cs : list call) (s : state) : state :=
  fold_left (λ st c, snd (perform c st)) cs s.

End MapManager.

(* ===================================================================== *)
(** ** SidebarManager (src/js/app.js) *)
(* ===================================================================== *)

Module SidebarManager.
Import JS Model.

(** The interpolated parts of the HTML written to [stationInfo]. *)
Record StationInfo : Type := {
  si_heading : string;
  si_code : string;
  si_location : Q * Q;
  si_measurementCount : nat;
  si_analyteCount : nat
}.

(** One item of the HTML written to [valuesList]. *)
Record ValueItem : Type := {
  vi_statusClass : string;
  vi_label : string;
  vi_number : Q;
  vi_unit : string;
  vi_date : option string
}.

(** One checkbox rendered by [setupChartControls]; its [change]
    listener calls [toggleAnalyteChart(cb_value, checked)]. *)
Record Checkbox : Type := {
  cb_value : string;
  cb_unitText : string;
  cb_checked : bool
}.

(** The elements of the page the manager writes (they are taken to
    exist).  A flag tells whether the element is displayed. *)
Record Page : Type := {
  sidebar_open : bool;               (* the sidebar has the class [open] *)
  sidebarTitle : string;
  stationInfo : option StationInfo;  (* [None]: as loaded *)
  currentValues : bool;
  valuesList : list ValueItem;
  chartControls : bool;
  chartContainer : bool
}.

Record state : Type := {
  page : Page;
  analyteCheckboxes : list Checkbox; (* those the manager rendered *)
  currentStation : option string;
  data : option AppData;
  selectedAnalytes : list string
}.

(** [new SidebarManager()] on the page [p]. *)
Definition constructor (p : Page) : state :=
  {| page := p;
     analyteCheckboxes := [];
     currentStation := None;
     data := None;
     selectedAnalytes := Set_of ["Temperature"%string] |}.

(** The manager together with [window.chartManager], which it calls. *)
Record world : Type := {
  sidebar : state;
  chartManager : ChartManager.state
}.

Definition with_page (f : Page → Page) (w : world) : world :=
  {| sidebar :=
       {| page := f (page (sidebar w));
          analyteCheckboxes := analyteCheckboxes (sidebar w);
          currentStation := currentStation (sidebar w);
          data := data (sidebar w);
          selectedAnalytes := selectedAnalytes (sidebar w) |};
     chartManager := chartManager w |}.

Definition with_chartManager (cm : ChartManager.state) (w : world) : world :=
  {| sidebar := sidebar w; chartManager := cm |}.

Definition set_open (b : bool) (p : Page) : Page :=
  {| sidebar_open := b;
     sidebarTitle := sidebarTitle p;
     stationInfo := stationInfo p;
     currentValues := currentValues p;
     valuesList := valuesList p;
     chartControls := chartControls p;
     chartContainer := chartContainer p |}.

Definition set_sidebarTitle (t : string) (p : Page) : Page :=
  {| sidebar_open := sidebar_open p;
     sidebarTitle := t;
     stationInfo := stationInfo p;
     currentValues := currentValues p;
     valuesList := valuesList p;
     chartControls := chartControls p;
     chartContainer := chartContainer p |}.

Definition set_stationInfo (i : StationInfo) (p : Page) : Page :=
  {| sidebar_open := sidebar_open p;
     sidebarTitle := sidebarTitle p;
     stationInfo := Some i;
     currentValues := currentValues p;
     valuesList := valuesList p;
     chartControls := chartControls p;
     chartContainer := chartContainer p |}.

Definition set_currentValues (b : bool) (p : Page) : Page :=
  {| sidebar_open := sidebar_open p;
     sidebarTitle := sidebarTitle p;
     stationInfo := stationInfo p;
     currentValues := b;
     valuesList := valuesList p;
     chartControls := chartControls p;
     chartContainer := chartContainer p |}.

Definition set_valuesList (items : list ValueItem) (p : Page) : Page :=
  {| sidebar_open := sidebar_open p;
     sidebarTitle := sidebarTitle p;
     stationInfo := stationInfo p;
     currentValues := currentValues p;
     valuesList := items;
     chartControls := chartControls p;
     chartContainer := chartContainer p |}.

(** [chartControls.style.display] and [chartContainer.style.display],
    always written together. *)
Definition set_chart_display (b : bool) (p : Page) : Page :=
  {| sidebar_open := sidebar_open p;
     sidebarTitle := sidebarTitle p;
     stationInfo := stationInfo p;
     currentValues := currentValues p;
     valuesList := valuesList p;
     chartControls := b;
     chartContainer := b |}.

(** A call followed by the rest of the method: an exception ends the
    method. *)
Definition and_then (r : completion * world)
    (rest : world → completion * world) : completion * world :=
  match r with
  | (Normal, w) => rest w
  | (Throw, w) => (Throw, w)
  end.

(** [show()] *)
Definition show (w : world) : world := with_page (set_open true) w.

(** [hide()] *)
Definition hide (w : world) : world :=
  with_chartManager (ChartManager.clearChart (chartManager w))
    (with_page (set_open false) w).

(** [updateStationInfo(stationCode, stationData)] *)
Definition updateStationInfo (stationCode : string) (stationData : Station)
    (w : world) : world :=
  with_page
    (set_stationInfo
       {| si_heading := if truthy_str (st_name stationData)
                        then st_name stationData else stationCode;
          si_code := stationCode;
          si_location := (st_latitude stationData, st_longitude stationData);
          si_measurementCount := st_measurement_count stationData;
          si_analyteCount := length (st_analytes stationData) |}) w.

Definition value_item (entry : string * LatestValue) : ValueItem :=
  let '(analyte, valueData) := entry in
  {| vi_statusClass := if truthy_str (lv_status valueData)
                       then lv_status valueData else "no-data";
     vi_label := analyte;
     vi_number := lv_value valueData;
     vi_unit := if truthy_ostr (lv_unit valueData)
                then " " +:+ default "" (lv_unit valueData) else "";
     vi_date := lv_date valueData |}.

(** [updateCurrentValues(stationCode)]; it throws when [this.data] is
    null. *)
Definition updateCurrentValues (stationCode : string) (w : world)
  : completion * world :=
  match data (sidebar w) with
  | None => (Throw, w)
  | Some d =>
      match latestValues d !! stationCode with
      | None => (Normal, with_page (set_currentValues false) w)
      | Some latest =>
          match map_to_list latest with
          | [] => (Normal, with_page (set_currentValues false) w)
          | entries =>
              (Normal,
               with_page (set_currentValues true)
                 (with_page (set_valuesList (map value_item entries)) w))
          end
      end
  end.

Definition checkbox_for (d : AppData) (selected : list string)
    (analyte : string) : Checkbox :=
  let unit := match ChartManager.unit_of d analyte with
              | Some u => if truthy_str u then u else ""
              | None => ""
              end in
  {| cb_value := analyte;
     cb_unitText := if truthy_str unit then " (" +:+ unit +:+ ")" else "";
     cb_checked := bool_decide (analyte ∈ selected) |}.

Definition set_checkboxes (boxes : list Checkbox) (w : world) : world :=
  {| sidebar :=
       {| page := page (sidebar w);
          analyteCheckboxes := boxes;
          currentStation := currentStation (sidebar w);
          data := data (sidebar w);
          selectedAnalytes := selectedAnalytes (sidebar w) |};
     chartManager := chartManager w |}.

(** [setupChartControls(stationCode)] *)
Definition setupChartControls (stationCode : string) (w : world)
  : completion * world :=
  match data (sidebar w) with
  | None => (Throw, w)
  | Some d =>
      match measurements d !! stationCode with
      | None => (Normal, with_page (set_chart_display false) w)
      | Some stationMeasurements =>
          match Object_keys stationMeasurements with
          | [] => (Normal, with_page (set_chart_display false) w)
          | analytes =>
              let selected := selectedAnalytes (sidebar w) in
              let w1 :=
                with_page (set_chart_display true)
                  (set_checkboxes (map (checkbox_for d selected) analytes) w) in
              let selectedForStation :=
                filter (λ analyte, analyte ∈ selected) analytes in
              let '(c, cm) :=
                ChartManager.showStation stationCode selectedForStation
                                         (chartManager w1) in
              (c, with_chartManager cm w1)
          end
      end
  end.

(** [showStation(stationCode, stationData, appData)]; [None] is an
    undefined [stationData] or a null [appData]. *)
Definition showStation (stationCode : string) (stationData : option Station)
    (appData : option AppData) (w : world) : completion * world :=
  let w1 :=
    {| sidebar :=
         {| page := page (sidebar w);
            analyteCheckboxes := analyteCheckboxes (sidebar w);
            currentStation := Some stationCode;
            data := appData;
            selectedAnalytes := selectedAnalytes (sidebar w) |};
       chartManager := chartManager w |} in
  match stationData with
  | None => (Throw, w1)
  | Some station =>
      let w2 :=
        with_page
          (set_sidebarTitle (if truthy_str (st_name station)
                             then st_name station
                             else "Station " +:+ stationCode)) w1 in
      let w3 := updateStationInfo stationCode station w2 in
      and_then (updateCurrentValues stationCode w3) (λ w4,
      and_then (setupChartControls stationCode w4) (λ w5,
      (Normal, show w5)))
  end.

(** [toggleAnalyteChart(analyte, visible)] *)
Definition toggleAnalyteChart (analyte : string) (visible : bool) (w : world)
  : completion * world :=
  let w1 :=
    {| sidebar :=
         {| page := page (sidebar w);
            analyteCheckboxes := analyteCheckboxes (sidebar w);
            currentStation := currentStation (sidebar w);
            data := data (sidebar w);
            selectedAnalytes :=
              if visible then Set_add analyte (selectedAnalytes (sidebar w))
              else Set_delete analyte (selectedAnalytes (sidebar w)) |};
       chartManager := chartManager w |} in
  let '(c, cm) := ChartManager.toggleAnalyte analyte visible (chartManager w1) in
  (c, with_chartManager cm w1).

Definition flip_box (analyte : string) (box : Checkbox) : Checkbox :=
  if bool_decide (cb_value box = analyte)
  then {| cb_value := cb_value box;
          cb_unitText := cb_unitText box;
          cb_checked := negb (cb_checked box) |}
  else box.

(** The user clicks the rendered checkbox of [analyte]: the browser
    flips it and runs its [change] listener.  Without such a checkbox
    nothing happens. *)
Definition change (analyte : string) (w : world) : completion * world :=
  match find (λ box, bool_decide (cb_value box = analyte))
             (analyteCheckboxes (sidebar w)) with
  | None => (Normal, w)
  | Some box =>
      toggleAnalyteChart analyte (negb (cb_checked box))
        (set_checkboxes (map (flip_box analyte) (analyteCheckboxes (sidebar w)))
                        w)
  end.

(** What reaches the manager during a page session: a marker click
    ([showStation]), the close button, the Escape key or a click on the
    map ([hide]), a click on a checkbox. *)
Inductive call : Type :=
| ShowStation (stationCode : string) (stationData : option Station)
              (appData : option AppData)
| Hide
| Change (analyte : string).

Definition perform (c : call) (w : world) : completion * world :=
  match c with
  | ShowStation stationCode stationData appData =>
      showStation stationCode stationData appData w
  | Hide => (Normal, hide w)
  | Change analyte => change analyte w
  end.

Definition session (cs : list call) (w : world) : world :=
  fold_left (λ st c, snd (perform c st)) cs w.

End SidebarManager.

(* ===================================================================== *)
(** ** CreekMonitoringApp (src/js/app.js) *)
(* ===================================================================== *)

Module CreekMonitoringApp.
Import JS Model.

(** The analyte selector: the values of its options and its value. *)
Record Select : Type := {
  options : list string;
  value : string
}.

(** [select.value = v]: an option with that value is selected;
    without one the selection is emptied. *)
Definition set_value (v : string) (sel : Select) : Select :=
  {| options := options sel;
     value := if decide (v ∈ options sel) then v else "" |}.

(** The elements of the page the application writes (they are taken
    to exist). *)
Record Page : Type := {
  analyteSelect : Select;
  loadingIndicator : bool;
  errorMessage : string;
  errorModal : bool
}.

(** The application with the three global managers. *)
Record state : Type := {
  data : option AppData;
  currentAnalyte : option string;
  loading : bool;
  page : Page;
  mapManager : MapManager.state;
  ui : SidebarManager.world
}.

(** [new CreekMonitoringApp()] on a freshly loaded page. *)
Definition constructor (p : Page) (sp : SidebarManager.Page) : state :=
  {| data := None;
     currentAnalyte := None;
     loading := false;
     page := p;
     mapManager := MapManager.constructor;
     ui := {| SidebarManager.sidebar := SidebarManager.constructor sp;
              SidebarManager.chartManager := ChartManager.constructor |} |}.

Definition with_page (f : Page → Page) (s : state) : state :=
  {| data := data s; currentAnalyte := currentAnalyte s; loading := loading s;
     page := f (page s); mapManager := mapManager s; ui := ui s |}.

Definition with_loading (b : bool) (s : state) : state :=
  {| data := data s; currentAnalyte := currentAnalyte s; loading := b;
     page := page s; mapManager := mapManager s; ui := ui s |}.

Definition with_mapManager (mm : MapManager.state) (s : state) : state :=
  {| data := data s; currentAnalyte := currentAnalyte s; loading := loading s;
     page := page s; mapManager := mm; ui := ui s |}.

Definition with_ui (w : SidebarManager.world) (s : state) : state :=
  {| data := data s; currentAnalyte := currentAnalyte s; loading := loading s;
     page := page s; mapManager := mapManager s; ui := w |}.

Definition set_loadingIndicator (b : bool) (p : Page) : Page :=
  {| analyteSelect := analyteSelect p; loadingIndicator := b;
     errorMessage := errorMessage p; errorModal := errorModal p |}.

Definition set_analyteSelect (sel : Select) (p : Page) : Page :=
  {| analyteSelect := sel; loadingIndicator := loadingIndicator p;
     errorMessage := errorMessage p; errorModal := errorModal p |}.

(** [showLoading()] and [hideLoading()] *)
Definition showLoading (s : state) : state :=
  with_page (set_loadingIndicator true) (with_loading true s).

Definition hideLoading (s : state) : state :=
  with_page (set_loadingIndicator false) (with_loading false s).

(** [showError(message)] and [hideError()] *)
Definition showError (message : string) (s : state) : state :=
  with_page (λ p, {| analyteSelect := analyteSelect p;
                     loadingIndicator := loadingIndicator p;
                     errorMessage := message; errorModal := true |}) s.

Definition hideError (s : state) : state :=
  with_page (λ p, {| analyteSelect := analyteSelect p;
                     loadingIndicator := loadingIndicator p;
                     errorMessage := errorMessage p; errorModal := false |}) s.

(** [setupAnalyteSelector()]: the placeholder option, then one option
    per analyte. *)
Definition setupAnalyteSelector (s : state) : state :=
  match data s with
  | None => s
  | Some d =>
      with_page
        (set_analyteSelect
           {| options := ""%string :: DataLoader.getAnalytes d;
              value := "" |}) s
  end.

(** [selectAnalyte(analyte)] *)
Definition selectAnalyte (analyte : string) (s : state) : completion * state :=
  let s1 :=
    {| data := data s; currentAnalyte := Some analyte; loading := loading s;
       page := page s; mapManager := mapManager s; ui := ui s |} in
  let '(c, mm) :=
    if truthy_str analyte
    then MapManager.updateMarkerColors (Some analyte) (mapManager s1)
    else MapManager.addStationMarkers None (mapManager s1) in
  let s2 := with_mapManager mm s1 in
  match c with
  | Throw => (Throw, s2)
  | Normal =>
      if truthy_ostr (SidebarManager.currentStation
                        (SidebarManager.sidebar (ui s2)))
         && truthy_str analyte
      then
        let stationCode :=
          default ""%string (SidebarManager.currentStation
                               (SidebarManager.sidebar (ui s2))) in
        match data s2 with
        | None => (Throw, s2)
        | Some d =>
            let '(c', w) :=
              SidebarManager.showStation stationCode
                (stations d !! stationCode) (Some d) (ui s2) in
            (c', with_ui w s2)
        end
      else (Normal, s2)
  end.

(** [setupInitialMapView()] *)
Definition setupInitialMapView (s : state) : completion * state :=
  match MapManager.addStationMarkers None (mapManager s) with
  | (Throw, mm) => (Throw, with_mapManager mm s)
  | (Normal, mm) =>
      selectAnalyte "Temperature"
        (with_page (λ p, set_analyteSelect
                           (set_value "Temperature" (analyteSelect p)) p)
                   (with_mapManager mm s))
  end.

Definition load_error_message : string :=
  "Failed to load application data. Please check your connection and try again.".

(** [init()], given how [loadAllData()] settled; [canvas] tells whether
    the chart's canvas element exists.  An exception of the set-up
    steps is caught like a failed load. *)
Definition init (loaded : DataLoader.outcome AppData) (canvas : bool)
    (s : state) : state :=
  let s1 := showLoading s in
  match loaded with
  | DataLoader.Failed _ => showError load_error_message (hideLoading s1)
  | DataLoader.Resolved d =>
      let s2 :=
        {| data := Some d; currentAnalyte := currentAnalyte s1;
           loading := loading s1; page := page s1;
           mapManager := mapManager s1; ui := ui s1 |} in
      let s3 :=
        with_mapManager
          (MapManager.setData (Some d) (MapManager.initMap (mapManager s2)))
          s2 in
      let s4 :=
        with_ui
          (SidebarManager.with_chartManager
             (ChartManager.initChart d canvas
                (SidebarManager.chartManager (ui s3))) (ui s3)) s3 in
      match setupInitialMapView (setupAnalyteSelector s4) with
      | (Normal, s5) => hideLoading s5
      | (Throw, s5) => showError load_error_message (hideLoading s5)
      end
  end.

(** [destroy()] *)
Definition destroy (s : state) : completion * state :=
  match MapManager.destroy (mapManager s) with
  | (Throw, mm) => (Throw, with_mapManager mm s)
  | (Normal, mm) =>
      (Normal,
       with_ui
         (SidebarManager.with_chartManager
            (ChartManager.destroy (SidebarManager.chartManager (ui s))) (ui s))
         (with_mapManager mm s))
  end.

(** What happens on the page once the application runs: the user
    picks an option of the selector, the map ends a zoom, or an event
    reaches the sidebar.  Picking the option [analyte] (nothing happens
    without such an option) sets the selector's value and runs its
    [change] listener. *)
Inductive event : Type :=
| SelectAnalyte (analyte : string)
| ZoomEnd (zoom : Q)
| Sidebar (c : SidebarManager.call).

Definition handle (e : event) (s : state) : completion * state :=
  match e with
  | SelectAnalyte analyte =>
      if decide (analyte ∈ options (analyteSelect (page s)))
      then
        selectAnalyte analyte
          (with_page (λ p, set_analyteSelect
                             (set_value analyte (analyteSelect p)) p) s)
      else (Normal, s)
  | ZoomEnd zoom =>
      let '(c, mm) := MapManager.updateMarkerSizes zoom (mapManager s) in
      (c, with_mapManager mm s)
  | Sidebar call =>
      let '(c, w) := SidebarManager.perform call (ui s) in
      (c, with_ui w s)
  end.

Definition run (es : list event) (s : state) : state :=
  fold_left (λ st e, snd (handle e st)) es s.

End CreekMonitoringApp.

(* ===================================================================== *)
(** ** Sample data *)
(* ===================================================================== *)

Module Sample.
Import Model.

(** One station with two series. *)
Definition creek_data : AppData :=
  {| stations := ∅;
     measurements :=
       {[ "SRA100"%string :=
            {[ "Temperature"%string :=
                 [ {| m_date := Some "2024-01-01"%string; m_value := 10 |};
                   {| m_date := Some "2024-01-08"%string; m_value := 20 |} ];
               "pH"%string :=
                 [ {| m_date := Some "2024-01-01"%string; m_value := 7 |} ] ]} ]};
     latestValues := ∅;
     analyteRanges :=
       {[ "Temperature"%string :=
            {| range_min := None; range_max := Some 24%Q;
               range_unit := Some "Deg C"%string |};
          "pH"%string :=
            {| range_min := Some 6.5%Q; range_max := Some 8.5%Q;
               range_unit := None |};
          "Nitrate"%string :=
            {| range_min := None; range_max := Some 45%Q;
               range_unit := Some "mg/L"%string |} ]} |}.

(** Two stations with their latest pH: 9.0 at SRA190, outside
    [6.5, 8.5], and 7.0 at SRA100, inside. *)
Definition two_pH : AppData :=
  {| stations :=
       {[ "SRA190"%string :=
            {| st_name := "Station SRA190"; st_latitude := 37.7714199;
               st_longitude := -121.9883528;
               st_analytes := ["pH"]%string; st_measurement_count := 1 |};
          "SRA100"%string :=
            {| st_name := "Station SRA100"; st_latitude := 37.8647308;
               st_longitude := -122.0391426;
               st_analytes := ["pH"]%string; st_measurement_count := 1 |} ]};
     measurements := ∅;
     latestValues :=
       {[ "SRA190"%string :=
            {[ "pH"%string :=
                 {| lv_value := 9; lv_date := Some "2024-06-01"%string;
                    lv_status := "outside_range"; lv_unit := None |} ]};
          "SRA100"%string :=
            {[ "pH"%string :=
                 {| lv_value := 7; lv_date := Some "2024-06-01"%string;
                    lv_status := "acceptable"; lv_unit := None |} ]} ]};
     analyteRanges :=
       {[ "pH"%string :=
            {| range_min := Some 6.5%Q; range_max := Some 8.5%Q;
               range_unit := None |} ]} |}.

End Sample.

(* ===================================================================== *)
(** ** Facts about the JavaScript fragments *)
(* ===================================================================== *)

Module JSFacts.
Import JS.










Lemma elem_of_Set_add (x y : string) (s : list string) :
  y ∈ Set_add x s ↔ y = x ∨ y ∈ s.
Proof.
  unfold Set_add. case_decide as Hx.
  - split; [tauto|]. intros [->|]; done.
  - rewrite elem_of_app, list_elem_of_singleton. tauto.
Qed.

Lemma NoDup_Set_add (x : string) (s : list string) :
  NoDup s → NoDup (Set_add x s).
Proof.
  intros Hs. unfold Set_add. case_decide; [done|].
  apply NoDup_app. split_and!; [done | | apply NoDup_singleton].
  intros y Hy ->%list_elem_of_singleton. done.
Qed.

Lemma elem_of_Object_keys {V : Type} (o : gmap string V) (k : string) :
  k ∈ Object_keys o ↔ is_Some (o !! k).
Proof.
  unfold Object_keys. rewrite list_elem_of_fmap. split.
  - intros ([k' v] & -> & H). apply elem_of_map_to_list in H. by exists v.
  - intros [v H]. exists (k, v). split; [done|].
    by apply elem_of_map_to_list.
Qed.

Lemma elem_of_Object_values {V : Type} (o : gmap string V) (v : V) :
  v ∈ Object_values o ↔ ∃ k, o !! k = Some v.
Proof.
  unfold Object_values. rewrite list_elem_of_fmap. split.
  - intros ([k v'] & -> & H). apply elem_of_map_to_list in H. by exists k.
  - intros [k H]. exists (k, v). split; [done|].
    by apply elem_of_map_to_list.
Qed.

End JSFacts.

(* ===================================================================== *)
(** ** ChartManager: axis fit *)
(* ===================================================================== *)

Module AxisFit.
Import JS Model ChartManager JSFacts.



(** The padding as the specification words it: a tenth of the span
    when the span is positive; otherwise a tenth of the magnitude of
    the single value, or 1 when that value is zero. *)
Definition spec_padding (lo hi : Q) : Q :=
  if Qlt_le_dec 0 (hi - lo) then (0.1 * (hi - lo))%Q
  else if Qeq_dec lo 0 then 1%Q
  else (0.1 * Qabs lo)%Q.







Lemma spec_padding_nonneg (lo hi : Q) : (0 <= spec_padding lo hi)%Q.
Proof.
  unfold spec_padding.
  destruct (Qlt_le_dec 0 (hi - lo)); [lra|].
  destruct (Qeq_dec lo 0); [lra|].
  pose proof (Qabs_nonneg lo). lra.
Qed.






(** A single repeated reading: [5, 5, 5] is padded by 0.5 on both
    sides. *)
Example fit_5_5_5 :
  (padding 5 5 == 0.5)%Q ∧
  (Qmax 0 (Math_min 5 [5; 5]%Q - padding 5 5) == 4.5)%Q ∧
  (Math_max 5 [5; 5]%Q + padding 5 5 == 5.5)%Q.
Proof. repeat split; vm_compute; reflexivity. Qed.

(** A single reading equal to zero: the default padding 1. *)
Example fit_0 :
  (padding 0 0 == 1)%Q ∧ (Qmax 0 (0 - padding 0 0) == 0)%Q.
Proof. split; vm_compute; reflexivity. Qed.

End AxisFit.

(* ===================================================================== *)
(** ** DataLoader: request de-duplication and the load-once cache *)
(* ===================================================================== *)

Module LoadOnce.
Import JS DataLoader.

(** What every state of a session satisfies: the in-flight table names
    exactly the pending promises, each under its own key, and a key
    with a request in flight has no truthy cached value. *)
Record inv (s : state) : Prop := {
  inv_loading : ∀ k id, loading s !! k = Some id →
    ∃ p, promises s !! id = Some p ∧ p_key p = k ∧ p_state p = Pending;
  inv_pending : ∀ id p, promises s !! id = Some p → p_state p = Pending →
    loading s !! p_key p = Some id;
  inv_cache : ∀ k id, loading s !! k = Some id →
    truthy_opt (cache s !! k) = false
}.

Lemma inv_constructor : inv constructor.
Proof.
  split; simpl.
  - intros k id H. by rewrite lookup_empty in H.
  - intros id p H. by rewrite lookup_nil in H.
  - intros k id H. by rewrite lookup_empty in H.
Qed.

Lemma loadJSON_hit (url k : string) (s : state) (v : JSON) :
  cache s !! k = Some v → truthy v = true →
  loadJSON url k s = (Value v, s).
Proof.
  intros Hc Ht. unfold loadJSON. rewrite Hc. simpl. by rewrite Ht.
Qed.

Lemma loadJSON_join (url k : string) (s : state) (id : nat) :
  truthy_opt (cache s !! k) = false → loading s !! k = Some id →
  loadJSON url k s = (Promise id, s).
Proof.
  intros Hc Hl. unfold loadJSON. by rewrite Hc, Hl.
Qed.

Lemma loadJSON_miss (url k : string) (s : state) :
  truthy_opt (cache s !! k) = false → loading s !! k = None →
  loadJSON url k s = start_fetch url k s.
Proof.
  intros Hc Hl. unfold loadJSON. by rewrite Hc, Hl.
Qed.

Lemma inv_start_fetch (url k : string) (s : state) :
  inv s → truthy_opt (cache s !! k) = false → loading s !! k = None →
  inv (snd (start_fetch url k s)).
Proof.
  intros [HL HP HC] Hc Hl. split; simpl.
  - intros k' id. destruct (decide (k = k')) as [<-|Hne].
    + rewrite lookup_insert_eq. intros [= <-].
      exists {| p_url := url; p_key := k; p_state := Pending |}.
      split; [|done].
      rewrite lookup_app_r, Nat.sub_diag; [done | lia].
    + rewrite lookup_insert_ne by done. intros H.
      destruct (HL _ _ H) as (p & Hp & Hk & Hs).
      exists p. split; [|done].
      by apply lookup_app_l_Some.
  - intros id p Hp Hs.
    apply lookup_app_Some in Hp as [Hp|[Hlen Hp]].
    + pose proof (HP _ _ Hp Hs) as Hld.
      rewrite lookup_insert_ne; [done|]. intros ->. congruence.
    + apply list_lookup_singleton_Some in Hp as [Hid <-]. simpl.
      rewrite lookup_insert_eq. f_equal. lia.
  - intros k' id. destruct (decide (k = k')) as [<-|Hne].
    + done.
    + rewrite lookup_insert_ne by done. apply HC.
Qed.

Lemma inv_loadJSON (url k : string) (s : state) :
  inv s → inv (snd (loadJSON url k s)).
Proof.
  intros Hi. unfold loadJSON.
  destruct (truthy_opt (cache s !! k)) eqn:Hc; [done|].
  destruct (loading s !! k) eqn:Hl; [done|].
  by apply inv_start_fetch.
Qed.

(** The key of a pending promise is the only key the answer to it can
    touch, and that key has no other request in flight. *)
Lemma inv_settle (id : nat) (r : response) (s : state) :
  inv s → inv (settle id r s).
Proof.
  intros [HL HP HC]. unfold settle.
  destruct (promises s !! id) as [p|] eqn:Hp; [|done].
  destruct (p_state p) eqn:Hs; try done.
  pose proof (HP _ _ Hp Hs) as Hld.
  assert (Hlt : id < length (promises s)) by (by eapply lookup_lt_Some).
  assert (HL' : ∀ st k id',
    delete (p_key p) (loading s) !! k = Some id' →
    ∃ q, <[id := set_state st p]> (promises s) !! id' = Some q
         ∧ p_key q = k ∧ p_state q = Pending).
  { intros st k id' H.
    apply lookup_delete_Some in H as [Hne H].
    destruct (HL _ _ H) as (q & Hq & Hk & Hqs).
    exists q. split; [|done].
    rewrite list_lookup_insert_ne; [done|].
    intros <-. congruence. }
  assert (HP' : ∀ st id' q, st ≠ Pending →
    <[id := set_state st p]> (promises s) !! id' = Some q →
    p_state q = Pending →
    delete (p_key p) (loading s) !! p_key q = Some id').
  { intros st id' q Hst Hq Hqs.
    destruct (decide (id = id')) as [<-|Hne].
    - rewrite list_lookup_insert_eq in Hq by done.
      injection Hq as <-. simpl in Hqs. congruence.
    - rewrite list_lookup_insert_ne in Hq by done.
      pose proof (HP _ _ Hq Hqs) as Hq'.
      rewrite lookup_delete_ne; [done|].
      intros Hk. rewrite Hk in Hld. congruence. }
  assert (HC' : ∀ k id',
    delete (p_key p) (loading s) !! k = Some id' →
    p_key p ≠ k ∧ truthy_opt (cache s !! k) = false).
  { intros k id' H. apply lookup_delete_Some in H as [Hne H]. eauto. }
  destruct r; split; simpl;
    try (by apply HL'); try (by intros id' q; apply HP').
  - intros k id' H. destruct (HC' _ _ H) as [Hne Hk].
    by rewrite lookup_insert_ne.
  - intros k id' H. by destruct (HC' _ _ H).
  - intros k id' H. by destruct (HC' _ _ H).
Qed.




Lemma reachable_run (es : list event) (s : state) :
  reachable s → reachable (run es s).
Proof.
  intros [es0 ->]. exists (es0 ++ es). unfold run.
  by rewrite fold_left_app.
Qed.



Lemma settle_ok_cache (id : nat) (p : promise) (v : JSON) (s : state) :
  promises s !! id = Some p → p_state p = Pending →
  cache (settle id (Ok_json v) s) !! p_key p = Some v.
Proof.
  intros Hp Hs. unfold settle. rewrite Hp, Hs. simpl.
  apply lookup_insert_eq.
Qed.

Lemma settle_loading (id : nat) (p : promise) (r : response) (s : state) :
  promises s !! id = Some p → p_state p = Pending →
  loading (settle id r s) !! p_key p = None.
Proof.
  intros Hp Hs. unfold settle. rewrite Hp, Hs.
  destruct r; simpl; apply lookup_delete_eq.
Qed.

Lemma settle_requests (id : nat) (r : response) (s : state) :
  requests (settle id r s) = requests s.
Proof.
  unfold settle, requests.
  destruct (promises s !! id) as [p|]; [|done].
  destruct (p_state p); try done.
  destruct r; simpl; by rewrite length_insert.
Qed.






(** [n] loads of the same resource, one after the other, each answered
    with the body [v] before the next starts. *)
Definition rounds (url k : string) (v : JSON) (n : nat) : list event :=
  flat_map (λ i, [Call url k; Answer i (Ok_json v)]) (seq 0 n).

Lemma truthy_opt_constructor (k : string) :
  truthy_opt (cache constructor !! k) = false.
Proof.
  unfold constructor, empty_cache. simpl.
  repeat (rewrite lookup_insert; case_decide; [done|]).
  by rewrite lookup_empty.
Qed.

Lemma run_app (es1 es2 : list event) (s : state) :
  run (es1 ++ es2) s = run es2 (run es1 s).
Proof. apply fold_left_app. Qed.

(** After [n] such rounds with a falsy body, [n] requests have been
    issued, none is in flight and the key still has no truthy value. *)
Lemma rounds_falsy_state (url k : string) (v : JSON) (n : nat) :
  truthy v = false →
  requests (run (rounds url k v n) constructor) = n ∧
  loading (run (rounds url k v n) constructor) !! k = None ∧
  truthy_opt (cache (run (rounds url k v n) constructor) !! k) = false.
Proof.
  intros Hv. induction n as [|n IH].
  - split_and!; [done | apply lookup_empty | apply truthy_opt_constructor].
  - unfold rounds in *. rewrite seq_S, flat_map_app, run_app.
    destruct IH as (Hn & Hl & Hc).
    set (s := run (flat_map _ (seq 0 n)) constructor) in *.
    cbn [flat_map app run fold_left step Nat.add].
    rewrite (loadJSON_miss url k s Hc Hl).
    unfold requests in Hn.
    assert (Hp : (promises s ++ [{| p_url := url; p_key := k; p_state := Pending |}])
                 !! n = Some {| p_url := url; p_key := k; p_state := Pending |}).
    { rewrite lookup_app_r, Hn, Nat.sub_diag; [done | lia]. }
    unfold settle, start_fetch. cbn [snd promises]. rewrite Hn, Hp.
    cbn [p_state p_key cache loading promises]. split_and!.
    + unfold requests. cbn [promises].
      rewrite length_insert, length_app. simpl. lia.
    + apply lookup_delete_eq.
    + rewrite lookup_insert_eq. done.
Qed.

(** C9.  The cache-hit test is a truthiness test.  When the request of
    a pending promise is answered successfully with a falsy JSON value
    (such as null, false, 0 or the empty string), the value is stored,
    yet the next call for the key does not return it: it issues a new
    request.  Loading such a resource [n] times in a row issues [n]
    requests. *)
Theorem loadJSON_falsy_refetch (s : state) (id : nat) (p : promise)
    (v : JSON) (url : string) (n : nat) :
  reachable s →
  promises s !! id = Some p → p_state p = Pending →
  truthy v = false →
  let s1 := settle id (Ok_json v) s in
  cache s1 !! p_key p = Some v ∧
  loadJSON url (p_key p) s1 = start_fetch url (p_key p) s1 ∧
  requests (loadJSON url (p_key p) s1).2 = S (requests s1) ∧
  requests (run (rounds url (p_key p) v n) constructor) = n ∧
  truthy JNull = false ∧ truthy (JBool false) = false ∧
  truthy (JNum 0) = false ∧ truthy (JStr "") = false.
Proof.
  intros Hr Hp Hs Hv s1.
  assert (Hm : loadJSON url (p_key p) s1 = start_fetch url (p_key p) s1).
  { apply loadJSON_miss.
    - unfold s1. by rewrite (settle_ok_cache id p v s Hp Hs).
    - by apply settle_loading. }
  split_and!; try done.
  - by apply settle_ok_cache.
  - rewrite Hm. unfold start_fetch, requests. simpl.
    rewrite length_app. simpl. lia.
  - by apply rounds_falsy_state.
Qed.

Lemma loadJSON_falsy_refetch_witness :
  let s := run [Call "data/stations.json" "stations"] constructor in
  let s1 := settle 0 (Ok_json JNull) s in
  cache s1 !! "stations"%string = Some JNull ∧
  loadJSON "data/stations.json" "stations" s1
  = start_fetch "data/stations.json" "stations" s1 ∧
  requests (loadJSON "data/stations.json" "stations" s1).2 = S (requests s1) ∧
  requests (run (rounds "data/stations.json" "stations" JNull 3) constructor) = 3 ∧
  truthy JNull = false ∧ truthy (JBool false) = false ∧
  truthy (JNum 0) = false ∧ truthy (JStr "") = false.
Proof.
  apply (loadJSON_falsy_refetch
           (run [Call "data/stations.json" "stations"] constructor) 0
           {| p_url := "data/stations.json"; p_key := "stations";
              p_state := Pending |}
           JNull "data/stations.json" 3).
  - by eexists.
  - reflexivity.
  - reflexivity.
  - reflexivity.
Defined.

(** With a truthy body the same three loads issue one request. *)
Example rounds_truthy_once :
  requests (run (rounds "data/stations.json" "stations" (JObj []) 3)
                constructor) = 1.
Proof. vm_compute. reflexivity. Qed.

End LoadOnce.

(* ===================================================================== *)
(** ** DataLoader: the error contract of [loadAllData] *)
(* ===================================================================== *)

Module ErrorContract.
Import JS Model DataLoader.

Lemma Promise_all2_result {A B : Type} (x : awaited A) (y : awaited B) :
  match result (Promise_all2 x y) with
  | Resolved (a, b) => result x = Resolved a ∧ result y = Resolved b
  | Failed e => result x = Failed e ∨ result y = Failed e
  end.
Proof.
  unfold Promise_all2.
  destruct (result x) as [a|e1], (result y) as [b|e2]; simpl; auto.
  destruct (Nat.leb (settled_at x) (settled_at y)); simpl; auto.
Qed.

Section Contract.

Variable generateTimeSeries : string → string → AnalyteRange → list Measurement.

Variable loadStations : awaited (gmap string Station).
Variable loadMeasurements : awaited (gmap string (gmap string (list Measurement))).
Variable loadLatestValues : awaited (gmap string (gmap string LatestValue)).
Variable loadAnalyteRanges : awaited (gmap string AnalyteRange).

(** The join of the three loads that have a fallback. *)
Lemma join3_result :
  match result (Promise_all2 (Promise_all2 loadStations loadMeasurements)
                             loadLatestValues) with
  | Resolved (s, m, l) =>
      result loadStations = Resolved s ∧
      result loadMeasurements = Resolved m ∧
      result loadLatestValues = Resolved l
  | Failed e =>
      result loadStations = Failed e ∨
      result loadMeasurements = Failed e ∨
      result loadLatestValues = Failed e
  end.
Proof.
  pose proof (Promise_all2_result (Promise_all2 loadStations loadMeasurements)
                                  loadLatestValues) as H3.
  pose proof (Promise_all2_result loadStations loadMeasurements) as H2.
  destruct (result (Promise_all2 (Promise_all2 loadStations loadMeasurements)
                                 loadLatestValues)) as [[[s m] l]|e].
  - destruct H3 as [H3 ?]. rewrite H3 in H2. tauto.
  - destruct H3 as [H3|H3]; [|tauto]. rewrite H3 in H2. tauto.
Qed.

(** C4.  [loadAllData] settles in one of two ways, never with a partial
    aggregate.  Without a fallback (src/js/data-loader.js): it resolves
    to the aggregate of the four loaded resources when all four loads
    succeed, and otherwise fails with the error of a failed load; the
    controller then shows its error and initializes nothing.  In the
    revision with demo data: a failed load of the analyte ranges, which
    have no fallback, is propagated; otherwise the result carries the
    loaded ranges together with either the three loaded resources or
    the three generated ones, and it fails only if the generation
    throws. *)
Theorem loadAllData_contract :
  match loadAllData loadStations loadMeasurements loadLatestValues
                    loadAnalyteRanges with
  | Resolved d =>
      result loadStations = Resolved (stations d) ∧
      result loadMeasurements = Resolved (measurements d) ∧
      result loadLatestValues = Resolved (latestValues d) ∧
      result loadAnalyteRanges = Resolved (analyteRanges d) ∧
      App.data (App.init (Resolved d)) = Some d
  | Failed e =>
      (result loadStations = Failed e ∨
       result loadMeasurements = Failed e ∨
       result loadLatestValues = Failed e ∨
       result loadAnalyteRanges = Failed e) ∧
      App.data (App.init (Failed e)) = None ∧
      App.widgets_initialized (App.init (Failed e)) = false ∧
      App.error_message (App.init (Failed e)) ≠ None
  end ∧
  match loadAllData_demo generateTimeSeries loadStations loadMeasurements
                         loadLatestValues loadAnalyteRanges with
  | Resolved d =>
      result loadAnalyteRanges = Resolved (analyteRanges d) ∧
      ((result loadStations = Resolved (stations d) ∧
        result loadMeasurements = Resolved (measurements d) ∧
        result loadLatestValues = Resolved (latestValues d)) ∨
       ((∃ e, result loadStations = Failed e ∨
              result loadMeasurements = Failed e ∨
              result loadLatestValues = Failed e) ∧
        generateDemoData generateTimeSeries (analyteRanges d)
        = Some (stations d, measurements d, latestValues d)))
  | Failed e =>
      result loadAnalyteRanges = Failed e ∨
      (∃ r, result loadAnalyteRanges = Resolved r ∧
            generateDemoData generateTimeSeries r = None)
  end.
Proof.
  split.
  - unfold loadAllData.
    pose proof (Promise_all2_result
                  (Promise_all2 (Promise_all2 loadStations loadMeasurements)
                                loadLatestValues)
                  loadAnalyteRanges) as H4.
    pose proof join3_result as H3.
    destruct (result (Promise_all2
                        (Promise_all2 (Promise_all2 loadStations loadMeasurements)
                                      loadLatestValues)
                        loadAnalyteRanges)) as [[[[s m] l] r]|e].
    + destruct H4 as [H4 ?]. rewrite H4 in H3. simpl. tauto.
    + simpl. split_and!; try done.
      destruct H4 as [H4|H4]; [|tauto]. rewrite H4 in H3. tauto.
  - unfold loadAllData_demo.
    destruct (result loadAnalyteRanges) as [r|e]; [|by left].
    pose proof join3_result as H3.
    destruct (result (Promise_all2 (Promise_all2 loadStations loadMeasurements)
                                   loadLatestValues)) as [[[s m] l]|e].
    + simpl. split; [done|]. by left.
    + destruct (generateDemoData generateTimeSeries r) as [[[s m] l]|] eqn:Hg.
      * simpl. split; [done|]. right. split; [by exists e | done].
      * right. by exists r.
Qed.

End Contract.

(** A failed load of the stations: the revision without a fallback
    fails with that error, while the revision with demo data resolves to
    the generated stations. *)
Definition one_reading (_ _ : string) (_ : AnalyteRange) : list Measurement :=
  [ {| m_date := Some "2024-06-01T00:00:00.000Z"%string; m_value := 7 |} ].

Definition pH_only : gmap string AnalyteRange :=
  {[ "pH"%string := {| range_min := Some 6.5%Q; range_max := Some 8.5%Q;
                       range_unit := None |} ]}.

Example stations_fail :
  let st := {| settled_at := 1; result := Failed "HTTP error! status: 404" |} in
  let ms := {| settled_at := 2; result := Resolved ∅ |} in
  let lv := {| settled_at := 3; result := Resolved ∅ |} in
  let ar := {| settled_at := 0; result := Resolved pH_only |} in
  loadAllData st ms lv ar = Failed "HTTP error! status: 404" ∧
  (∃ d, loadAllData_demo one_reading st ms lv ar = Resolved d ∧
        dom (stations d) = list_to_set (stationCoords.*1)).
Proof.
  split; [reflexivity|].
  eexists. split; [vm_compute; reflexivity|]. vm_compute. reflexivity.
Qed.

End ErrorContract.

(* ===================================================================== *)
(** ** DataLoader: status classification of the demo data *)
(* ===================================================================== *)

Module DemoStatus.
Import JS Model DataLoader JSFacts.

(** A loop whose body stores, under the key of each element, a value
    related to that key by [R]: after the loop every key of the list
    holds such a value and the other keys are as before. *)
Lemma forEach_insert {A S V : Type} (body : S → A → option S)
    (key : A → string) (proj : S → gmap string V)
    (R : string → V → Prop) (xs : list A) :
  (∀ s x, x ∈ xs →
     ∃ s' v, body s x = Some s' ∧ proj s' = <[key x := v]> (proj s)
             ∧ R (key x) v) →
  ∀ s, ∃ s', forEach body xs s = Some s' ∧
    ∀ k, (k ∈ key <$> xs → ∃ v, proj s' !! k = Some v ∧ R k v) ∧
         (k ∉ key <$> xs → proj s' !! k = proj s !! k).
Proof.
  induction xs as [|x xs IH]; intros Hbody s.
  - exists s. split; [done|]. intros k. split; [|done].
    intros Hk. by apply elem_of_nil in Hk.
  - destruct (Hbody s x) as (s1 & v & Hs1 & Hproj & HR); [by left|].
    destruct (IH (λ s x Hx, Hbody s x (list_elem_of_further _ _ _ Hx)) s1)
      as (s' & Hs' & Hk').
    exists s'. simpl. rewrite Hs1. split; [done|].
    intros k. destruct (Hk' k) as [Hin Hout].
    destruct (decide (k ∈ key <$> xs)) as [Hk|Hk].
    + split; [auto|]. intros Hn. exfalso. apply Hn. by right.
    + rewrite (Hout Hk), Hproj. split.
      * intros [->|?]%elem_of_cons; [|done].
        exists v. by rewrite lookup_insert_eq.
      * intros Hn. rewrite lookup_insert_ne; [done|].
        intros Heq. apply Hn. rewrite <- Heq. by left.
Qed.

(** The two bounds of a range, as the specification reads them. *)
Definition within (range : AnalyteRange) (value : Q) : Prop :=
  (∀ lo, range_min range = Some lo → (lo <= value)%Q) ∧
  (∀ hi, range_max range = Some hi → (value <= hi)%Q).

Lemma demo_status_no_range (range : AnalyteRange) (value : Q) :
  range_min range = None → range_max range = None →
  demo_status range value = "no_range"%string.
Proof.
  intros Hlo Hhi. unfold demo_status. by rewrite Hlo, Hhi.
Qed.

Lemma demo_status_bounded (range : AnalyteRange) (value : Q) :
  range_min range ≠ None ∨ range_max range ≠ None →
  (demo_status range value = "acceptable"%string ↔ within range value) ∧
  (demo_status range value ≠ "acceptable"%string →
   demo_status range value = "outside_range"%string).
Proof.
  intros Hb. unfold demo_status, within.
  assert (Hnn : not_null (range_min range) || not_null (range_max range) = true).
  { destruct (range_min range), (range_max range); simpl; try done.
    by destruct Hb. }
  rewrite Hnn. clear Hb Hnn.
  destruct (range_min range) as [lo|], (range_max range) as [hi|]; simpl.
  - destruct (Qle_bool lo value) eqn:H1, (Qle_bool value hi) eqn:H2; simpl;
      (split; [split|]); try done.
    + intros _. split; intros ? [= <-]; by apply Qle_bool_iff.
    + intros [_ H]. specialize (H hi eq_refl).
      apply Qle_bool_iff in H. congruence.
    + intros [H _]. specialize (H lo eq_refl).
      apply Qle_bool_iff in H. congruence.
    + intros [H _]. specialize (H lo eq_refl).
      apply Qle_bool_iff in H. congruence.
  - rewrite andb_true_r.
    destruct (Qle_bool lo value) eqn:H1; (split; [split|]); try done.
    + intros _. split; [|done]. intros ? [= <-]. by apply Qle_bool_iff.
    + intros [H _]. specialize (H lo eq_refl).
      apply Qle_bool_iff in H. congruence.
  - destruct (Qle_bool value hi) eqn:H2; (split; [split|]); try done.
    + intros _. split; [done|]. intros ? [= <-]. by apply Qle_bool_iff.
    + intros [_ H]. specialize (H hi eq_refl).
      apply Qle_bool_iff in H. congruence.
  - split; [split|]; done.
Qed.

(** The entry [latestValues[stationCode][analyte]] written for a range
    and the series generated for it. *)
Definition latest_of (gen : string → string → AnalyteRange → list Measurement)
    (analyteRanges : gmap string AnalyteRange) (stationCode analyte : string)
    (lv : LatestValue) : Prop :=
  ∃ range latest,
    analyteRanges !! analyte = Some range ∧
    last (gen stationCode analyte range) = Some latest ∧
    lv_value lv = m_value latest ∧
    lv_date lv = m_date latest ∧
    lv_unit lv = range_unit range ∧
    lv_status lv = demo_status range (m_value latest).

Section Generated.

Variable generateTimeSeries : string → string → AnalyteRange → list Measurement.
Variable analyteRanges : gmap string AnalyteRange.

Hypothesis series_nonempty :
  ∀ stationCode analyte range,
    generateTimeSeries stationCode analyte range ≠ [].

Lemma demo_analytes_ok (stationCode : string) :
  ∃ acc, forEach (demo_analyte generateTimeSeries analyteRanges stationCode)
                 (Object_keys analyteRanges) (∅, ∅) = Some acc ∧
    ∀ analyte, is_Some (analyteRanges !! analyte) →
      ∃ lv, acc.2 !! analyte = Some lv ∧
            latest_of generateTimeSeries analyteRanges stationCode analyte lv.
Proof.
  destruct (forEach_insert
              (demo_analyte generateTimeSeries analyteRanges stationCode)
              id snd
              (latest_of generateTimeSeries analyteRanges stationCode)
              (Object_keys analyteRanges)) with (s := (∅, ∅) : gmap string (list Measurement) * gmap string LatestValue)
    as (acc & Hacc & Hk).
  - intros s a Ha. apply elem_of_Object_keys in Ha as [range Hr].
    unfold demo_analyte. rewrite Hr.
    destruct (last (generateTimeSeries stationCode a range)) as [latest|] eqn:Hl.
    + eexists _, _. split_and!; [done | done |].
      exists range, latest. by split_and!.
    + exfalso.
      destruct (proj2 (last_is_Some _) (series_nonempty stationCode a range))
        as [x Hx].
      congruence.
  - exists acc. split; [done|].
    intros a Ha. apply Hk. rewrite list_fmap_id.
    by apply elem_of_Object_keys.
Qed.

Lemma demo_stations_ok :
  ∃ acc, generateDemoData generateTimeSeries analyteRanges = Some acc ∧
    ∀ stationCode, stationCode ∈ stationCoords.*1 →
      ∃ entries, acc.2 !! stationCode = Some entries ∧
        ∀ analyte, is_Some (analyteRanges !! analyte) →
          ∃ lv, entries !! analyte = Some lv ∧
            latest_of generateTimeSeries analyteRanges stationCode analyte lv.
Proof.
  unfold generateDemoData.
  destruct (forEach_insert
              (demo_station generateTimeSeries analyteRanges)
              fst snd
              (λ stationCode entries,
                 ∀ analyte, is_Some (analyteRanges !! analyte) →
                   ∃ lv, entries !! analyte = Some lv ∧
                     latest_of generateTimeSeries analyteRanges
                               stationCode analyte lv)
              stationCoords)
    with (s := (∅, ∅, ∅) : gmap string Station
                          * gmap string (gmap string (list Measurement))
                          * gmap string (gmap string LatestValue))
    as (acc & Hacc & Hk).
  - intros s [stationCode [lon lat]] _.
    destruct (demo_analytes_ok stationCode) as ([ms lvs] & Hin & Hlv).
    unfold demo_station. rewrite Hin.
    eexists _, lvs. split_and!; [done | done | done].
  - exists acc. split; [done|]. intros stationCode Hc. by apply Hk.
Qed.

(** C2.  The demo-data generator returns, and for every station of its
    list and every analyte with a range it records the last value of the
    generated series with the status: [no_range] when the range has
    neither bound; otherwise [acceptable] exactly when the value is not
    below the lower bound (if there is one) and not above the upper
    bound (if there is one), and [outside_range] in the other case. *)
Theorem generateDemoData_status :
  ∃ stations measurements latestValues,
    generateDemoData generateTimeSeries analyteRanges
    = Some (stations, measurements, latestValues) ∧
    ∀ stationCode analyte range,
      stationCode ∈ stationCoords.*1 →
      analyteRanges !! analyte = Some range →
      ∃ entries lv latest,
        latestValues !! stationCode = Some entries ∧
        entries !! analyte = Some lv ∧
        last (generateTimeSeries stationCode analyte range) = Some latest ∧
        lv_value lv = m_value latest ∧
        (range_min range = None → range_max range = None →
         lv_status lv = "no_range"%string) ∧
        (range_min range ≠ None ∨ range_max range ≠ None →
         (lv_status lv = "acceptable"%string ↔ within range (lv_value lv)) ∧
         (lv_status lv ≠ "acceptable"%string →
          lv_status lv = "outside_range"%string)).
Proof.
  destruct demo_stations_ok as ([[st ms] lvs] & Hgen & Hst).
  exists st, ms, lvs. split; [done|].
  intros stationCode analyte range Hc Hr.
  destruct (Hst stationCode Hc) as (entries & He & Ha).
  destruct (Ha analyte) as (lv & Hlv & Hof); [by exists range|].
  destruct Hof as (range' & latest & Hr' & Hlast & Hv & _ & _ & Hs).
  assert (range' = range) as -> by congruence.
  exists entries, lv, latest. split_and!; try done.
  - intros Hlo Hhi. rewrite Hs. by apply demo_status_no_range.
  - intros Hb. rewrite Hs, Hv. by apply demo_status_bounded.
Qed.

End Generated.

(** One reading per series: 9.0 for station SRA190, 7.0 elsewhere. *)
Definition fixed_series (stationCode _ : string) (_ : AnalyteRange)
  : list Measurement :=
  [ {| m_date := Some "2024-06-01T00:00:00.000Z"%string;
       m_value := if decide (stationCode = "SRA190") then 9 else 7 |} ].

Definition pH_range : gmap string AnalyteRange :=
  {[ "pH"%string := {| range_min := Some 6.5%Q; range_max := Some 8.5%Q;
                       range_unit := None |} ]}.

Lemma generateDemoData_status_witness :
  ∃ stations measurements latestValues,
    generateDemoData fixed_series pH_range
    = Some (stations, measurements, latestValues) ∧
    ∀ stationCode analyte range,
      stationCode ∈ stationCoords.*1 →
      pH_range !! analyte = Some range →
      ∃ entries lv latest,
        latestValues !! stationCode = Some entries ∧
        entries !! analyte = Some lv ∧
        last (fixed_series stationCode analyte range) = Some latest ∧
        lv_value lv = m_value latest ∧
        (range_min range = None → range_max range = None →
         lv_status lv = "no_range"%string) ∧
        (range_min range ≠ None ∨ range_max range ≠ None →
         (lv_status lv = "acceptable"%string ↔ within range (lv_value lv)) ∧
         (lv_status lv ≠ "acceptable"%string →
          lv_status lv = "outside_range"%string)).
Proof.
  apply (generateDemoData_status fixed_series pH_range).
  intros stationCode analyte range. discriminate.
Defined.

(** The generated statuses for these series: pH 9.0 is outside
    [6.5, 8.5], pH 7.0 is inside. *)
Example demo_pH_statuses :
  ∃ s m l, generateDemoData fixed_series pH_range = Some (s, m, l) ∧
    lv_status <$> (l !! "SRA190"%string ≫= (.!! "pH"%string))
    = Some "outside_range"%string ∧
    lv_status <$> (l !! "SRA100"%string ≫= (.!! "pH"%string))
    = Some "acceptable"%string.
Proof.
  eexists _, _, _. split; [vm_compute; reflexivity|].
  split; vm_compute; reflexivity.
Qed.

End DemoStatus.

(* ===================================================================== *)
(** ** DataLoader: the analyte list *)
(* ===================================================================== *)

Module Analytes.
Import JS Model DataLoader JSFacts.

(** *** The order on strings *)





(** *** The sort *)






(** *** The set of names *)

Lemma Set_add_fold_spec (l s : list string) :
  NoDup s →
  NoDup (fold_left (λ set analyte, Set_add analyte set) l s) ∧
  ∀ a, a ∈ fold_left (λ set analyte, Set_add analyte set) l s
       ↔ a ∈ s ∨ a ∈ l.
Proof.
  revert s. induction l as [|x l IH]; intros s Hs; simpl.
  - split; [done|]. intros a. rewrite elem_of_nil. tauto.
  - destruct (IH (Set_add x s) (NoDup_Set_add x s Hs)) as [Hnd Hel].
    split; [done|]. intros a.
    rewrite Hel, elem_of_Set_add, elem_of_cons. tauto.
Qed.



Definition two_stations : AppData :=
  {| stations :=
       {[ "SRA100"%string :=
            {| st_name := "Station SRA100"; st_latitude := 37.8647308;
               st_longitude := -122.0391426;
               st_analytes := ["pH"; "Temperature"; "Nitrate"]%string;
               st_measurement_count := 50 |};
          "SRA120"%string :=
            {| st_name := "Station SRA120"; st_latitude := 37.8407117;
               st_longitude := -122.0205907;
               st_analytes := ["Turbidity"; "pH"; "Dissolved Oxygen"]%string;
               st_measurement_count := 50 |} ]};
     measurements := ∅;
     latestValues := ∅;
     analyteRanges := ∅ |}.

(** Upper-case letters come before lower-case ones. *)
Example getAnalytes_two_stations :
  getAnalytes two_stations
  = ["Dissolved Oxygen"; "Nitrate"; "Temperature"; "Turbidity"; "pH"]%string.
Proof. vm_compute. reflexivity. Qed.

End Analytes.

(* ===================================================================== *)
(** ** ChartManager: colour continuity *)
(* ===================================================================== *)

Module ColorContinuity.
Import JS Model ChartManager JSFacts Sample.

(** Every stored colour is a palette entry. *)
Definition palette_closed (colors : gmap string string) : Prop :=
  ∀ a c, colors !! a = Some c → c ∈ colorPalette.

(** The datasets on display carry the stored colour of their analyte. *)
Definition colored_by (colors : gmap string string) (dss : list Dataset) : Prop :=
  ∀ ds, ds ∈ dss →
    colors !! ds_label ds = Some (ds_borderColor ds) ∧
    ds_pointBackgroundColor ds = ds_borderColor ds ∧
    ds_pointHoverBackgroundColor ds = ds_borderColor ds ∧
    ds_backgroundColor ds = ds_borderColor ds +:+ "20".

Definition inv (s : state) : Prop :=
  palette_closed (analyteColors s) ∧
  NoDup (visibleAnalytes s) ∧
  ∀ c, chart s = Some c → colored_by (analyteColors s) (datasets c).

Lemma palette_truthy (c : string) : c ∈ colorPalette → truthy_str c = true.
Proof.
  unfold colorPalette. rewrite !elem_of_cons, elem_of_nil.
  intros H. repeat (destruct H as [->|H]; [reflexivity|]). done.
Qed.

Lemma palette_at_elem (i : nat) :
  palette_at (i mod length colorPalette) ∈ colorPalette.
Proof.
  unfold palette_at.
  assert (Hlt : i mod length colorPalette < length colorPalette)
    by (apply Nat.mod_upper_bound; discriminate).
  destruct (lookup_lt_is_Some_2 _ _ Hlt) as [c Hc].
  rewrite Hc. simpl. by eapply list_elem_of_lookup_2.
Qed.

Section AssignColor.

Variable colors : gmap string string.
Variable analyte : string.
Variable colorIndex : nat.
Hypothesis Hclosed : palette_closed colors.

Lemma assign_color_stable (a c : string) :
  colors !! a = Some c → assign_color colors analyte colorIndex !! a = Some c.
Proof.
  intros Ha. unfold assign_color.
  destruct (truthy_ostr (colors !! analyte)) eqn:Ht; [done|].
  rewrite lookup_insert_ne; [done|]. intros <-.
  rewrite Ha in Ht. simpl in Ht.
  rewrite (palette_truthy c) in Ht; [done | by eapply Hclosed].
Qed.

Lemma assign_color_closed : palette_closed (assign_color colors analyte colorIndex).
Proof.
  intros a c. unfold assign_color.
  destruct (truthy_ostr (colors !! analyte)); [apply Hclosed|].
  destruct (decide (analyte = a)) as [<-|Hne].
  - rewrite lookup_insert_eq. intros [= <-]. apply palette_at_elem.
  - rewrite lookup_insert_ne by done. apply Hclosed.
Qed.

Lemma assign_color_other (a : string) :
  a ≠ analyte → assign_color colors analyte colorIndex !! a = colors !! a.
Proof.
  intros Hne. unfold assign_color.
  destruct (truthy_ostr (colors !! analyte)); [done|].
  by rewrite lookup_insert_ne.
Qed.

Lemma assign_color_is_Some :
  ∃ c, assign_color colors analyte colorIndex !! analyte = Some c.
Proof.
  unfold assign_color.
  destruct (colors !! analyte) as [c|] eqn:Ha; simpl.
  - destruct (truthy_str c); [by exists c|].
    rewrite lookup_insert_eq. by eexists.
  - rewrite lookup_insert_eq. by eexists.
Qed.

(** First appearance: the palette entry at [colorIndex] modulo the
    palette length. *)
Lemma assign_color_first :
  colors !! analyte = None →
  assign_color colors analyte colorIndex !! analyte
  = Some (palette_at (colorIndex mod length colorPalette)).
Proof.
  intros Ha. unfold assign_color. rewrite Ha. simpl.
  apply lookup_insert_eq.
Qed.

End AssignColor.

Lemma createDataset_colored (d : AppData) (colors : gmap string string)
    (analyte : string) (ms : list Measurement) (colorIndex : nat) :
  colored_by (createDataset d colors analyte ms colorIndex).1
             [(createDataset d colors analyte ms colorIndex).2]
  ∧ ds_label (createDataset d colors analyte ms colorIndex).2 = analyte.
Proof.
  split; [|done].
  intros ds ->%list_elem_of_singleton. simpl.
  destruct (assign_color_is_Some colors analyte colorIndex) as [c Hc].
  rewrite Hc. simpl. done.
Qed.

(** What the loop of [updateChart] has done when it leaves the colour
    table [colors'] and the datasets [dss ++ new], having started from
    [colors] and [dss] with [colorIndex = length dss]. *)
Record loop_post (visible : list string) (colors : gmap string string)
    (dss : list Dataset) (colors' : gmap string string)
    (new : list Dataset) : Prop := {
  post_labels : Forall (λ ds, ds_label ds ∈ visible) new;
  post_other : ∀ a, a ∉ visible → colors' !! a = colors !! a;
  post_closed : palette_closed colors';
  post_stable : ∀ a c, colors !! a = Some c → colors' !! a = Some c;
  post_colored : colored_by colors' new;
  post_first : NoDup visible → ∀ k ds, new !! k = Some ds →
    colors !! ds_label ds = None →
    ds_borderColor ds
    = palette_at ((length dss + k) mod length colorPalette)
}.

Lemma dataset_loop (d : AppData) (sd : gmap string (list Measurement))
    (visible : list string) :
  ∀ colors dss, palette_closed colors →
    ∃ colors' new,
      fold_left (dataset_step d sd) visible (colors, dss, length dss)
      = (colors', dss ++ new, length (dss ++ new)) ∧
      loop_post visible colors dss colors' new.
Proof.
  induction visible as [|a rest IH]; intros colors dss Hcl.
  - exists colors, []. rewrite app_nil_r. split; [done|].
    split; try done.
    intros ds Hds. by apply elem_of_nil in Hds.
  - cbn [fold_left]. unfold dataset_step at 2.
    destruct (sd !! a) as [[|m ms]|] eqn:Hsd.
    1,3: destruct (IH colors dss Hcl) as (colors' & new & Hf & [H1 H2 H3 H4 H5 H6]);
         exists colors', new; (split; [done|]); split; try done;
         [ eapply Forall_impl; [exact H1|]; intros ds Hds; by right
         | intros a' Ha'; apply H2; intros Hin; apply Ha'; by right
         | intros Hnd; apply H6; by apply NoDup_cons in Hnd as [_ Hnd] ].
    pose proof (createDataset_colored d colors a (m :: ms) (length dss))
      as [Hcol Hlab].
    destruct (createDataset d colors a (m :: ms) (length dss))
      as [colors1 ds_a] eqn:Hcd.
    assert (Hc1 : colors1 = assign_color colors a (length dss))
      by (unfold createDataset in Hcd; by injection Hcd as <- _).
    simpl in Hcol, Hlab.
    assert (Hcl1 : palette_closed colors1)
      by (rewrite Hc1; by apply assign_color_closed).
    replace (S (length dss)) with (length (dss ++ [ds_a]))
      by (rewrite length_app; simpl; lia).
    destruct (IH colors1 (dss ++ [ds_a]) Hcl1)
      as (colors' & new & Hf & [H1 H2 H3 H4 H5 H6]).
    exists colors', (ds_a :: new).
    rewrite <- app_assoc in Hf. simpl in Hf. split; [done|].
    split.
    + constructor; [rewrite Hlab; by left|].
      eapply Forall_impl; [exact H1|]. intros ds Hds. by right.
    + intros a' Ha'. rewrite H2; [|intros Hin; apply Ha'; by right].
      rewrite Hc1. apply assign_color_other. intros ->. apply Ha'. by left.
    + done.
    + intros a' c Ha'. apply H4. rewrite Hc1. by apply assign_color_stable.
    + intros ds [->|Hds]%elem_of_cons; [|by apply H5].
      destruct (Hcol ds_a) as (Hb & ?); [by apply list_elem_of_singleton|].
      split; [|done]. by apply H4.
    + intros Hnd k ds Hk Hnone.
      apply NoDup_cons in Hnd as [Hnin Hnd].
      destruct k as [|k]; simpl in Hk.
      * injection Hk as <-. rewrite Nat.add_0_r.
        destruct (Hcol ds_a) as (Hb & _); [by apply list_elem_of_singleton|].
        rewrite Hlab in Hb, Hnone.
        rewrite Hc1, (assign_color_first _ _ _ Hnone) in Hb. congruence.
      * rewrite (H6 Hnd k ds Hk).
        -- f_equal. f_equal. rewrite length_app. simpl. lia.
        -- rewrite Hc1, assign_color_other; [done|].
           intros Heq. apply Hnin. rewrite <- Heq.
           rewrite Forall_forall in H1. apply H1.
           by eapply list_elem_of_lookup_2.
Qed.

Lemma datasets_redraw (d : AppData) (cur : string) (visible : list string)
    (dss : list Dataset) (c : Chart) :
  datasets (redraw d cur visible dss c) = dss.
Proof.
  unfold redraw, fitAxesToData. simpl.
  destruct dss as [|ds dss]; [done|].
  by destruct (allValues _).
Qed.

Lemma colored_by_nil (colors : gmap string string) : colored_by colors [].
Proof. intros ds Hds. by apply elem_of_nil in Hds. Qed.

Lemma NoDup_Set_of (xs : list string) : NoDup (Set_of xs).
Proof.
  unfold Set_of. generalize (NoDup_nil_2 (A := string)).
  generalize (@nil string). induction xs as [|x xs IH]; intros s Hs; [done|].
  simpl. apply IH. by apply NoDup_Set_add.
Qed.

Lemma NoDup_Set_delete (x : string) (s : list string) :
  NoDup s → NoDup (Set_delete x s).
Proof. apply NoDup_filter. Qed.

(** What a call keeps: the invariant, and every colour already
    assigned. *)
Definition keeps (s s' : state) : Prop :=
  inv s' ∧ ∀ a c, analyteColors s !! a = Some c → analyteColors s' !! a = Some c.

(** A redraw, and the colour of a series that had none before it: the
    palette entry at the position of the series among those drawn. *)
Definition first_colors (s s' : state) : Prop :=
  ∀ c k ds, chart s' = Some c → datasets c !! k = Some ds →
    analyteColors s !! ds_label ds = None →
    ds_borderColor ds = palette_at (k mod length colorPalette).

Lemma updateChart_keeps (s : state) :
  inv s → keeps s (updateChart s).2 ∧ first_colors s (updateChart s).2.
Proof.
  intros (Hcl & Hnd & Hcol).
  assert (Hsame : keeps s s ∧ first_colors s s).
  { split; [by split|]. intros c k ds Hc Hk Hnone.
    destruct (Hcol c Hc ds) as [Hb _]; [by eapply list_elem_of_lookup_2|].
    congruence. }
  unfold updateChart.
  destruct (chart s) as [c|] eqn:Hc; [|done].
  destruct (currentStation s) as [cur|]; [|done].
  destruct (truthy_str cur); [|done]. simpl.
  destruct (data s) as [d|]; [|done].
  destruct (measurements d !! cur) as [sd|].
  - unfold build_datasets.
    destruct (dataset_loop d sd (visibleAnalytes s) (analyteColors s) [] Hcl)
      as (colors' & new & Hf & [H1 H2 H3 H4 H5 H6]).
    simpl in Hf. rewrite Hf. simpl. split.
    + split; [|done]. split_and!; try done.
      intros c' [= <-]. by rewrite datasets_redraw.
    + intros c' k ds [= <-]. rewrite datasets_redraw.
      intros Hk Hnone. by rewrite (H6 Hnd k ds Hk Hnone).
  - destruct (visibleAnalytes s) as [|a rest] eqn:Hv; simpl.
    + split.
      * split; [|done]. split_and!; try done. simpl. by rewrite Hv.
        intros c' [= <-]. rewrite datasets_redraw. apply colored_by_nil.
      * intros c' k ds [= <-]. by rewrite datasets_redraw, lookup_nil.
    + split.
      * split; [|done]. split_and!; try done. simpl. by rewrite Hv.
        intros c' [= <-]. apply colored_by_nil.
      * intros c' k ds [= <-]. simpl. by rewrite lookup_nil.
Qed.

Lemma inv_with_visible (v : list string) (s : state) :
  inv s → NoDup v → inv (with_visible v s).
Proof. intros (Hcl & _ & Hcol) Hv. by split_and!. Qed.

Lemma clearChart_keeps (s : state) : inv s → keeps s (clearChart s).
Proof.
  intros (Hcl & Hnd & Hcol). split; [|done]. split_and!; simpl.
  - done.
  - apply NoDup_nil_2.
  - destruct (chart s); [|done]. intros c' [= <-]. apply colored_by_nil.
Qed.

Lemma keeps_trans (s1 s2 s3 : state) : keeps s1 s2 → keeps s2 s3 → keeps s1 s3.
Proof. intros [_ H12] [Hi H23]. split; [done|]. auto. Qed.

Lemma perform_keeps (c : call) (s : state) : inv s → keeps s (perform c s).2.
Proof.
  intros Hi. destruct c as [code visible|a v|l| |]; simpl.
  - unfold showStation. simpl.
    set (s1 := {| chart := chart s; data := data s;
                  currentStation := Some code;
                  visibleAnalytes := Set_of visible;
                  analyteColors := analyteColors s |}).
    assert (Hi1 : inv s1).
    { destruct Hi as (? & ? & ?). split_and!; try done. apply NoDup_Set_of. }
    assert (Hk1 : keeps s s1) by (by split).
    destruct (chart s); [|done].
    destruct (data s) as [d|].
    + destruct (measurements d !! code).
      * eapply keeps_trans; [exact Hk1|]. by apply updateChart_keeps.
      * eapply keeps_trans; [exact Hk1|]. by apply clearChart_keeps.
    + eapply keeps_trans; [exact Hk1|]. by apply clearChart_keeps.
  - unfold toggleAnalyte.
    assert (Hi1 : inv (with_visible
                         (if v then Set_add a (visibleAnalytes s)
                          else Set_delete a (visibleAnalytes s)) s)).
    { apply inv_with_visible; [done|]. destruct Hi as (? & Hnd & ?).
      destruct v; [by apply NoDup_Set_add | by apply NoDup_Set_delete]. }
    eapply keeps_trans; [|by apply updateChart_keeps]. by split.
  - unfold setVisibleAnalytes.
    assert (Hi1 : inv (with_visible (Set_of l) s))
      by (apply inv_with_visible; [done | apply NoDup_Set_of]).
    eapply keeps_trans; [|by apply updateChart_keeps]. by split.
  - by apply updateChart_keeps.
  - by apply clearChart_keeps.
Qed.

Lemma session_keeps (cs : list call) (s : state) : inv s → keeps s (session cs s).
Proof.
  revert s. induction cs as [|c cs IH]; intros s Hi; [by split|].
  simpl. pose proof (perform_keeps c s Hi) as Hk.
  eapply keeps_trans; [exact Hk|]. apply IH. by destruct Hk.
Qed.

Lemma inv_chart_constructor : inv constructor.
Proof.
  split_and!; simpl; [|apply NoDup_nil_2|done].
  intros a c H. by rewrite lookup_empty in H.
Qed.

Lemma inv_initChart (d : AppData) (canvas : bool) (s : state) :
  inv s → inv (initChart d canvas s).
Proof.
  intros (Hcl & Hnd & Hcol). split_and!; simpl; try done.
  destruct canvas; [|done]. intros c [= <-]. apply colored_by_nil.
Qed.

(** C5, amended.  Once an analyte has a colour, the colour is a palette
    entry and stays: after any sequence of [showStation],
    [toggleAnalyte], [setVisibleAnalytes], redraws and [clearChart] the
    table still maps the analyte to that colour, and every series drawn
    for the analyte uses it.  A series whose analyte has no colour yet
    at a redraw gets the palette entry at its position among the series
    drawn in that redraw, modulo the palette length (not at the rank of
    the analyte in first-seen order over the session). *)
Theorem color_continuity (s : state) (calls : list call)
    (analyte color : string) :
  inv s →
  analyteColors s !! analyte = Some color →
  color ∈ colorPalette ∧
  analyteColors (session calls s) !! analyte = Some color ∧
  (∀ c ds, chart (session calls s) = Some c → ds ∈ datasets c →
     ds_label ds = analyte →
     ds_borderColor ds = color ∧
     ds_pointBackgroundColor ds = color ∧
     ds_pointHoverBackgroundColor ds = color ∧
     ds_backgroundColor ds = color +:+ "20") ∧
  first_colors (session calls s) (updateChart (session calls s)).2.
Proof.
  intros Hi Ha.
  destruct (session_keeps calls s Hi) as [Hi' Hst].
  pose proof (Hst _ _ Ha) as Ha'.
  split_and!.
  - destruct Hi as (Hcl & _). by eapply Hcl.
  - done.
  - intros c ds Hc Hds Hl.
    destruct Hi' as (_ & _ & Hcol).
    destruct (Hcol c Hc ds Hds) as (Hb & Hp & Hh & Hbg).
    rewrite Hl, Ha' in Hb. injection Hb as Hb.
    rewrite Hp, Hh, Hbg, <- Hb. done.
  - by apply updateChart_keeps.
Qed.

(** The page after the chart is set up and a station is shown with the
    default selection. *)
Definition shown : state :=
  session [ShowStation "SRA100" ["Temperature"]%string]
          (initChart creek_data true constructor).

(** Temperature is hidden, pH is shown, Temperature is shown again, the
    panel is closed and the station is opened once more. *)
Definition toggles : list call :=
  [ ToggleAnalyte "Temperature" false;
    ToggleAnalyte "pH" true;
    ToggleAnalyte "Temperature" true;
    ClearChart;
    ShowStation "SRA100" ["Temperature"; "pH"]%string ].

Lemma color_continuity_witness :
  "#28a745"%string ∈ colorPalette ∧
  analyteColors (session toggles shown) !! "Temperature"%string
  = Some "#28a745"%string ∧
  (∀ c ds, chart (session toggles shown) = Some c → ds ∈ datasets c →
     ds_label ds = "Temperature"%string →
     ds_borderColor ds = "#28a745"%string ∧
     ds_pointBackgroundColor ds = "#28a745"%string ∧
     ds_pointHoverBackgroundColor ds = "#28a745"%string ∧
     ds_backgroundColor ds = ("#28a745" +:+ "20")%string) ∧
  first_colors (session toggles shown) (updateChart (session toggles shown)).2.
Proof.
  apply (color_continuity shown toggles "Temperature" "#28a745").
  - apply session_keeps, inv_initChart, inv_chart_constructor.
  - vm_compute. reflexivity.
Defined.

(** The palette is not handed out in first-seen order.  Temperature is
    the first analyte seen and takes the first palette entry; pH is seen
    second, when it is the only series drawn, and takes the first entry
    as well instead of the second: both series are then drawn in the
    same green. *)
Lemma not_first_seen_order :
  analyteColors shown = {[ "Temperature"%string := palette_at 0 ]} ∧
  analyteColors (session toggles shown)
  = {[ "Temperature"%string := palette_at 0; "pH"%string := palette_at 0 ]} ∧
  palette_at 0 ≠ palette_at 1 ∧
  (ds_borderColor <$> (chart (session toggles shown) ≫= (λ c, datasets c !! 0))
   = Some "#28a745"%string) ∧
  (ds_borderColor <$> (chart (session toggles shown) ≫= (λ c, datasets c !! 1))
   = Some "#28a745"%string).
Proof.
  split_and!; try (vm_compute; reflexivity). discriminate.
Qed.

End ColorContinuity.

(* ===================================================================== *)
(** ** ChartManager: the y-axis label *)
(* ===================================================================== *)

Module AxisLabel.
Import JS Model ChartManager JSFacts Sample.

(** The truthy units of the visible analytes, as [updateYAxisTitle]
    collects them. *)
Definition units_of (d : AppData) (visible : list string) : list string :=
  omap (λ a, match unit_of d a with
             | Some u => if truthy_str u then Some u else None
             | None => None
             end) visible.

Lemma elem_of_units_of (d : AppData) (visible : list string) (u : string) :
  u ∈ units_of d visible ↔
  ∃ a, a ∈ visible ∧ unit_of d a = Some u ∧ truthy_str u = true.
Proof.
  unfold units_of. rewrite list_elem_of_omap. split.
  - intros (a & Ha & Hu). exists a. split; [done|].
    destruct (unit_of d a) as [u'|]; [|done].
    destruct (truthy_str u') eqn:Ht; [|done]. by injection Hu as ->.
  - intros (a & Ha & Hu & Ht). exists a. split; [done|]. by rewrite Hu, Ht.
Qed.

Lemma Set_of_constant (u : string) (l : list string) :
  l ≠ [] → (∀ x, x ∈ l → x = u) → Set_of l = [u].
Proof.
  intros Hne Hall. destruct l as [|x l]; [done|].
  rewrite (Hall x) by (by left). unfold Set_of. simpl.
  unfold Set_add at 2. rewrite decide_False by apply not_elem_of_nil. simpl.
  assert (Hl : ∀ y, y ∈ l → y = u) by (intros y Hy; apply Hall; by right).
  clear Hne Hall. induction l as [|y l IH]; [done|].
  simpl. rewrite (Hl y) by (by left).
  unfold Set_add at 2. rewrite decide_True by (by left).
  apply IH. intros z Hz. apply Hl. by right.
Qed.

(** With two or more analytes visible, the label shows the unit [u] as
    soon as [u] is the only unit found among them; the analytes that
    have no unit are not looked at. *)
Lemma yAxisTitle_shared_unit (d : AppData) (visible : list string) (u : string) :
  2 ≤ length visible →
  (∃ a, a ∈ visible ∧ unit_of d a = Some u ∧ truthy_str u = true) →
  (∀ a u', a ∈ visible → unit_of d a = Some u' → truthy_str u' = true → u' = u) →
  yAxisTitle d visible = "Value (" +:+ u +:+ ")".
Proof.
  intros Hlen Hex Hall.
  destruct visible as [|a1 [|a2 rest]]; simpl in Hlen; try lia.
  unfold yAxisTitle, uniqueUnits. fold (units_of d (a1 :: a2 :: rest)).
  rewrite (Set_of_constant u); [done| |].
  - intros Hnil. apply elem_of_units_of in Hex. rewrite Hnil in Hex.
    by apply elem_of_nil in Hex.
  - intros x (a & Ha & Hu & Ht)%elem_of_units_of. by eapply Hall.
Qed.

(** C6.  With Temperature (unit Deg C) and pH (no unit) both visible,
    the y-axis label is "Value (Deg C)": the label shows a unit although
    a visible analyte has none. *)
Theorem yAxisTitle_unitless_ignored :
  unit_of creek_data "Temperature" = Some "Deg C"%string ∧
  unit_of creek_data "pH" = None ∧
  yAxisTitle creek_data ["Temperature"; "pH"]%string = "Value (Deg C)"%string ∧
  y_title_text (updateYAxisTitle creek_data ["Temperature"; "pH"]%string new_Chart)
  = "Value (Deg C)"%string.
Proof. split_and!; vm_compute; reflexivity. Qed.

(** The other cases of the rule: one analyte, two units, no unit. *)
Example yAxisTitle_cases :
  yAxisTitle creek_data [] = "Value"%string ∧
  yAxisTitle creek_data ["Temperature"]%string = "Temperature (Deg C)"%string ∧
  yAxisTitle creek_data ["pH"]%string = "pH"%string ∧
  yAxisTitle creek_data ["Temperature"; "Nitrate"]%string = "Value"%string ∧
  yAxisTitle creek_data ["pH"; "Turbidity"]%string = "Value"%string.
Proof. split_and!; vm_compute; reflexivity. Qed.

End AxisLabel.

(* ===================================================================== *)
(** ** MapManager: recolouring in place *)
(* ===================================================================== *)

Module MarkerFrame.
Import JS Model MapManager JSFacts.

(** Two heaps hold the same markers at the same places: only the fill
    colour and the popup of a marker may differ. *)
Definition same_places (h h' : gmap nat Marker) : Prop :=
  dom h' = dom h ∧
  ∀ id m, h !! id = Some m →
    ∃ m', h' !! id = Some m' ∧ latlng m' = latlng m ∧ radius m' = radius m.

Lemma same_places_refl (h : gmap nat Marker) : same_places h h.
Proof. split; [done|]. intros id m Hm. by exists m. Qed.

Lemma same_places_trans (h1 h2 h3 : gmap nat Marker) :
  same_places h1 h2 → same_places h2 h3 → same_places h1 h3.
Proof.
  intros [Hd12 H12] [Hd23 H23]. split; [congruence|].
  intros id m Hm.
  destruct (H12 id m Hm) as (m2 & Hm2 & Hl2 & Hr2).
  destruct (H23 id m2 Hm2) as (m3 & Hm3 & Hl3 & Hr3).
  exists m3. split_and!; congruence.
Qed.

Lemma same_places_alter (f : Marker → Marker) (id : nat) (h : gmap nat Marker) :
  (∀ m, latlng (f m) = latlng m ∧ radius (f m) = radius m) →
  same_places h (alter f id h).
Proof.
  intros Hf. split; [apply dom_alter_L|].
  intros id' m Hm. rewrite lookup_alter. case_decide as Heq.
  - subst id'. rewrite Hm. simpl. exists (f m). by destruct (Hf m).
  - by exists m.
Qed.

Lemma recolor_same_places (d : option AppData) (analyte : option string)
    (stationCode : string) (id : nat) (h : gmap nat Marker) :
  same_places h (recolor d analyte stationCode id h).2.
Proof.
  unfold recolor.
  destruct (truthy_ostr analyte && negb (not_null d)); [apply same_places_refl|].
  set (h1 := alter _ id h).
  assert (H1 : same_places h h1) by (by apply same_places_alter).
  destruct d as [d'|]; [|done].
  destruct (stations d' !! stationCode); [|done].
  simpl. eapply same_places_trans; [exact H1|]. by apply same_places_alter.
Qed.

Lemma recolor_all_same_places (d : option AppData) (analyte : option string)
    (entries : list (string * nat)) (h : gmap nat Marker) :
  same_places h (recolor_all d analyte entries h).2.
Proof.
  revert h. induction entries as [|[code id] rest IH]; intros h.
  - apply same_places_refl.
  - simpl. pose proof (recolor_same_places d analyte code id h) as H1.
    destruct (recolor d analyte code id h) as [[] h1]; simpl in *; [|done].
    eapply same_places_trans; [exact H1 | apply IH].
Qed.

(** C8.  [updateMarkerColors] leaves the table of markers, the map (its
    layers and its view) and the data as they are, creates no object,
    and keeps every marker at its position with its radius: whether it
    returns or throws, only fill colours and popup contents may have
    changed. *)
Theorem updateMarkerColors_frame (analyte : option string) (s : state) :
  markers (updateMarkerColors analyte s).2 = markers s ∧
  map (updateMarkerColors analyte s).2 = map s ∧
  next (updateMarkerColors analyte s).2 = next s ∧
  data (updateMarkerColors analyte s).2 = data s ∧
  dom (heap (updateMarkerColors analyte s).2) = dom (heap s) ∧
  ∀ id m, heap s !! id = Some m →
    ∃ m', heap (updateMarkerColors analyte s).2 !! id = Some m' ∧
          latlng m' = latlng m ∧ radius m' = radius m.
Proof.
  unfold updateMarkerColors.
  pose proof (recolor_all_same_places (data s) analyte
                (map_to_list (markers s)) (heap s)) as [Hd Hl].
  destruct (recolor_all (data s) analyte (map_to_list (markers s)) (heap s))
    as [c h].
  simpl in *. by split_and!.
Qed.

(** The initial view of the page: gray markers, then pH is selected.
    The same two objects stay on the map and take their colours. *)
Example recolor_in_place :
  let s0 := (addStationMarkers None
               (setData (Some Sample.two_pH) (initMap constructor))).2 in
  let s1 := (updateMarkerColors (Some "pH"%string) s0).2 in
  let color s code := fillColor <$> (markers s !! code ≫= (heap s !!.)) in
  markers s1 = markers s0 ∧ map s1 = map s0 ∧
  color s0 "SRA190"%string = Some "#6c757d"%string ∧
  color s1 "SRA190"%string = Some "#dc3545"%string ∧
  color s1 "SRA100"%string = Some "#28a745"%string.
Proof. split_and!; vm_compute; reflexivity. Qed.

End MarkerFrame.

(* ===================================================================== *)
(** ** MapManager: one coloured marker per station *)
(* ===================================================================== *)

Module MarkerColors.
Import JS Model MapManager JSFacts.

(** Every layer of the map is a marker of the table. *)
Definition tracked (s : state) : Prop :=
  ∀ m id, map s = Some m → id ∈ layers m →
    ∃ stationCode, markers s !! stationCode = Some id.

(** The marker object built by [addStationMarker]. *)
Definition marker_for (d : AppData) (stationCode : string) (station : Station)
    (analyte : option string) : Marker :=
  bindPopup
    (createPopupContent stationCode station analyte
                        (latest_entry d stationCode analyte))
    (createStationMarker (st_latitude station) (st_longitude station)
                         (status_of (latest_entry d stationCode analyte))).

Lemma filter_none {A : Type} (P : A → Prop) `{∀ x, Decision (P x)} (l : list A) :
  (∀ x, x ∈ l → ¬ P x) → filter P l = [].
Proof.
  induction l as [|x l IH]; intros Hl; [done|].
  rewrite filter_cons_False; [|apply Hl; by left].
  apply IH. intros y Hy. apply Hl. by right.
Qed.

Lemma clearMarkers_tracked (s : state) (m : Leaflet) :
  map s = Some m → tracked s →
  clearMarkers s
  = (Normal,
     {| map := Some {| layers := []; view := view m |};
        markers := ∅; heap := heap s; next := next s;
        currentAnalyte := currentAnalyte s; data := data s |}).
Proof.
  intros Hm Ht. unfold clearMarkers. rewrite Hm.
  assert (Hin : ∀ id, id ∈ layers m → id ∈ Object_values (markers s)).
  { intros id Hid. destruct (Ht m id Hm Hid) as [code Hc].
    apply elem_of_Object_values. by exists code. }
  destruct (Object_values (markers s)) as [|i ids] eqn:Hv.
  - destruct m as [ls v]. simpl in *.
    destruct ls as [|l ls]; [done|].
    specialize (Hin l (list_elem_of_here _ _)). by apply elem_of_nil in Hin.
  - rewrite filter_none; [done|]. intros id Hid Hn. by apply Hn, Hin.
Qed.

(** The loop of [addStationMarkers]: the markers get the identities
    [next s], [next s + 1], ... in the order of the entries. *)
Lemma add_all_spec (analyte : option string) (d : AppData)
    (entries : list (string * Station)) :
  NoDup entries.*1 →
  ∀ s m, map s = Some m → data s = Some d →
    ∃ s', add_all entries analyte s = (Normal, s') ∧
      data s' = Some d ∧
      map s' = Some {| layers := layers m ++ seq (next s) (length entries);
                       view := view m |} ∧
      next s' = next s + length entries ∧
      (∀ code, code ∉ entries.*1 → markers s' !! code = markers s !! code) ∧
      (∀ i code st, entries !! i = Some (code, st) →
         markers s' !! code = Some (next s + i) ∧
         heap s' !! (next s + i) = Some (marker_for d code st analyte)) ∧
      (∀ id, id < next s → heap s' !! id = heap s !! id).
Proof.
  induction entries as [|[code st] rest IH]; intros Hnd s m Hm Hd.
  - exists s. simpl. rewrite app_nil_r, Nat.add_0_r.
    split_and!; try done. by destruct m.
  - apply NoDup_cons in Hnd as [Hnin Hnd]. simpl.
    unfold addStationMarker. rewrite Hm, Hd. simpl.
    rewrite andb_false_r.
    set (s1 := {| map := Some {| layers := layers m ++ [next s]; view := view m |};
                  markers := <[code := next s]> (markers s);
                  heap := <[next s := marker_for d code st analyte]> (heap s);
                  next := S (next s);
                  currentAnalyte := currentAnalyte s; data := Some d |}).
    destruct (IH Hnd s1 _ eq_refl eq_refl)
      as (s' & Hrun & Hd' & Hm' & Hn' & Hother & Hentry & Hheap).
    exists s'. split; [exact Hrun|]. simpl in *. split_and!.
    + done.
    + rewrite Hm'. by rewrite <- app_assoc.
    + lia.
    + intros c Hc. rewrite Hother.
      * rewrite lookup_insert_ne; [done|]. intros ->. apply Hc. by left.
      * intros Hin. apply Hc. by right.
    + intros i c st' Hi. destruct i as [|i]; simpl in Hi.
      * injection Hi as -> ->. rewrite Nat.add_0_r. split.
        -- rewrite Hother by done. apply lookup_insert_eq.
        -- rewrite Hheap by lia. apply lookup_insert_eq.
      * destruct (Hentry i c st' Hi) as [H1 H2].
        replace (next s + S i) with (S (next s + i)) by lia. done.
    + intros id Hid. rewrite Hheap by lia.
      apply lookup_insert_ne. lia.
Qed.

Lemma fitToMarkers_view (s : state) (m : Leaflet) :
  map s = Some m →
  ∃ v, fitToMarkers s
       = (Normal,
          {| map := Some {| layers := layers m; view := v |};
             markers := markers s; heap := heap s; next := next s;
             currentAnalyte := currentAnalyte s; data := data s |}).
Proof.
  intros Hm. unfold fitToMarkers. rewrite Hm.
  destruct (omap _ _) as [|p ps].
  - exists (view m). destruct s, m. simpl in *. by subst.
  - by eexists.
Qed.

(** The colour of the marker built for a station. *)
Lemma marker_for_neutral (d : AppData) (code : string) (st : Station)
    (analyte : option string) :
  latest_entry d code analyte = None →
  fillColor (marker_for d code st analyte) = "#6c757d"%string.
Proof. intros H. unfold marker_for. rewrite H. reflexivity. Qed.

Lemma latest_entry_no_analyte (d : AppData) (code : string)
    (analyte : option string) :
  truthy_ostr analyte = false → latest_entry d code analyte = None.
Proof.
  destruct analyte as [a|]; simpl; [|done]. by intros ->.
Qed.

Lemma latest_entry_analyte (d : AppData) (code a : string) :
  truthy_str a = true →
  latest_entry d code (Some a) = latestValues d !! code ≫= (.!! a).
Proof.
  intros Ha. unfold latest_entry. rewrite Ha.
  by destruct (latestValues d !! code).
Qed.

Lemma marker_for_status (d : AppData) (code : string) (st : Station)
    (analyte : option string) (lv : LatestValue) :
  latest_entry d code analyte = Some lv →
  (lv_status lv = "acceptable"%string →
   fillColor (marker_for d code st analyte) = "#28a745"%string) ∧
  (lv_status lv = "outside_range"%string →
   fillColor (marker_for d code st analyte) = "#dc3545"%string) ∧
  (lv_status lv = "no_range"%string →
   fillColor (marker_for d code st analyte) = "#007bff"%string) ∧
  (lv_status lv = "no_data"%string →
   fillColor (marker_for d code st analyte) = "#6c757d"%string).
Proof.
  intros H. unfold marker_for. rewrite H. simpl.
  split_and!; intros ->; reflexivity.
Qed.

(** C7.  On an initialized map with data installed,
    [addStationMarkers(analyte)] returns, and then the table of markers
    has exactly the station codes of the data as keys, the layers of the
    map are exactly the markers of the table, each once and each under
    one code, and the marker of a station sits at the station's
    coordinates with the fill colour of the station's latest-value
    status for the analyte: #28a745 for acceptable, #dc3545 for
    outside_range, #007bff for no_range, #6c757d for no_data; the colour
    is #6c757d too when no analyte is selected or the station has no
    latest value for it. *)
Theorem addStationMarkers_colors (analyte : option string) (s : state)
    (m : Leaflet) (d : AppData) :
  map s = Some m → data s = Some d → tracked s →
  ∃ s' m',
    addStationMarkers analyte s = (Normal, s') ∧
    map s' = Some m' ∧
    dom (markers s') = dom (stations d) ∧
    length (layers m') = size (stations d) ∧
    NoDup (layers m') ∧
    (∀ id, id ∈ layers m' ↔ ∃ code, markers s' !! code = Some id) ∧
    (∀ code1 code2 id, markers s' !! code1 = Some id →
       markers s' !! code2 = Some id → code1 = code2) ∧
    ∀ code st, stations d !! code = Some st →
      ∃ id mk,
        markers s' !! code = Some id ∧ heap s' !! id = Some mk ∧
        latlng mk = (st_latitude st, st_longitude st) ∧
        (truthy_ostr analyte = false → fillColor mk = "#6c757d"%string) ∧
        (∀ a, analyte = Some a →
           latestValues d !! code ≫= (.!! a) = None →
           fillColor mk = "#6c757d"%string) ∧
        (∀ a lv, analyte = Some a → truthy_str a = true →
           latestValues d !! code ≫= (.!! a) = Some lv →
           (lv_status lv = "acceptable"%string → fillColor mk = "#28a745"%string) ∧
           (lv_status lv = "outside_range"%string → fillColor mk = "#dc3545"%string) ∧
           (lv_status lv = "no_range"%string → fillColor mk = "#007bff"%string) ∧
           (lv_status lv = "no_data"%string → fillColor mk = "#6c757d"%string)).
Proof.
  intros Hm Hd Ht. unfold addStationMarkers. simpl. rewrite Hd.
  rewrite (clearMarkers_tracked (set_currentAnalyte analyte s) m Hm Ht). simpl.
  set (s1 := {| map := Some {| layers := []; view := view m |}; markers := ∅;
                heap := heap s; next := next s;
                currentAnalyte := analyte; data := data s |}).
  set (entries := map_to_list (stations d)).
  assert (Hnd : NoDup entries.*1) by apply NoDup_fst_map_to_list.
  destruct (add_all_spec analyte d entries Hnd s1 _ eq_refl Hd)
    as (s2 & Hrun & Hd2 & Hm2 & Hn2 & Hother & Hentry & Hheap).
  rewrite Hrun.
  destruct (fitToMarkers_view s2 _ Hm2) as (v & Hfit). rewrite Hfit.
  simpl in *.
  assert (Hkey : ∀ code id, markers s2 !! code = Some id →
            ∃ i st, entries !! i = Some (code, st) ∧ id = next s + i).
  { intros code id Hc.
    destruct (decide (code ∈ entries.*1)) as [Hin|Hnin].
    - apply list_elem_of_fmap in Hin as ([c st] & -> & Hin).
      apply list_elem_of_lookup in Hin as [i Hi].
      destruct (Hentry i c st Hi) as [Hmk _]. simpl in Hc.
      exists i, st. split; [done|]. congruence.
    - rewrite (Hother code Hnin), lookup_empty in Hc. done. }
  eexists _, _. split; [reflexivity|]. simpl. split; [reflexivity|].
  cbn [layers].
  split_and!.
  - apply set_eq. intros code. rewrite !elem_of_dom. split.
    + intros [id Hc]. destruct (Hkey code id Hc) as (i & st & Hi & _).
      exists st. apply elem_of_map_to_list.
      by eapply list_elem_of_lookup_2.
    + intros [st Hst]. apply elem_of_map_to_list in Hst.
      apply list_elem_of_lookup in Hst as [i Hi].
      destruct (Hentry i code st Hi) as [Hmk _]. by eexists.
  - rewrite length_seq. unfold entries. by rewrite length_map_to_list.
  - apply NoDup_seq.
  - intros id. rewrite elem_of_seq. split.
    + intros [Hlo Hhi].
      destruct (lookup_lt_is_Some_2 entries (id - next s)) as [[code st] Hi];
        [lia|].
      destruct (Hentry _ code st Hi) as [Hmk _].
      exists code. rewrite Hmk. f_equal. lia.
    + intros [code Hc]. destruct (Hkey code id Hc) as (i & st & Hi & ->).
      apply lookup_lt_Some in Hi. lia.
  - intros c1 c2 id H1 H2.
    destruct (Hkey c1 id H1) as (i1 & st1 & Hi1 & ->).
    destruct (Hkey c2 _ H2) as (i2 & st2 & Hi2 & Heq).
    assert (i1 = i2) as -> by lia. congruence.
  - intros code st Hst. apply elem_of_map_to_list in Hst.
    apply list_elem_of_lookup in Hst as [i Hi].
    destruct (Hentry i code st Hi) as [Hmk Hhp].
    exists (next s + i), (marker_for d code st analyte).
    split_and!; try done.
    + intros Hf. by apply marker_for_neutral, latest_entry_no_analyte.
    + intros a -> Hnone. apply marker_for_neutral.
      destruct (truthy_str a) eqn:Ha.
      * by rewrite latest_entry_analyte.
      * apply latest_entry_no_analyte. simpl. done.
    + intros a lv -> Ha Hlv. apply marker_for_status.
      by rewrite latest_entry_analyte.
Qed.

(** The map after [initMap()] and [setData(data)]. *)
Definition ready : state := setData (Some Sample.two_pH) (initMap constructor).

Lemma addStationMarkers_colors_witness :
  ∃ s' m',
    addStationMarkers (Some "pH"%string) ready = (Normal, s') ∧
    map s' = Some m' ∧
    dom (markers s') = dom (stations Sample.two_pH) ∧
    length (layers m') = size (stations Sample.two_pH) ∧
    NoDup (layers m') ∧
    (∀ id, id ∈ layers m' ↔ ∃ code, markers s' !! code = Some id) ∧
    (∀ code1 code2 id, markers s' !! code1 = Some id →
       markers s' !! code2 = Some id → code1 = code2) ∧
    ∀ code st, stations Sample.two_pH !! code = Some st →
      ∃ id mk,
        markers s' !! code = Some id ∧ heap s' !! id = Some mk ∧
        latlng mk = (st_latitude st, st_longitude st) ∧
        (truthy_ostr (Some "pH"%string) = false →
         fillColor mk = "#6c757d"%string) ∧
        (∀ a, Some "pH"%string = Some a →
           latestValues Sample.two_pH !! code ≫= (.!! a) = None →
           fillColor mk = "#6c757d"%string) ∧
        (∀ a lv, Some "pH"%string = Some a → truthy_str a = true →
           latestValues Sample.two_pH !! code ≫= (.!! a) = Some lv →
           (lv_status lv = "acceptable"%string → fillColor mk = "#28a745"%string) ∧
           (lv_status lv = "outside_range"%string → fillColor mk = "#dc3545"%string) ∧
           (lv_status lv = "no_range"%string → fillColor mk = "#007bff"%string) ∧
           (lv_status lv = "no_data"%string → fillColor mk = "#6c757d"%string)).
Proof.
  apply (addStationMarkers_colors (Some "pH"%string) ready
           {| layers := []; view := Center config_center config_zoom |}
           Sample.two_pH).
  - reflexivity.
  - reflexivity.
  - intros m id [= <-] Hid. simpl in Hid. by apply elem_of_nil in Hid.
Defined.

(** Selecting pH: the station with 9.0 is red, the one with 7.0 green;
    with no analyte both are gray. *)
Example pH_marker_colors :
  let s := (addStationMarkers (Some "pH"%string) ready).2 in
  let color code := fillColor <$> (markers s !! code ≫= (heap s !!.)) in
  color "SRA190"%string = Some "#dc3545"%string ∧
  color "SRA100"%string = Some "#28a745"%string.
Proof. split; vm_compute; reflexivity. Qed.

Example neutral_marker_colors :
  let s := (addStationMarkers None ready).2 in
  let color code := fillColor <$> (markers s !! code ≫= (heap s !!.)) in
  color "SRA190"%string = Some "#6c757d"%string ∧
  color "SRA100"%string = Some "#6c757d"%string.
Proof. split; vm_compute; reflexivity. Qed.

End MarkerColors.

(* ===================================================================== *)
(** ** DataLoader: sessions with failures and cache clearing *)
(* ===================================================================== *)

Module LoaderSession.
Import JS Model DataLoader LoadOnce.

Lemma truthy_opt_empty_cache (k : string) :
  truthy_opt (empty_cache !! k) = false.
Proof. apply truthy_opt_constructor. Qed.

Lemma inv_clearCache (s : state) : inv s → inv (clearCache s).
Proof.
  intros [HL HP HC]. split; simpl; [done | done |].
  intros k id _. apply truthy_opt_empty_cache.
Qed.

Lemma inv_exec (a : action) (s : state) : inv s → inv (exec s a).
Proof.
  destruct a; simpl; [apply inv_loadJSON | apply inv_settle | apply inv_clearCache].
Qed.

Lemma inv_execs (acts : list action) (s : state) : inv s → inv (execs acts s).
Proof.
  revert s. induction acts as [|a acts IH]; intros s Hi; [done|].
  simpl. apply IH. by apply inv_exec.
Qed.

(** X1.  In every state of a session (loads, network answers and cache
    clearing in any order), a key has at most one request in flight:
    two pending promises with the same cache key are the same promise,
    and it is the one recorded in the in-flight table. *)
Theorem one_pending_per_key (acts : list action) (i j : nat) (p q : promise) :
  promises (execs acts constructor) !! i = Some p →
  promises (execs acts constructor) !! j = Some q →
  p_state p = Pending → p_state q = Pending →
  p_key p = p_key q →
  i = j ∧ loading (execs acts constructor) !! p_key p = Some i.
Proof.
  intros Hp Hq Hsp Hsq Hk.
  pose proof (inv_execs acts constructor inv_constructor) as Hi.
  pose proof (inv_pending _ Hi _ _ Hp Hsp) as H1.
  pose proof (inv_pending _ Hi _ _ Hq Hsq) as H2.
  rewrite <- Hk in H2. split; [congruence | done].
Qed.

Lemma one_pending_per_key_witness :
  let acts := [Load "data/stations.json" "stations";
               Load "data/stations.json" "stations"] in
  let p := {| p_url := "data/stations.json"; p_key := "stations";
              p_state := Pending |} in
  0 = 0 ∧ loading (execs acts constructor) !! p_key p = Some 0.
Proof.
  apply (one_pending_per_key
           [Load "data/stations.json" "stations";
            Load "data/stations.json" "stations"] 0 0
           {| p_url := "data/stations.json"; p_key := "stations";
              p_state := Pending |}
           {| p_url := "data/stations.json"; p_key := "stations";
              p_state := Pending |}); reflexivity.
Defined.

(** X2.  A failed fetch is not memoized.  When the request of a pending
    promise fails (HTTP status not ok, network or parse error), the
    cache is left as it was, the promise is rejected, and the next call
    for the key issues a new request. *)
Theorem failed_fetch_retried (acts : list action) (id : nat) (p : promise)
    (r : response) (url : string) :
  promises (execs acts constructor) !! id = Some p →
  p_state p = Pending →
  (∀ v, r ≠ Ok_json v) →
  let s1 := settle id r (execs acts constructor) in
  cache s1 = cache (execs acts constructor) ∧
  p_state <$> promises s1 !! id = Some Rejected ∧
  loadJSON url (p_key p) s1 = start_fetch url (p_key p) s1 ∧
  requests (loadJSON url (p_key p) s1).2 = S (requests (execs acts constructor)).
Proof.
  intros Hp Hs Hr s1.
  pose proof (inv_execs acts constructor inv_constructor) as Hi.
  set (s := execs acts constructor) in *.
  assert (Hlt : id < length (promises s)) by (by eapply lookup_lt_Some).
  assert (Hc : cache s1 = cache s).
  { unfold s1, settle. rewrite Hp, Hs. destruct r; try done. by destruct (Hr v). }
  assert (Hm : loadJSON url (p_key p) s1 = start_fetch url (p_key p) s1).
  { apply loadJSON_miss.
    - rewrite Hc. eapply inv_cache; [done|]. by eapply inv_pending.
    - by apply settle_loading. }
  split_and!; try done.
  - unfold s1, settle. rewrite Hp, Hs.
    destruct r; simpl; try (by rewrite list_lookup_insert_eq).
    by destruct (Hr v).
  - rewrite Hm. unfold start_fetch, requests. simpl.
    rewrite length_app. simpl.
    pose proof (settle_requests id r s) as Hreq. unfold requests in Hreq.
    fold s1 in Hreq. lia.
Qed.

Lemma failed_fetch_retried_witness :
  let acts := [Load "data/stations.json" "stations"] in
  let s1 := settle 0 (Http_error 404) (execs acts constructor) in
  cache s1 = cache (execs acts constructor) ∧
  p_state <$> promises s1 !! 0 = Some Rejected ∧
  loadJSON "data/stations.json" "stations" s1
  = start_fetch "data/stations.json" "stations" s1 ∧
  requests (loadJSON "data/stations.json" "stations" s1).2
  = S (requests (execs acts constructor)).
Proof.
  apply (failed_fetch_retried [Load "data/stations.json" "stations"] 0
           {| p_url := "data/stations.json"; p_key := "stations";
              p_state := Pending |}
           (Http_error 404) "data/stations.json").
  - reflexivity.
  - reflexivity.
  - discriminate.
Defined.

(** X3.  [clearCache] forgets every loaded value and nothing else.
    Right after it, in any state of a session, a call never returns a
    cached value: it joins the request in flight for the key when there
    is one, and no new request is issued; otherwise it issues one.  A
    request that was in flight when the cache was cleared still fills
    the cache when it is answered. *)
Theorem clearCache_forgets (acts : list action) (url k : string) :
  let s := clearCache (execs acts constructor) in
  loading s = loading (execs acts constructor) ∧
  promises s = promises (execs acts constructor) ∧
  (∀ id, loading s !! k = Some id → loadJSON url k s = (Promise id, s)) ∧
  (loading s !! k = None →
   loadJSON url k s = start_fetch url k s ∧
   requests (loadJSON url k s).2 = S (requests (execs acts constructor))) ∧
  (∀ id p v, promises s !! id = Some p → p_state p = Pending →
     truthy v = true →
     (loadJSON url (p_key p) (settle id (Ok_json v) s)).1 = Value v).
Proof.
  simpl. split_and!; try done.
  - intros id Hl. apply loadJSON_join; [|done]. apply truthy_opt_empty_cache.
  - intros Hl.
    assert (Hm : loadJSON url k (clearCache (execs acts constructor))
                 = start_fetch url k (clearCache (execs acts constructor))).
    { apply loadJSON_miss; [|done]. apply truthy_opt_empty_cache. }
    split; [done|]. rewrite Hm. unfold start_fetch, requests. simpl.
    rewrite length_app. simpl. lia.
  - intros id p v Hp Hs Hv.
    rewrite (loadJSON_hit url (p_key p) _ v); [done| |done].
    by apply settle_ok_cache.
Qed.

(** A loaded resource is served from the cache until the cache is
    cleared, and fetched again afterwards. *)
Example clear_then_refetch :
  let loaded := execs [Load "data/stations.json" "stations";
                       Net 0 (Ok_json (JObj []))] constructor in
  (loadJSON "data/stations.json" "stations" loaded).1 = Value (JObj []) ∧
  (loadJSON "data/stations.json" "stations" (clearCache loaded)).1 = Promise 1.
Proof. split; vm_compute; reflexivity. Qed.

End LoaderSession.

(* ===================================================================== *)
(** ** DataLoader: the generated dataset and the fallback *)
(* ===================================================================== *)

Module DemoData.
Import JS Model DataLoader JSFacts DemoStatus.

Lemma stationCoords_functional (code : string) (c1 c2 : Q * Q) :
  (code, c1) ∈ stationCoords → (code, c2) ∈ stationCoords → c1 = c2.
Proof.
  unfold stationCoords. rewrite !elem_of_cons, !elem_of_nil.
  intros H1 H2.
  repeat match goal with
         | H : _ ∨ _ |- _ => destruct H as [H|H]
         end; try done; congruence.
Qed.

(** What [generateDemoData] stores for one station. *)
Definition station_of (analyteRanges : gmap string AnalyteRange)
    (stationCode : string) (station : Station) : Prop :=
  st_name station = ("Station " +:+ stationCode)%string ∧
  st_analytes station = Object_keys analyteRanges ∧
  st_measurement_count station = 50 ∧
  (stationCode, (st_longitude station, st_latitude station)) ∈ stationCoords.

Definition series_of (gen : string → string → AnalyteRange → list Measurement)
    (analyteRanges : gmap string AnalyteRange) (stationCode : string)
    (series : gmap string (list Measurement)) : Prop :=
  dom series = dom analyteRanges ∧
  ∀ analyte range, analyteRanges !! analyte = Some range →
    series !! analyte = Some (gen stationCode analyte range).

Definition entries_of (gen : string → string → AnalyteRange → list Measurement)
    (analyteRanges : gmap string AnalyteRange) (stationCode : string)
    (entries : gmap string LatestValue) : Prop :=
  dom entries = dom analyteRanges ∧
  ∀ analyte range, analyteRanges !! analyte = Some range →
    ∃ lv latest,
      entries !! analyte = Some lv ∧
      last (gen stationCode analyte range) = Some latest ∧
      lv_value lv = m_value latest ∧
      lv_date lv = m_date latest ∧
      lv_unit lv = range_unit range.

Section Consistent.

Variable generateTimeSeries : string → string → AnalyteRange → list Measurement.
Variable analyteRanges : gmap string AnalyteRange.

Hypothesis series_nonempty :
  ∀ stationCode analyte range,
    generateTimeSeries stationCode analyte range ≠ [].

Lemma demo_analyte_step (stationCode analyte : string)
    (s : gmap string (list Measurement) * gmap string LatestValue) :
  analyte ∈ Object_keys analyteRanges →
  ∃ range latest,
    analyteRanges !! analyte = Some range ∧
    last (generateTimeSeries stationCode analyte range) = Some latest ∧
    demo_analyte generateTimeSeries analyteRanges stationCode s analyte
    = Some (<[analyte := generateTimeSeries stationCode analyte range]> s.1,
            <[analyte := {| lv_value := m_value latest;
                            lv_date := m_date latest;
                            lv_status := demo_status range (m_value latest);
                            lv_unit := range_unit range |}]> s.2).
Proof.
  intros Ha. apply elem_of_Object_keys in Ha as [range Hr].
  destruct (proj2 (last_is_Some _) (series_nonempty stationCode analyte range))
    as [latest Hl].
  exists range, latest. split_and!; [done | done |].
  unfold demo_analyte. by rewrite Hr, Hl.
Qed.

Lemma dom_from_keys {V : Type} (m : gmap string V) :
  (∀ k, k ∉ id <$> Object_keys analyteRanges → m !! k = (∅ : gmap string V) !! k) →
  (∀ k, k ∈ id <$> Object_keys analyteRanges → ∃ v, m !! k = Some v) →
  dom m = dom analyteRanges.
Proof.
  intros Hout Hin. apply set_eq. intros k.
  rewrite !elem_of_dom, <- (elem_of_Object_keys analyteRanges).
  rewrite list_fmap_id in Hout, Hin. split.
  - intros [v Hv]. destruct (decide (k ∈ Object_keys analyteRanges)); [done|].
    rewrite Hout, lookup_empty in Hv; done.
  - intros Hk. destruct (Hin k Hk) as [v Hv]. by exists v.
Qed.

Lemma demo_analytes_full (stationCode : string) :
  ∃ acc, forEach (demo_analyte generateTimeSeries analyteRanges stationCode)
                 (Object_keys analyteRanges) (∅, ∅) = Some acc ∧
    series_of generateTimeSeries analyteRanges stationCode acc.1 ∧
    entries_of generateTimeSeries analyteRanges stationCode acc.2.
Proof.
  destruct (forEach_insert
              (demo_analyte generateTimeSeries analyteRanges stationCode)
              id fst
              (λ analyte series, ∃ range,
                 analyteRanges !! analyte = Some range ∧
                 series = generateTimeSeries stationCode analyte range)
              (Object_keys analyteRanges))
    with (s := (∅, ∅) : gmap string (list Measurement) * gmap string LatestValue)
    as (acc & Hacc & H1).
  { intros s a Ha.
    destruct (demo_analyte_step stationCode a s Ha) as (range & latest & Hr & Hl & Hb).
    eexists _, _. split_and!; [exact Hb | done |]. by exists range. }
  destruct (forEach_insert
              (demo_analyte generateTimeSeries analyteRanges stationCode)
              id snd
              (λ analyte lv, ∃ range latest,
                 analyteRanges !! analyte = Some range ∧
                 last (generateTimeSeries stationCode analyte range) = Some latest ∧
                 lv_value lv = m_value latest ∧
                 lv_date lv = m_date latest ∧
                 lv_unit lv = range_unit range)
              (Object_keys analyteRanges))
    with (s := (∅, ∅) : gmap string (list Measurement) * gmap string LatestValue)
    as (acc' & Hacc' & H2).
  { intros s a Ha.
    destruct (demo_analyte_step stationCode a s Ha) as (range & latest & Hr & Hl & Hb).
    eexists _, _. split_and!; [exact Hb | done |]. by exists range, latest. }
  assert (acc' = acc) as -> by congruence.
  exists acc. split; [done|]. split; split.
  - apply dom_from_keys; intros k Hk.
    + by apply H1.
    + destruct (proj1 (H1 k) Hk) as (v & Hv & _). by exists v.
  - intros analyte range Hr.
    destruct (proj1 (H1 analyte)) as (v & Hv & range' & Hr' & ->).
    { rewrite list_fmap_id. apply elem_of_Object_keys. by exists range. }
    rewrite Hv. congruence.
  - apply dom_from_keys; intros k Hk.
    + by apply H2.
    + destruct (proj1 (H2 k) Hk) as (v & Hv & _). by exists v.
  - intros analyte range Hr.
    destruct (proj1 (H2 analyte)) as (lv & Hlv & range' & latest & Hr' & Hrest).
    { rewrite list_fmap_id. apply elem_of_Object_keys. by exists range. }
    assert (range' = range) as -> by congruence.
    by exists lv, latest.
Qed.

Lemma demo_station_step
    (s : gmap string Station
         * gmap string (gmap string (list Measurement))
         * gmap string (gmap string LatestValue))
    (entry : string * (Q * Q)) :
  entry ∈ stationCoords →
  ∃ station series entries,
    demo_station generateTimeSeries analyteRanges s entry
    = Some (<[entry.1 := station]> s.1.1,
            <[entry.1 := series]> s.1.2,
            <[entry.1 := entries]> s.2) ∧
    station_of analyteRanges entry.1 station ∧
    series_of generateTimeSeries analyteRanges entry.1 series ∧
    entries_of generateTimeSeries analyteRanges entry.1 entries.
Proof.
  destruct entry as [code [lon lat]]. intros Hin.
  destruct (demo_analytes_full code) as ([series entries] & Hacc & Hs & He).
  eexists _, series, entries. split_and!; [|split_and!| |]; try done.
  - unfold demo_station. rewrite Hacc. reflexivity.
  - done.
  - done.
  - done.
  - done.
Qed.

(** X4.  The generated dataset is complete and consistent: the three
    generated resources have exactly the six station codes of the list
    as keys; each station is named after its code, has the coordinates
    of the list, lists every analyte of the ranges and a count of 50;
    for each station and analyte the measurements hold the generated
    series, and the latest value is the last element of that series
    (value and date) with the unit of the range. *)
Theorem generateDemoData_consistent :
  ∃ stations measurements latestValues,
    generateDemoData generateTimeSeries analyteRanges
    = Some (stations, measurements, latestValues) ∧
    (∀ code, code ∉ stationCoords.*1 →
       stations !! code = None ∧ measurements !! code = None ∧
       latestValues !! code = None) ∧
    ∀ code lon lat, (code, (lon, lat)) ∈ stationCoords →
      ∃ station series entries,
        stations !! code = Some station ∧
        measurements !! code = Some series ∧
        latestValues !! code = Some entries ∧
        st_name station = ("Station " +:+ code)%string ∧
        st_longitude station = lon ∧ st_latitude station = lat ∧
        st_analytes station = Object_keys analyteRanges ∧
        st_measurement_count station = 50 ∧
        series_of generateTimeSeries analyteRanges code series ∧
        entries_of generateTimeSeries analyteRanges code entries.
Proof.
  unfold generateDemoData.
  pose (T := (gmap string Station
              * gmap string (gmap string (list Measurement))
              * gmap string (gmap string LatestValue))%type).
  destruct (forEach_insert (demo_station generateTimeSeries analyteRanges)
              fst (λ acc : T, acc.1.1) (station_of analyteRanges) stationCoords)
    with (s := (∅, ∅, ∅) : T) as (acc & Hacc & H1).
  { intros s e He.
    destruct (demo_station_step s e He) as (st & se & en & Hb & ? & ? & ?).
    eexists _, st. split_and!; [exact Hb | done | done]. }
  destruct (forEach_insert (demo_station generateTimeSeries analyteRanges)
              fst (λ acc : T, acc.1.2)
              (series_of generateTimeSeries analyteRanges) stationCoords)
    with (s := (∅, ∅, ∅) : T) as (acc2 & Hacc2 & H2).
  { intros s e He.
    destruct (demo_station_step s e He) as (st & se & en & Hb & ? & ? & ?).
    eexists _, se. split_and!; [exact Hb | done | done]. }
  destruct (forEach_insert (demo_station generateTimeSeries analyteRanges)
              fst (λ acc : T, acc.2)
              (entries_of generateTimeSeries analyteRanges) stationCoords)
    with (s := (∅, ∅, ∅) : T) as (acc3 & Hacc3 & H3).
  { intros s e He.
    destruct (demo_station_step s e He) as (st & se & en & Hb & ? & ? & ?).
    eexists _, en. split_and!; [exact Hb | done | done]. }
  assert (acc2 = acc) as -> by congruence.
  assert (acc3 = acc) as -> by congruence.
  destruct acc as [[st ms] lvs]. simpl in *.
  exists st, ms, lvs. split; [done|]. split.
  - intros code Hc.
    rewrite (proj2 (H1 code) Hc), (proj2 (H2 code) Hc), (proj2 (H3 code) Hc).
    by rewrite !lookup_empty.
  - intros code lon lat Hin.
    assert (Hc : code ∈ stationCoords.*1).
    { apply list_elem_of_fmap. by exists (code, (lon, lat)). }
    destruct (proj1 (H1 code) Hc) as (station & Hst & Hn & Ha & Hcount & Hco).
    destruct (proj1 (H2 code) Hc) as (series & Hse & Hser).
    destruct (proj1 (H3 code) Hc) as (entries & Hen & Hent).
    pose proof (stationCoords_functional _ _ _ Hco Hin) as [= Hlon Hlat].
    exists station, series, entries. by split_and!.
Qed.

(** X5.  The fallback always applies: once the analyte ranges are
    loaded, [loadAllData] of the revision with demo data resolves,
    whatever happens to the three other loads, and the result carries
    the loaded ranges. *)
Theorem loadAllData_demo_resolves
    (loadStations : awaited (gmap string Station))
    (loadMeasurements : awaited (gmap string (gmap string (list Measurement))))
    (loadLatestValues : awaited (gmap string (gmap string LatestValue)))
    (loadAnalyteRanges : awaited (gmap string AnalyteRange)) :
  result loadAnalyteRanges = Resolved analyteRanges →
  ∃ d, loadAllData_demo generateTimeSeries loadStations loadMeasurements
                        loadLatestValues loadAnalyteRanges = Resolved d ∧
       Model.analyteRanges d = analyteRanges.
Proof.
  intros Hr. unfold loadAllData_demo. rewrite Hr.
  destruct (result (Promise_all2 (Promise_all2 loadStations loadMeasurements)
                                 loadLatestValues)) as [[[s m] l]|e].
  - by eexists.
  - destruct generateDemoData_consistent as (st & ms & lvs & Hg & _).
    rewrite Hg. by eexists.
Qed.

End Consistent.

Lemma generateDemoData_consistent_witness :
  ∃ stations measurements latestValues,
    generateDemoData fixed_series pH_range
    = Some (stations, measurements, latestValues) ∧
    (∀ code, code ∉ stationCoords.*1 →
       stations !! code = None ∧ measurements !! code = None ∧
       latestValues !! code = None) ∧
    ∀ code lon lat, (code, (lon, lat)) ∈ stationCoords →
      ∃ station series entries,
        stations !! code = Some station ∧
        measurements !! code = Some series ∧
        latestValues !! code = Some entries ∧
        st_name station = ("Station " +:+ code)%string ∧
        st_longitude station = lon ∧ st_latitude station = lat ∧
        st_analytes station = Object_keys pH_range ∧
        st_measurement_count station = 50 ∧
        series_of fixed_series pH_range code series ∧
        entries_of fixed_series pH_range code entries.
Proof.
  apply (generateDemoData_consistent fixed_series pH_range).
  intros stationCode analyte range. discriminate.
Defined.

Lemma loadAllData_demo_resolves_witness :
  ∃ d, loadAllData_demo fixed_series
         {| settled_at := 1; result := Failed "HTTP error! status: 404" |}
         {| settled_at := 2; result := Failed "HTTP error! status: 404" |}
         {| settled_at := 3; result := Resolved ∅ |}
         {| settled_at := 0; result := Resolved pH_range |} = Resolved d ∧
       Model.analyteRanges d = pH_range.
Proof.
  apply (loadAllData_demo_resolves fixed_series pH_range).
  - intros stationCode analyte range. discriminate.
  - reflexivity.
Defined.

End DemoData.

(* ===================================================================== *)
(** ** DataLoader: which failure [loadAllData] reports *)
(* ===================================================================== *)

Module FirstFailure.
Import JS Model DataLoader.

Lemma Promise_all2_failed {A B : Type} (x : awaited A) (y : awaited B) (e : error) :
  result (Promise_all2 x y) = Failed e →
  (result x = Failed e ∧ settled_at (Promise_all2 x y) = settled_at x) ∨
  (result y = Failed e ∧ settled_at (Promise_all2 x y) = settled_at y).
Proof.
  unfold Promise_all2.
  destruct (result x) as [a|e1], (result y) as [b|e2]; simpl; try done.
  - intros [= <-]. by right.
  - intros [= <-]. by left.
  - destruct (Nat.leb (settled_at x) (settled_at y)); simpl; intros [= <-];
      [by left | by right].
Qed.

Lemma Promise_all2_le_l {A B : Type} (x : awaited A) (y : awaited B) (e' : error) :
  result x = Failed e' →
  (∃ e, result (Promise_all2 x y) = Failed e) ∧
  settled_at (Promise_all2 x y) ≤ settled_at x.
Proof.
  intros Hx. unfold Promise_all2. rewrite Hx.
  destruct (result y) as [b|e2]; simpl; [eauto|].
  destruct (Nat.leb (settled_at x) (settled_at y)) eqn:Hle; simpl.
  - eauto.
  - apply Nat.leb_gt in Hle. split; [eauto | lia].
Qed.

Lemma Promise_all2_le_r {A B : Type} (x : awaited A) (y : awaited B) (e' : error) :
  result y = Failed e' →
  (∃ e, result (Promise_all2 x y) = Failed e) ∧
  settled_at (Promise_all2 x y) ≤ settled_at y.
Proof.
  intros Hy. unfold Promise_all2. rewrite Hy.
  destruct (result x) as [a|e1]; simpl; [eauto|].
  destruct (Nat.leb (settled_at x) (settled_at y)) eqn:Hle; simpl.
  - apply Nat.leb_le in Hle. eauto.
  - eauto.
Qed.

(** X6.  When [loadAllData] (without fallback) fails, the error it
    rethrows is the error of a load that failed no later than every
    other failed load: the first rejection is the one reported. *)
Theorem loadAllData_first_failure
    (loadStations : awaited (gmap string Station))
    (loadMeasurements : awaited (gmap string (gmap string (list Measurement))))
    (loadLatestValues : awaited (gmap string (gmap string LatestValue)))
    (loadAnalyteRanges : awaited (gmap string AnalyteRange))
    (e : error) :
  loadAllData loadStations loadMeasurements loadLatestValues loadAnalyteRanges
  = Failed e →
  ∃ t,
    ((result loadStations = Failed e ∧ settled_at loadStations = t) ∨
     (result loadMeasurements = Failed e ∧ settled_at loadMeasurements = t) ∨
     (result loadLatestValues = Failed e ∧ settled_at loadLatestValues = t) ∨
     (result loadAnalyteRanges = Failed e ∧ settled_at loadAnalyteRanges = t)) ∧
    (∀ e', result loadStations = Failed e' → t ≤ settled_at loadStations) ∧
    (∀ e', result loadMeasurements = Failed e' → t ≤ settled_at loadMeasurements) ∧
    (∀ e', result loadLatestValues = Failed e' → t ≤ settled_at loadLatestValues) ∧
    (∀ e', result loadAnalyteRanges = Failed e' → t ≤ settled_at loadAnalyteRanges).
Proof.
  unfold loadAllData.
  set (z1 := Promise_all2 loadStations loadMeasurements).
  set (z2 := Promise_all2 z1 loadLatestValues).
  set (z3 := Promise_all2 z2 loadAnalyteRanges).
  destruct (result z3) as [[[[s m] l] r]|e0] eqn:H3; [done|].
  intros [= ->]. exists (settled_at z3).
  assert (L1 : ∀ e', result z1 = Failed e' → settled_at z3 ≤ settled_at z1).
  { intros e' H1.
    destruct (Promise_all2_le_l z1 loadLatestValues e' H1) as [[e2 H2] Hle1].
    destruct (Promise_all2_le_l z2 loadAnalyteRanges e2 H2) as [_ Hle2].
    fold z2 in Hle1. fold z3 in Hle2. lia. }
  split_and!.
  - destruct (Promise_all2_failed z2 loadAnalyteRanges e H3) as [[H2 T2]|[Hr Tr]];
      [|by auto].
    fold z3 in T2. rewrite T2.
    destruct (Promise_all2_failed z1 loadLatestValues e H2) as [[H1 T1]|[Hl Tl]];
      [|by auto].
    fold z2 in T1. rewrite T1.
    destruct (Promise_all2_failed loadStations loadMeasurements e H1)
      as [[Hs Ts]|[Hm Tm]]; auto.
  - intros e' Hs.
    destruct (Promise_all2_le_l loadStations loadMeasurements e' Hs) as [[e1 H1] Hle].
    specialize (L1 e1 H1). fold z1 in Hle. lia.
  - intros e' Hm.
    destruct (Promise_all2_le_r loadStations loadMeasurements e' Hm) as [[e1 H1] Hle].
    specialize (L1 e1 H1). fold z1 in Hle. lia.
  - intros e' Hl.
    destruct (Promise_all2_le_r z1 loadLatestValues e' Hl) as [[e2 H2] Hle1].
    destruct (Promise_all2_le_l z2 loadAnalyteRanges e2 H2) as [_ Hle2].
    fold z2 in Hle1. fold z3 in Hle2. lia.
  - intros e' Hr.
    destruct (Promise_all2_le_r z2 loadAnalyteRanges e' Hr) as [_ Hle].
    by fold z3 in Hle.
Qed.

Lemma loadAllData_first_failure_witness :
  let st : awaited (gmap string Station) :=
    {| settled_at := 5; result := Failed "HTTP error! status: 500" |} in
  let ms : awaited (gmap string (gmap string (list Measurement))) :=
    {| settled_at := 2; result := Failed "HTTP error! status: 404" |} in
  let lv : awaited (gmap string (gmap string LatestValue)) :=
    {| settled_at := 3; result := Resolved ∅ |} in
  let ar : awaited (gmap string AnalyteRange) :=
    {| settled_at := 4; result := Resolved ∅ |} in
  ∃ t,
    ((result st = Failed "HTTP error! status: 404" ∧ settled_at st = t) ∨
     (result ms = Failed "HTTP error! status: 404" ∧ settled_at ms = t) ∨
     (result lv = Failed "HTTP error! status: 404" ∧ settled_at lv = t) ∨
     (result ar = Failed "HTTP error! status: 404" ∧ settled_at ar = t)) ∧
    (∀ e', result st = Failed e' → t ≤ settled_at st) ∧
    (∀ e', result ms = Failed e' → t ≤ settled_at ms) ∧
    (∀ e', result lv = Failed e' → t ≤ settled_at lv) ∧
    (∀ e', result ar = Failed e' → t ≤ settled_at ar).
Proof.
  apply (loadAllData_first_failure
           {| settled_at := 5; result := Failed "HTTP error! status: 500" |}
           {| settled_at := 2; result := Failed "HTTP error! status: 404" |}
           {| settled_at := 3; result := Resolved ∅ |}
           {| settled_at := 4; result := Resolved ∅ |}
           "HTTP error! status: 404").
  reflexivity.
Defined.

End FirstFailure.

(* ===================================================================== *)
(** ** ChartManager: the fitted range and the data *)
(* ===================================================================== *)

Module AxisRange.
Import JS Model ChartManager JSFacts AxisFit.



(** Negative readings are outside what the fit is made for: the lower
    bound stays at zero, above the upper bound. *)
Example fit_negative :
  (Qmax 0 (Math_min (-10) [] - padding (-10) (-10)) == 0)%Q ∧
  (Math_max (-10) [] + padding (-10) (-10) == -9)%Q.
Proof. split; vm_compute; reflexivity. Qed.

End AxisRange.

(* ===================================================================== *)
(** ** ChartManager: what a redraw displays *)
(* ===================================================================== *)

Module Redraw.
Import JS Model ChartManager JSFacts ColorContinuity.

(** The visible analytes that have a non-empty series at the station,
    with their series, in the order of the visible set. *)
Definition drawn (sd : gmap string (list Measurement)) (visible : list string)
  : list (string * list Measurement) :=
  omap (λ a, match sd !! a with
             | Some (m :: ms) => Some (a, m :: ms)
             | _ => None
             end) visible.

(** The dataset of an analyte under a colour table. *)
Definition dataset_of (d : AppData) (colors : gmap string string)
    (x : string * list Measurement) : Dataset :=
  {| ds_label := x.1;
     ds_data := chartData x.2;
     ds_borderColor := default ""%string (colors !! x.1);
     ds_backgroundColor := default ""%string (colors !! x.1) +:+ "20";
     ds_pointBackgroundColor := default ""%string (colors !! x.1);
     ds_pointHoverBackgroundColor := default ""%string (colors !! x.1);
     ds_unit := match analyteRanges d !! x.1 with
                | Some r => range_unit r
                | None => Some ""%string
                end;
     ds_acceptableRange := analyteRanges d !! x.1 |}.

Lemma createDataset_dataset_of (d : AppData) (colors : gmap string string)
    (a : string) (ms : list Measurement) (i : nat) :
  createDataset d colors a ms i
  = (assign_color colors a i, dataset_of d (assign_color colors a i) (a, ms)).
Proof. reflexivity. Qed.

Lemma dataset_of_ext (d : AppData) (colors colors' : gmap string string)
    (x : string * list Measurement) :
  colors !! x.1 = colors' !! x.1 → dataset_of d colors x = dataset_of d colors' x.
Proof. intros H. unfold dataset_of. by rewrite H. Qed.

Lemma drawn_cons (sd : gmap string (list Measurement)) (a : string)
    (rest : list string) :
  drawn sd (a :: rest)
  = match sd !! a with
    | Some (m :: ms) => (a, m :: ms) :: drawn sd rest
    | _ => drawn sd rest
    end.
Proof.
  unfold drawn. simpl. by destruct (sd !! a) as [[|m ms]|].
Qed.

Lemma elem_of_drawn (sd : gmap string (list Measurement))
    (visible : list string) (x : string * list Measurement) :
  x ∈ drawn sd visible ↔ x.1 ∈ visible ∧ sd !! x.1 = Some x.2 ∧ x.2 ≠ [].
Proof.
  unfold drawn. rewrite list_elem_of_omap. split.
  - intros (a & Ha & Hx). destruct (sd !! a) as [[|m ms]|] eqn:Hs; try done.
    injection Hx as <-. simpl. by rewrite Hs.
  - destruct x as [a ms]. simpl. intros (Ha & Hs & Hne). exists a.
    split; [done|]. rewrite Hs. by destruct ms.
Qed.

(** The loop of [updateChart], in closed form. *)
Lemma build_closed_form (d : AppData) (sd : gmap string (list Measurement))
    (visible : list string) :
  ∀ colors dss n, palette_closed colors →
    ∃ colors',
      fold_left (dataset_step d sd) visible (colors, dss, n)
      = (colors', dss ++ map (dataset_of d colors') (drawn sd visible),
         n + length (drawn sd visible)) ∧
      palette_closed colors' ∧
      (∀ a c, colors !! a = Some c → colors' !! a = Some c) ∧
      (∀ x, x ∈ drawn sd visible → is_Some (colors' !! x.1)) ∧
      ((∀ x, x ∈ drawn sd visible → is_Some (colors !! x.1)) → colors' = colors).
Proof.
  induction visible as [|a rest IH]; intros colors dss n Hcl.
  - exists colors. simpl. rewrite app_nil_r, Nat.add_0_r.
    split_and!; try done. intros x Hx. by apply elem_of_nil in Hx.
  - cbn [fold_left]. rewrite drawn_cons. unfold dataset_step at 2.
    destruct (sd !! a) as [[|m ms]|] eqn:Hsd; try apply (IH colors dss n Hcl).
    rewrite createDataset_dataset_of.
    set (colors1 := assign_color colors a n).
    assert (Hcl1 : palette_closed colors1) by (by apply assign_color_closed).
    destruct (IH colors1 (dss ++ [dataset_of d colors1 (a, m :: ms)]) (S n) Hcl1)
      as (colors' & Hf & Hcl' & Hst & Hall & Hsame).
    destruct (assign_color_is_Some colors a n) as [c1 Hc1]. fold colors1 in Hc1.
    exists colors'. split_and!.
    + rewrite Hf, <- app_assoc. simpl. f_equal; [|lia]. f_equal. f_equal. f_equal.
      apply dataset_of_ext. simpl. by rewrite Hc1, (Hst _ _ Hc1).
    + done.
    + intros a' c Ha'. apply Hst. by apply assign_color_stable.
    + intros x [->|Hx]%elem_of_cons; [|by apply Hall].
      simpl. exists c1. by apply Hst.
    + intros Hc.
      assert (Heq : colors1 = colors).
      { destruct (Hc (a, m :: ms)) as [c Ha]; [by left|]. simpl in Ha.
        unfold colors1, assign_color. rewrite Ha. simpl.
        by rewrite (palette_truthy c (Hcl _ _ Ha)). }
      rewrite <- Heq. apply Hsame. intros x Hx. rewrite Heq.
      apply Hc. by right.
Qed.

(** The chart drawn by [updateChart] does not depend on the chart it
    replaces. *)
Lemma redraw_fresh (d : AppData) (cur : string) (visible : list string)
    (dss : list Dataset) (c1 c2 : Chart) :
  redraw d cur visible dss c1 = redraw d cur visible dss c2.
Proof.
  unfold redraw, fitAxesToData, allValues. simpl.
  destruct dss as [|ds dss]; [done|].
  by destruct (concat _).
Qed.

(** The state in which a redraw draws: a chart, a current station with
    a non-empty code, and measurements for it. *)
Record drawing (s : state) (c : Chart) (cur : string) (d : AppData)
    (sd : gmap string (list Measurement)) : Prop := {
  drawing_chart : chart s = Some c;
  drawing_station : currentStation s = Some cur;
  drawing_code : truthy_str cur = true;
  drawing_data : data s = Some d;
  drawing_series : measurements d !! cur = Some sd
}.

Lemma updateChart_drawing (s : state) (c : Chart) (cur : string) (d : AppData)
    (sd : gmap string (list Measurement)) :
  drawing s c cur d sd → palette_closed (analyteColors s) →
  ∃ colors',
    updateChart s
    = (Normal,
       with_chart
         (redraw d cur (visibleAnalytes s)
                 (map (dataset_of d colors') (drawn sd (visibleAnalytes s))) c)
         (with_colors colors' s)) ∧
    palette_closed colors' ∧
    (∀ a col, analyteColors s !! a = Some col → colors' !! a = Some col) ∧
    (∀ x, x ∈ drawn sd (visibleAnalytes s) → is_Some (colors' !! x.1)) ∧
    ((∀ x, x ∈ drawn sd (visibleAnalytes s) → is_Some (analyteColors s !! x.1)) →
     colors' = analyteColors s).
Proof.
  intros [Hc Hcur Ht Hd Hsd] Hcl.
  destruct (build_closed_form d sd (visibleAnalytes s) (analyteColors s) [] 0 Hcl)
    as (colors' & Hf & Hrest).
  exists colors'. split; [|done].
  unfold updateChart. rewrite Hc, Hcur, Ht, Hd, Hsd. simpl.
  unfold build_datasets. by rewrite Hf.
Qed.

(** X8.  A redraw is idempotent: redrawing again changes nothing, and
    ends the same way (colours, datasets, titles and bounds are a
    function of the station, the visible set and the data). *)
Theorem updateChart_idempotent (s : state) :
  palette_closed (analyteColors s) →
  updateChart (updateChart s).2 = updateChart s.
Proof.
  intros Hcl.
  destruct (chart s) as [c|] eqn:Hc.
  2: { assert (H : updateChart s = (Normal, s))
         by (unfold updateChart; by rewrite Hc).
       by rewrite H. }
  destruct (currentStation s) as [cur|] eqn:Hcur.
  2: { assert (H : updateChart s = (Normal, s))
         by (unfold updateChart; by rewrite Hc, Hcur).
       by rewrite H. }
  destruct (truthy_str cur) eqn:Ht.
  2: { assert (H : updateChart s = (Normal, s))
         by (unfold updateChart; by rewrite Hc, Hcur, Ht).
       by rewrite H. }
  destruct (data s) as [d|] eqn:Hd.
  2: { assert (H : updateChart s = (Throw, s))
         by (unfold updateChart; by rewrite Hc, Hcur, Ht, Hd).
       by rewrite H. }
  destruct (measurements d !! cur) as [sd|] eqn:Hsd.
  - destruct (updateChart_drawing s c cur d sd) as (colors' & Hu & Hcl' & _ & Hall & _);
      [by split | done |].
    rewrite Hu. cbn [snd].
    set (dss := map (dataset_of d colors') (drawn sd (visibleAnalytes s))).
    set (c' := redraw d cur (visibleAnalytes s) dss c).
    set (s' := with_chart c' (with_colors colors' s)).
    destruct (updateChart_drawing s' c' cur d sd) as (colors'' & Hu' & _ & _ & _ & Hsame);
      [by split | done |].
    rewrite Hu'. simpl. rewrite (Hsame Hall).
    change (analyteColors s') with colors'. fold dss.
    rewrite (redraw_fresh d cur (visibleAnalytes s) dss c' c). reflexivity.
  - destruct (visibleAnalytes s) as [|a rest] eqn:Hv.
    + assert (H : updateChart s
                  = (Normal, with_chart (redraw d cur [] [] c) s))
        by (unfold updateChart; by rewrite Hc, Hcur, Ht, Hd, Hsd, Hv).
      rewrite H. unfold updateChart at 1. simpl.
      rewrite Hcur, Ht, Hd, Hsd, Hv. simpl.
      by rewrite (redraw_fresh d cur [] [] (redraw d cur [] [] c) c).
    + assert (H : updateChart s
                  = (Throw, with_chart (set_datasets [] c) s))
        by (unfold updateChart; by rewrite Hc, Hcur, Ht, Hd, Hsd, Hv).
      rewrite H. unfold updateChart at 1. simpl.
      by rewrite Hcur, Ht, Hd, Hsd, Hv.
Qed.

Lemma updateChart_idempotent_witness :
  updateChart (updateChart shown).2 = updateChart shown.
Proof.
  apply (updateChart_idempotent shown).
  apply session_keeps, inv_initChart, inv_chart_constructor.
Defined.

(** The display is coherent with the state: the chart shows nothing, or
    it shows the series of the current station for the visible analytes
    under the current colour table. *)
Definition coherent (s : state) : Prop :=
  ∀ c, chart s = Some c →
    datasets c = [] ∨
    ∃ cur d sd,
      currentStation s = Some cur ∧ truthy_str cur = true ∧
      data s = Some d ∧ measurements d !! cur = Some sd ∧
      datasets c = map (dataset_of d (analyteColors s))
                       (drawn sd (visibleAnalytes s)).

(** Station codes are not empty. *)
Definition named (c : call) : Prop :=
  match c with
  | ShowStation stationCode _ => truthy_str stationCode = true
  | _ => True
  end.

Lemma coherent_clearChart (s : state) : coherent (clearChart s).
Proof.
  intros c Hc. left. simpl in Hc. destruct (chart s); [|done].
  by injection Hc as <-.
Qed.

Lemma coherent_updateChart_visible (v : list string) (s : state) :
  palette_closed (analyteColors s) → coherent s →
  coherent (updateChart (with_visible v s)).2.
Proof.
  intros Hcl Hco.
  assert (Hempty : ∀ c, chart s = Some c →
            (currentStation s = None ∨
             (∃ cur, currentStation s = Some cur ∧ truthy_str cur = false) ∨
             data s = None) → datasets c = []).
  { intros c Hc Hno. destruct (Hco c Hc) as [?|(cur & d & sd & H1 & H2 & H3 & _)];
      [done|].
    destruct Hno as [?|[(cur' & ? & ?)|?]]; congruence. }
  destruct (chart s) as [c|] eqn:Hc.
  2: { assert (H : updateChart (with_visible v s) = (Normal, with_visible v s))
         by (unfold updateChart; simpl; by rewrite Hc).
       rewrite H. intros c'. simpl. by rewrite Hc. }
  destruct (currentStation s) as [cur|] eqn:Hcur.
  2: { assert (H : updateChart (with_visible v s) = (Normal, with_visible v s))
         by (unfold updateChart; simpl; by rewrite Hc, Hcur).
       rewrite H. intros c'. simpl. rewrite Hc. intros [= <-]. left.
       apply Hempty; [done | by left]. }
  destruct (truthy_str cur) eqn:Ht.
  2: { assert (H : updateChart (with_visible v s) = (Normal, with_visible v s))
         by (unfold updateChart; simpl; by rewrite Hc, Hcur, Ht).
       rewrite H. intros c'. simpl. rewrite Hc. intros [= <-]. left.
       apply Hempty; [done | right; left; by exists cur]. }
  destruct (data s) as [d|] eqn:Hd.
  2: { assert (H : updateChart (with_visible v s) = (Throw, with_visible v s))
         by (unfold updateChart; simpl; by rewrite Hc, Hcur, Ht, Hd).
       rewrite H. intros c'. simpl. rewrite Hc. intros [= <-]. left.
       apply Hempty; [done | by right; right]. }
  destruct (measurements d !! cur) as [sd|] eqn:Hsd.
  - destruct (updateChart_drawing (with_visible v s) c cur d sd)
      as (colors' & Hu & _); [by split | done |].
    rewrite Hu. intros c'. simpl. intros [= <-]. right.
    exists cur, d, sd. split_and!; try done. apply datasets_redraw.
  - unfold updateChart. simpl. rewrite Hc, Hcur, Ht, Hd, Hsd. simpl.
    destruct v as [|a rest]; intros c'; simpl; intros [= <-]; left; [|done].
    apply datasets_redraw.
Qed.

Lemma with_visible_same (s : state) : with_visible (visibleAnalytes s) s = s.
Proof. by destruct s. Qed.

Lemma coherent_showStation (code : string) (visible : list string) (s : state) :
  truthy_str code = true → palette_closed (analyteColors s) →
  coherent (showStation code visible s).2.
Proof.
  intros Ht Hcl. unfold showStation. simpl.
  set (s1 := {| chart := chart s; data := data s;
                currentStation := Some code;
                visibleAnalytes := Set_of visible;
                analyteColors := analyteColors s |}).
  destruct (chart s) as [c|] eqn:Hc.
  2: { intros c' Hc'. simpl in Hc'. congruence. }
  destruct (data s) as [d|] eqn:Hd; [|apply coherent_clearChart].
  destruct (measurements d !! code) as [sd|] eqn:Hsd; [|apply coherent_clearChart].
  destruct (updateChart_drawing s1 c code d sd) as (colors' & Hu & _);
    [by split | done |].
  rewrite Hu. intros c'. simpl. intros [= <-]. right.
  exists code, d, sd. split_and!; try done. apply datasets_redraw.
Qed.

Lemma coherent_perform (c : call) (s : state) :
  named c → inv s → coherent s → coherent (perform c s).2.
Proof.
  intros Hn (Hcl & _ & _) Hco. destruct c as [code visible|a v|l| |]; simpl.
  - by apply coherent_showStation.
  - by apply coherent_updateChart_visible.
  - by apply coherent_updateChart_visible.
  - rewrite <- (with_visible_same s) at 1.
    by apply coherent_updateChart_visible.
  - apply coherent_clearChart.
Qed.

Lemma coherent_session (cs : list call) (s : state) :
  Forall named cs → inv s → coherent s → coherent (session cs s).
Proof.
  revert s. induction cs as [|c cs IH]; intros s Hn Hi Hco; [done|].
  apply Forall_cons in Hn as [Hc Hn]. simpl. apply IH; [done| |].
  - by destruct (perform_keeps c s Hi).
  - by apply coherent_perform.
Qed.

Lemma NoDup_drawn_labels (sd : gmap string (list Measurement))
    (visible : list string) :
  NoDup visible → NoDup (drawn sd visible).*1.
Proof.
  induction visible as [|a rest IH]; intros Hnd; [constructor|].
  apply NoDup_cons in Hnd as [Hnin Hnd]. rewrite drawn_cons.
  destruct (sd !! a) as [[|m ms]|]; try by apply IH.
  simpl. apply NoDup_cons. split; [|by apply IH].
  intros ([a' ms'] & Heq & Hin)%list_elem_of_fmap. simpl in Heq. subst a'.
  apply elem_of_drawn in Hin as [Hin _]. done.
Qed.

(** X9.  What the chart displays, at any point of a session that
    starts from a coherent display and names its stations: nothing, or
    exactly one series per visible analyte that has a non-empty series
    at the current station, each made of that series' dated
    measurements. *)
Theorem display_follows_state (s : state) (calls : list call) (c : Chart) :
  inv s → coherent s → Forall named calls →
  chart (session calls s) = Some c →
  datasets c = [] ∨
  ∃ cur d sd,
    currentStation (session calls s) = Some cur ∧
    data (session calls s) = Some d ∧
    measurements d !! cur = Some sd ∧
    NoDup (ds_label <$> datasets c) ∧
    (∀ a, a ∈ ds_label <$> datasets c ↔
          a ∈ visibleAnalytes (session calls s) ∧
          ∃ ms, sd !! a = Some ms ∧ ms ≠ []) ∧
    (∀ ds, ds ∈ datasets c →
       ∃ ms, sd !! ds_label ds = Some ms ∧ ds_data ds = chartData ms).
Proof.
  intros Hi Hco Hn Hc.
  pose proof (coherent_session calls s Hn Hi Hco) as Hco'.
  destruct (session_keeps calls s Hi) as [(_ & Hnd & _) _].
  destruct (Hco' c Hc) as [?|(cur & d & sd & Hcur & Ht & Hd & Hsd & Hds)];
    [by left|].
  right. exists cur, d, sd. split_and!; try done.
  - rewrite Hds, <- list_fmap_compose.
    by apply (NoDup_drawn_labels sd).
  - intros a. rewrite Hds, <- list_fmap_compose. split.
    + intros ([a' ms] & -> & Hin)%list_elem_of_fmap. simpl.
      apply elem_of_drawn in Hin as (? & ? & ?). split; [done|]. by exists ms.
    + intros (Ha & ms & Hms & Hne). apply list_elem_of_fmap.
      exists (a, ms). split; [done|]. by apply elem_of_drawn.
  - intros ds. rewrite Hds. intros (x & -> & Hin)%list_elem_of_fmap.
    apply elem_of_drawn in Hin as (? & ? & ?). by exists x.2.
Qed.

(** The chart once set up, before any station is shown. *)
Definition set_up : state := initChart Sample.creek_data true constructor.

Lemma display_follows_state_witness :
  ∃ c, chart (session (ShowStation "SRA100" ["Temperature"]%string :: toggles)
                      set_up) = Some c ∧
    (datasets c = [] ∨
     ∃ cur d sd,
       currentStation (session (ShowStation "SRA100" ["Temperature"]%string
                                  :: toggles) set_up) = Some cur ∧
       data (session (ShowStation "SRA100" ["Temperature"]%string :: toggles)
                     set_up) = Some d ∧
       measurements d !! cur = Some sd ∧
       NoDup (ds_label <$> datasets c) ∧
       (∀ a, a ∈ ds_label <$> datasets c ↔
             a ∈ visibleAnalytes
                   (session (ShowStation "SRA100" ["Temperature"]%string
                               :: toggles) set_up) ∧
             ∃ ms, sd !! a = Some ms ∧ ms ≠ []) ∧
       (∀ ds, ds ∈ datasets c →
          ∃ ms, sd !! ds_label ds = Some ms ∧ ds_data ds = chartData ms)).
Proof.
  eexists. split; [vm_compute; reflexivity|].
  apply (display_follows_state set_up
           (ShowStation "SRA100" ["Temperature"]%string :: toggles)).
  - apply inv_initChart, inv_chart_constructor.
  - intros c [= <-]. by left.
  - repeat constructor.
  - vm_compute. reflexivity.
Defined.

Lemma title_redraw (d : AppData) (cur : string) (visible : list string)
    (dss : list Dataset) (c : Chart) :
  title_text (redraw d cur visible dss c)
  = ("Water Quality Time Series - " +:+
     match stations d !! cur with
     | Some info => st_name info
     | None => cur
     end)%string.
Proof.
  unfold redraw, fitAxesToData. simpl.
  destruct dss as [|ds dss]; [done|].
  by destruct (allValues _).
Qed.

Lemma Set_delete_add_Permutation (a : string) (l : list string) :
  NoDup l → a ∈ l → Set_add a (Set_delete a l) ≡ₚ l.
Proof.
  intros Hnd Ha. apply NoDup_Permutation.
  - by apply NoDup_Set_add, NoDup_Set_delete.
  - done.
  - intros x. rewrite elem_of_Set_add. unfold Set_delete.
    rewrite list_elem_of_filter. split.
    + intros [->|[_ ?]]; done.
    + intros Hx. destruct (decide (x = a)); [by left | by right].
Qed.

(** X10.  Hiding a drawn analyte and showing it again restores its
    series: after the two toggles the colour table is the one of the
    redraw before them, the visible set has the same members, and the
    chart shows the same datasets (the restored one last) under the
    same title. *)
Theorem toggle_off_on_restores (s : state) (c : Chart) (cur : string)
    (d : AppData) (sd : gmap string (list Measurement)) (a : string) :
  drawing s c cur d sd → inv s → a ∈ visibleAnalytes s →
  ∃ c1 c3,
    chart (updateChart s).2 = Some c1 ∧
    chart (toggleAnalyte a true
             (toggleAnalyte a false (updateChart s).2).2).2 = Some c3 ∧
    analyteColors (toggleAnalyte a true
                     (toggleAnalyte a false (updateChart s).2).2).2
    = analyteColors (updateChart s).2 ∧
    visibleAnalytes (toggleAnalyte a true
                       (toggleAnalyte a false (updateChart s).2).2).2
    ≡ₚ visibleAnalytes s ∧
    datasets c3 ≡ₚ datasets c1 ∧
    title_text c3 = title_text c1.
Proof.
  intros Hdr (Hcl & Hnd & _) Ha.
  destruct (updateChart_drawing s c cur d sd Hdr Hcl)
    as (colors1 & Hu1 & Hcl1 & _ & Hall1 & _).
  rewrite Hu1. cbn [snd].
  set (c1 := redraw d cur (visibleAnalytes s)
               (map (dataset_of d colors1) (drawn sd (visibleAnalytes s))) c).
  set (s1 := with_chart c1 (with_colors colors1 s)).
  destruct Hdr as [Hc Hcur Ht Hd Hsd].
  assert (Hcolored : ∀ v x, (∀ y, y ∈ v → y ∈ visibleAnalytes s) →
            x ∈ drawn sd v → is_Some (colors1 !! x.1)).
  { intros v x Hsub Hx. apply Hall1.
    apply elem_of_drawn in Hx as (Hx & ? & ?). apply elem_of_drawn.
    split_and!; try done. by apply Hsub. }
  (* the analyte is hidden *)
  unfold toggleAnalyte at 2 4 6. cbn [visibleAnalytes s1 with_chart with_colors].
  set (v2 := Set_delete a (visibleAnalytes s)).
  assert (Hv2 : ∀ y, y ∈ v2 → y ∈ visibleAnalytes s).
  { intros y Hy. unfold v2, Set_delete in Hy.
    by apply list_elem_of_filter in Hy as [_ ?]. }
  destruct (updateChart_drawing (with_visible v2 s1) c1 cur d sd)
    as (colors2 & Hu2 & _ & _ & _ & Hsame2); [by split | done |].
  rewrite Hu2. cbn [snd].
  assert (colors2 = colors1) as ->.
  { apply Hsame2. intros x Hx. by apply (Hcolored v2). }
  set (c2 := redraw d cur _ _ c1).
  set (s2 := with_chart c2 _).
  (* and shown again *)
  unfold toggleAnalyte. cbn [visibleAnalytes s2 with_chart with_colors with_visible].
  set (v3 := Set_add a v2).
  assert (Hv3 : ∀ y, y ∈ v3 → y ∈ visibleAnalytes s).
  { intros y Hy. unfold v3 in Hy. apply elem_of_Set_add in Hy as [->|Hy]; auto. }
  destruct (updateChart_drawing (with_visible v3 s2) c2 cur d sd)
    as (colors3 & Hu3 & _ & _ & _ & Hsame3); [by split | done |].
  rewrite Hu3. cbn [snd].
  assert (colors3 = colors1) as ->.
  { apply Hsame3. intros x Hx. by apply (Hcolored v3). }
  assert (Hperm : v3 ≡ₚ visibleAnalytes s)
    by (by apply Set_delete_add_Permutation).
  eexists _, _. split_and!; try reflexivity.
  - done.
  - unfold c1. rewrite !datasets_redraw. unfold drawn.
    apply (fmap_Permutation (dataset_of d colors1)).
    by apply omap_Permutation.
  - unfold c1. by rewrite !title_redraw.
Qed.

Lemma toggle_off_on_restores_witness :
  ∃ c1 c3,
    chart (updateChart shown).2 = Some c1 ∧
    chart (toggleAnalyte "Temperature" true
             (toggleAnalyte "Temperature" false (updateChart shown).2).2).2
    = Some c3 ∧
    analyteColors (toggleAnalyte "Temperature" true
                     (toggleAnalyte "Temperature" false (updateChart shown).2).2).2
    = analyteColors (updateChart shown).2 ∧
    visibleAnalytes (toggleAnalyte "Temperature" true
                       (toggleAnalyte "Temperature" false (updateChart shown).2).2).2
    ≡ₚ visibleAnalytes shown ∧
    datasets c3 ≡ₚ datasets c1 ∧
    title_text c3 = title_text c1.
Proof.
  destruct (chart shown) as [c|] eqn:Hc; [|by vm_compute in Hc].
  destruct (measurements Sample.creek_data !! "SRA100"%string) as [sd|] eqn:Hsd;
    [|by vm_compute in Hsd].
  apply (toggle_off_on_restores shown c "SRA100" Sample.creek_data sd "Temperature").
  - split; [done | reflexivity | reflexivity | reflexivity | done].
  - apply session_keeps, inv_initChart, inv_chart_constructor.
  - vm_compute. by left.
Defined.

End Redraw.

(* ===================================================================== *)
(** ** ChartManager: statistics *)
(* ===================================================================== *)

Module ChartStatistics.
Import JS Model ChartManager JSFacts.










(** The statistics of the two readings 10 and 20. *)
Example statistics_10_20 :
  let st := statistics_for Sample.creek_data "Temperature"
              {| m_date := Some "2024-01-01"%string; m_value := 10 |}
              [ {| m_date := Some "2024-01-08"%string; m_value := 20 |} ] in
  stat_count st = 2 ∧ (stat_min st == 10)%Q ∧ (stat_max st == 20)%Q ∧
  (stat_average st == 15)%Q ∧ (stat_latest st == 20)%Q ∧
  stat_unit st = "Deg C"%string.
Proof. repeat split; vm_compute; reflexivity. Qed.

End ChartStatistics.

(* ===================================================================== *)
(** ** MapManager: the markers over a session *)
(* ===================================================================== *)

Module MapSession.
Import JS Model MapManager JSFacts MarkerFrame MarkerColors.

(** What every state of the map manager satisfies: the circles on the
    map are distinct objects of the marker table, each under one code,
    and the table only names objects that exist. *)
Record sound (s : state) : Prop := {
  sound_tracked : tracked s;
  sound_layers : ∀ m, map s = Some m → NoDup (layers m);
  sound_ids : ∀ code id, markers s !! code = Some id →
    id < next s ∧ is_Some (heap s !! id);
  sound_inj : ∀ code1 code2 id, markers s !! code1 = Some id →
    markers s !! code2 = Some id → code1 = code2
}.

Lemma sound_constructor : sound constructor.
Proof.
  split; simpl; done.
Qed.

(** A state with an empty marker table and no layer. *)
Lemma sound_cleared (s : state) :
  markers s = ∅ → (∀ m, map s = Some m → layers m = []) → sound s.
Proof.
  intros Hm Hl. split.
  - intros m id Hmap Hid. rewrite (Hl m Hmap) in Hid. by apply elem_of_nil in Hid.
  - intros m Hmap. rewrite (Hl m Hmap). constructor.
  - intros code id H. by rewrite Hm, lookup_empty in H.
  - intros c1 c2 id H. by rewrite Hm, lookup_empty in H.
Qed.

Lemma Object_values_nil {V : Type} (o : gmap string V) :
  Object_values o = [] → o = ∅.
Proof.
  unfold Object_values. intros H. apply fmap_nil_inv in H.
  by apply map_to_list_empty_iff.
Qed.

Lemma sound_clearMarkers (s : state) : sound s → sound (clearMarkers s).2.
Proof.
  intros Hs. destruct (map s) as [m|] eqn:Hm.
  - rewrite (clearMarkers_tracked s m Hm (sound_tracked s Hs)). simpl.
    apply sound_cleared; simpl; [done|]. by intros m' [= <-].
  - unfold clearMarkers. rewrite Hm.
    destruct (Object_values (markers s)) eqn:Hv; simpl; [|done].
    apply sound_cleared; [done|]. intros m' Hm'. simpl in Hm'. congruence.
Qed.

(** Without a map no marker is registered: the loop stops at the first
    station. *)
Lemma add_all_no_map (entries : list (string * Station))
    (analyte : option string) (s : state) :
  map s = None →
  map (add_all entries analyte s).2 = None ∧
  markers (add_all entries analyte s).2 = markers s.
Proof.
  intros Hm. destruct entries as [|[code st] rest]; [done|].
  simpl. unfold addStationMarker. rewrite Hm.
  by destruct (truthy_ostr analyte && negb (not_null (data s))).
Qed.

Lemma fitToMarkers_no_markers (s : state) :
  markers s = ∅ → fitToMarkers s = (Normal, s).
Proof.
  intros Hm. unfold fitToMarkers, Object_values.
  by rewrite Hm, map_to_list_empty.
Qed.

Lemma sound_addStationMarkers (analyte : option string) (s : state) :
  sound s → sound (addStationMarkers analyte s).2.
Proof.
  intros Hs. unfold addStationMarkers.
  assert (Hs0 : sound (set_currentAnalyte analyte s)) by (by destruct Hs).
  destruct (data (set_currentAnalyte analyte s)) as [d|] eqn:Hd; [|done].
  destruct (map s) as [m|] eqn:Hm.
  - rewrite (clearMarkers_tracked (set_currentAnalyte analyte s) m Hm
               (sound_tracked _ Hs0)).
    set (entries := map_to_list (stations d)).
    destruct (add_all_spec analyte d entries (NoDup_fst_map_to_list _)
                {| map := Some {| layers := []; view := view m |};
                   markers := ∅; heap := heap s; next := next s;
                   currentAnalyte := analyte; data := data s |}
                _ eq_refl Hd)
      as (s2 & Hrun & Hd2 & Hm2 & Hn2 & Hother & Hentry & Hheap).
    simpl in *. rewrite Hrun.
    destruct (fitToMarkers_view s2 _ Hm2) as (v & Hfit). rewrite Hfit. simpl.
    assert (Hkey : ∀ code id, markers s2 !! code = Some id →
              ∃ i st, entries !! i = Some (code, st) ∧ id = next s + i).
    { intros code id Hc.
      destruct (decide (code ∈ entries.*1)) as [Hin|Hnin].
      - apply list_elem_of_fmap in Hin as ([c st] & -> & Hin).
        apply list_elem_of_lookup in Hin as [i Hi].
        destruct (Hentry i c st Hi) as [Hmk _]. simpl in Hc.
        exists i, st. split; [done|]. congruence.
      - rewrite (Hother code Hnin), lookup_empty in Hc. done. }
    split; simpl.
    + intros m' id [= <-]. simpl. rewrite elem_of_seq. intros [Hlo Hhi].
      destruct (lookup_lt_is_Some_2 entries (id - next s)) as [[code st] Hi];
        [lia|].
      destruct (Hentry _ code st Hi) as [Hmk _].
      exists code. rewrite Hmk. f_equal. lia.
    + intros m' [= <-]. simpl. apply NoDup_seq.
    + intros code id Hc. destruct (Hkey code id Hc) as (i & st & Hi & ->).
      destruct (Hentry i code st Hi) as [_ Hh].
      pose proof (lookup_lt_Some _ _ _ Hi). split; [lia | by eexists].
    + intros c1 c2 id H1 H2.
      destruct (Hkey c1 id H1) as (i1 & st1 & Hi1 & ->).
      destruct (Hkey c2 _ H2) as (i2 & st2 & Hi2 & Heq).
      assert (i1 = i2) as -> by lia. congruence.
  - unfold clearMarkers. simpl. rewrite Hm.
    destruct (Object_values (markers s)) eqn:Hv; [|done].
    set (s1 := {| map := None; markers := ∅; heap := heap s; next := next s;
                  currentAnalyte := analyte; data := data s |}).
    destruct (add_all_no_map (map_to_list (stations d)) analyte s1 eq_refl)
      as [Hmap Hmk].
    destruct (add_all (map_to_list (stations d)) analyte s1) as [[] s2] eqn:Hrun;
      simpl in *.
    + rewrite (fitToMarkers_no_markers s2 Hmk). simpl.
      apply sound_cleared; [done|]. intros m' Hm'. congruence.
    + apply sound_cleared; [done|]. intros m' Hm'. congruence.
Qed.

Lemma sound_heap (s : state) (h : gmap nat Marker) :
  sound s → (∀ id, is_Some (heap s !! id) → is_Some (h !! id)) →
  sound {| map := map s; markers := markers s; heap := h; next := next s;
           currentAnalyte := currentAnalyte s; data := data s |}.
Proof.
  intros [Ht Hl Hi Hj] Hh. split; simpl; try done.
  intros code id Hc. destruct (Hi code id Hc). split; [done | by apply Hh].
Qed.

Lemma sound_updateMarkerColors (analyte : option string) (s : state) :
  sound s → sound (updateMarkerColors analyte s).2.
Proof.
  intros Hs. unfold updateMarkerColors.
  pose proof (recolor_all_same_places (data s) analyte
                (map_to_list (markers s)) (heap s)) as [Hd Hl].
  destruct (recolor_all (data s) analyte (map_to_list (markers s)) (heap s))
    as [c h]. simpl in *.
  destruct Hs as [Ht Hly Hi Hj]. split; simpl; try done.
  intros code id Hc. destruct (Hi code id Hc) as [Hlt [mk Hmk]].
  split; [done|]. destruct (Hl id mk Hmk) as (mk' & Hmk' & _). by exists mk'.
Qed.

Lemma resize_lookup (r : Q) (ids : list nat) :
  ∀ (h : gmap nat Marker) (id : nat),
    fold_left (λ h id, alter (setRadius r) id h) ids h !! id
    = if decide (id ∈ ids) then setRadius r <$> h !! id else h !! id.
Proof.
  induction ids as [|x rest IH]; intros h id.
  - cbn [fold_left]. case_decide as Hin; [|done]. by apply elem_of_nil in Hin.
  - cbn [fold_left]. rewrite IH, lookup_alter.
    destruct (decide (x = id)) as [->|Hne].
    + rewrite (decide_True (P := id ∈ id :: rest)) by (by left).
      case_decide; [|done]. by destruct (h !! id).
    + destruct (decide (id ∈ rest)) as [Hin|Hnin].
      * by rewrite (decide_True (P := id ∈ x :: rest)) by (by right).
      * rewrite (decide_False (P := id ∈ x :: rest)); [done|].
        intros [?|?]%elem_of_cons; done.
Qed.

Lemma sound_updateMarkerSizes (zoom : Q) (s : state) :
  sound s → sound (updateMarkerSizes zoom s).2.
Proof.
  intros Hs. unfold updateMarkerSizes. destruct (map s) eqn:Hm; [|done].
  simpl. rewrite <- Hm. apply sound_heap; [done|].
  intros id [mk Hmk]. rewrite resize_lookup, Hmk. by case_decide.
Qed.

Lemma sound_destroy (s : state) : sound s → sound (destroy s).2.
Proof.
  intros Hs. unfold destroy. destruct (map s) as [m|] eqn:Hm; [|done].
  rewrite (clearMarkers_tracked s m Hm (sound_tracked s Hs)). simpl.
  by apply sound_cleared.
Qed.

Lemma sound_perform (c : call) (s : state) : sound s → sound (perform c s).2.
Proof.
  intros Hs. destruct c; simpl.
  - destruct Hs as [Ht Hl Hi Hj]. split; simpl; try done.
    + intros m id [= <-] Hid. by apply elem_of_nil in Hid.
    + intros m [= <-]. constructor.
  - by destruct Hs.
  - by apply sound_addStationMarkers.
  - by apply sound_updateMarkerColors.
  - by apply sound_updateMarkerSizes.
  - by apply sound_clearMarkers.
  - by apply sound_destroy.
Qed.

Lemma sound_session (cs : list call) (s : state) :
  sound s → sound (session cs s).
Proof.
  revert s. induction cs as [|c cs IH]; intros s Hs; [done|].
  simpl. by apply IH, sound_perform.
Qed.

(** X12.  No orphan and no duplicate circles.  After any sequence of
    calls on the map manager (setting up the map, installing data,
    drawing, recolouring, resizing, clearing, destroying), whether they
    returned or threw, the layers of the map are pairwise distinct, and
    each of them is the marker of exactly one station code of the
    marker table and an existing object; so [clearMarkers] always
    removes every circle. *)
Theorem markers_on_map_tracked (cs : list call) (m : Leaflet) :
  map (session cs constructor) = Some m →
  NoDup (layers m) ∧
  (∀ id, id ∈ layers m →
     ∃ code mk,
       markers (session cs constructor) !! code = Some id ∧
       heap (session cs constructor) !! id = Some mk ∧
       ∀ code', markers (session cs constructor) !! code' = Some id →
                code' = code) ∧
  ∃ m', map (clearMarkers (session cs constructor)).2 = Some m' ∧
        layers m' = [].
Proof.
  intros Hm.
  destruct (sound_session cs constructor sound_constructor) as [Ht Hl Hi Hj].
  split_and!.
  - by apply Hl.
  - intros id Hid. destruct (Ht m id Hm Hid) as [code Hc].
    destruct (Hi code id Hc) as [_ [mk Hmk]].
    exists code, mk. split_and!; try done.
    intros code' Hc'. by eapply Hj.
  - rewrite (clearMarkers_tracked _ m Hm Ht). simpl. by eexists.
Qed.

Lemma markers_on_map_tracked_witness :
  ∃ m, map (session [InitMap; SetData (Some Sample.two_pH);
                     AddStationMarkers None;
                     UpdateMarkerColors (Some "pH"%string);
                     AddStationMarkers (Some "pH"%string)] constructor) = Some m ∧
    NoDup (layers m) ∧
    (∀ id, id ∈ layers m →
       ∃ code mk,
         markers (session [InitMap; SetData (Some Sample.two_pH);
                           AddStationMarkers None;
                           UpdateMarkerColors (Some "pH"%string);
                           AddStationMarkers (Some "pH"%string)] constructor)
           !! code = Some id ∧
         heap (session [InitMap; SetData (Some Sample.two_pH);
                        AddStationMarkers None;
                        UpdateMarkerColors (Some "pH"%string);
                        AddStationMarkers (Some "pH"%string)] constructor)
           !! id = Some mk ∧
         ∀ code',
           markers (session [InitMap; SetData (Some Sample.two_pH);
                             AddStationMarkers None;
                             UpdateMarkerColors (Some "pH"%string);
                             AddStationMarkers (Some "pH"%string)] constructor)
             !! code' = Some id → code' = code) ∧
    ∃ m', map (clearMarkers
                 (session [InitMap; SetData (Some Sample.two_pH);
                           AddStationMarkers None;
                           UpdateMarkerColors (Some "pH"%string);
                           AddStationMarkers (Some "pH"%string)] constructor)).2
          = Some m' ∧ layers m' = [].
Proof.
  eexists. split; [vm_compute; reflexivity|].
  apply (markers_on_map_tracked
           [InitMap; SetData (Some Sample.two_pH); AddStationMarkers None;
            UpdateMarkerColors (Some "pH"%string);
            AddStationMarkers (Some "pH"%string)]).
  vm_compute. reflexivity.
Defined.

(** Drawing twice leaves two circles on the map, not four. *)
Example redraw_replaces_markers :
  layers <$> map (session [InitMap; SetData (Some Sample.two_pH);
                           AddStationMarkers None;
                           AddStationMarkers (Some "pH"%string)] constructor)
  = Some [2; 3].
Proof. vm_compute. reflexivity. Qed.

End MapSession.

(* ===================================================================== *)
(** ** MapManager: drawing, recolouring, fitting and resizing *)
(* ===================================================================== *)

Module MapViews.
Import JS Model MapManager JSFacts MarkerFrame MarkerColors.

(** [addStationMarkers] on an initialized map with data: the state
    handed to [fitToMarkers]. *)
Lemma addStationMarkers_steps (analyte : option string) (s : state)
    (m : Leaflet) (d : AppData) :
  map s = Some m → data s = Some d → tracked s →
  ∃ s2,
    addStationMarkers analyte s = fitToMarkers s2 ∧
    data s2 = Some d ∧
    map s2 = Some {| layers := seq (next s) (size (stations d));
                     view := view m |} ∧
    (∀ code, stations d !! code = None → markers s2 !! code = None) ∧
    (∀ code st, stations d !! code = Some st →
       ∃ i, i < size (stations d) ∧
            map_to_list (stations d) !! i = Some (code, st) ∧
            markers s2 !! code = Some (next s + i) ∧
            heap s2 !! (next s + i) = Some (marker_for d code st analyte)).
Proof.
  intros Hm Hd Ht. unfold addStationMarkers. simpl. rewrite Hd.
  rewrite (clearMarkers_tracked (set_currentAnalyte analyte s) m Hm Ht). simpl.
  set (entries := map_to_list (stations d)).
  destruct (add_all_spec analyte d entries (NoDup_fst_map_to_list _)
              {| map := Some {| layers := []; view := view m |};
                 markers := ∅; heap := heap s; next := next s;
                 currentAnalyte := analyte; data := data s |}
              _ eq_refl Hd)
    as (s2 & Hrun & Hd2 & Hm2 & Hn2 & Hother & Hentry & Hheap).
  simpl in *. rewrite Hrun. exists s2. split_and!; try done.
  - rewrite Hm2. unfold entries. by rewrite length_map_to_list.
  - intros code Hnone. rewrite Hother, lookup_empty; [done|].
    intros ([c st] & -> & Hin)%list_elem_of_fmap.
    apply elem_of_map_to_list in Hin. simpl in Hnone. congruence.
  - intros code st Hst. apply elem_of_map_to_list in Hst.
    apply list_elem_of_lookup in Hst as [i Hi].
    destruct (Hentry i code st Hi) as [H1 H2].
    exists i. split_and!; try done.
    rewrite <- length_map_to_list. by eapply lookup_lt_Some.
Qed.













(** At the default zoom the drawn markers keep the radius 8 they were
    created with. *)
Example resize_at_default_zoom :
  (8 * scaleFactor (inject_Z (Z.of_nat config_zoom)) == 8)%Q.
Proof. vm_compute. reflexivity. Qed.

End MapViews.

(* ===================================================================== *)
(** ** SidebarManager: the selection, the checkboxes and the chart *)
(* ===================================================================== *)

Module SidebarSync.
Import JS Model SidebarManager JSFacts.

Lemma elem_of_Set_delete (x y : string) (s : list string) :
  y ∈ Set_delete x s ↔ y ≠ x ∧ y ∈ s.
Proof. unfold Set_delete. by rewrite list_elem_of_filter. Qed.

Lemma elem_of_Set_of (x : string) (l : list string) : x ∈ Set_of l ↔ x ∈ l.
Proof.
  destruct (Analytes.Set_add_fold_spec l [] (NoDup_nil_2 (A := string)))
    as [_ H].
  unfold Set_of. rewrite H, elem_of_nil. tauto.
Qed.

(** A redraw writes the chart and the colour table only. *)
Lemma updateChart_fields (s : ChartManager.state) :
  ChartManager.currentStation (ChartManager.updateChart s).2
  = ChartManager.currentStation s ∧
  ChartManager.visibleAnalytes (ChartManager.updateChart s).2
  = ChartManager.visibleAnalytes s ∧
  ChartManager.data (ChartManager.updateChart s).2 = ChartManager.data s.
Proof.
  unfold ChartManager.updateChart.
  destruct (ChartManager.chart s) as [c|]; [|done].
  destruct (ChartManager.currentStation s) as [cur|] eqn:Hcur; [|done].
  destruct (truthy_str cur); [|done]. simpl.
  destruct (ChartManager.data s) as [d|] eqn:Hd; [|done].
  destruct (measurements d !! cur) as [sd|].
  - destruct (ChartManager.build_datasets d sd (ChartManager.visibleAnalytes s)
                (ChartManager.analyteColors s)) as [[colors dss] n].
    simpl. by rewrite Hcur, Hd.
  - destruct (ChartManager.visibleAnalytes s) eqn:Hv; simpl;
      by rewrite ?Hcur, ?Hd, ?Hv.
Qed.

Lemma chart_showStation_fields (code : string) (v : list string)
    (s : ChartManager.state) :
  ChartManager.data (ChartManager.showStation code v s).2 = ChartManager.data s ∧
  ((ChartManager.currentStation (ChartManager.showStation code v s).2 = Some code ∧
    ChartManager.visibleAnalytes (ChartManager.showStation code v s).2 = Set_of v) ∨
   ChartManager.currentStation (ChartManager.showStation code v s).2 = None).
Proof.
  unfold ChartManager.showStation. simpl.
  destruct (ChartManager.chart s); [|simpl; auto].
  destruct (ChartManager.data s) as [d|] eqn:Hd; [|simpl; auto].
  destruct (measurements d !! code); [|simpl; auto].
  match goal with |- context [ChartManager.updateChart ?s1] =>
    destruct (updateChart_fields s1) as (H1 & H2 & H3) end.
  rewrite H1, H2, H3. simpl. auto.
Qed.

(** The calls of a page session: a marker click shows a station of the
    data, under its non-empty code. *)
Definition from_data (d : AppData) (c : call) : Prop :=
  match c with
  | ShowStation stationCode stationData appData =>
      truthy_str stationCode = true ∧ is_Some stationData ∧
      stationData = stations d !! stationCode ∧ appData = Some d
  | _ => True
  end.

(** What holds between the sidebar and the chart during a session on
    the data [d]. *)
Record synced (d : AppData) (w : world) : Prop := {
  sy_data : ChartManager.data (chartManager w) = Some d;
  sy_inv : ColorContinuity.inv (chartManager w);
  sy_coherent : Redraw.coherent (chartManager w);
  sy_selected : NoDup (selectedAnalytes (sidebar w));
  sy_known : ∀ code, currentStation (sidebar w) = Some code →
    truthy_str code = true ∧ is_Some (stations d !! code);
  sy_visible : ∀ cur sd a,
    ChartManager.currentStation (chartManager w) = Some cur →
    measurements d !! cur = Some sd → is_Some (sd !! a) →
    (a ∈ ChartManager.visibleAnalytes (chartManager w)
     ↔ a ∈ selectedAnalytes (sidebar w));
  sy_boxes : ∀ box, box ∈ analyteCheckboxes (sidebar w) →
    cb_checked box = bool_decide (cb_value box ∈ selectedAnalytes (sidebar w));
  sy_rendered : ∀ cur sd,
    ChartManager.currentStation (chartManager w) = Some cur →
    measurements d !! cur = Some sd →
    cb_value <$> analyteCheckboxes (sidebar w) = Object_keys sd;
  sy_station : ∀ cur,
    ChartManager.currentStation (chartManager w) = Some cur →
    chartContainer (page (sidebar w)) = true →
    currentStation (sidebar w) = Some cur;
  sy_series : ∀ cur,
    ChartManager.currentStation (chartManager w) = Some cur →
    is_Some (measurements d !! cur)
}.

(** Two worlds that differ by what the page displays only. *)
Definition same_state (w w' : world) : Prop :=
  analyteCheckboxes (sidebar w') = analyteCheckboxes (sidebar w) ∧
  currentStation (sidebar w') = currentStation (sidebar w) ∧
  data (sidebar w') = data (sidebar w) ∧
  selectedAnalytes (sidebar w') = selectedAnalytes (sidebar w) ∧
  chartManager w' = chartManager w.

Lemma same_state_with_page (f : Page → Page) (w : world) :
  same_state w (with_page f w).
Proof. done. Qed.

Lemma same_state_trans (w1 w2 w3 : world) :
  same_state w1 w2 → same_state w2 w3 → same_state w1 w3.
Proof.
  intros (?&?&?&?&?) (?&?&?&?&?). unfold same_state. split_and!; congruence.
Qed.

Lemma updateCurrentValues_same (code : string) (d : AppData) (w : world) :
  data (sidebar w) = Some d →
  (updateCurrentValues code w).1 = Normal ∧
  same_state w (updateCurrentValues code w).2.
Proof.
  intros Hd. unfold updateCurrentValues. rewrite Hd.
  destruct (latestValues d !! code) as [latest|]; [|done].
  by destruct (map_to_list latest).
Qed.

(** [setupChartControls] on a station of the data. *)
Lemma setupChartControls_cases (code : string) (d : AppData) (w : world) :
  data (sidebar w) = Some d →
  (same_state w (setupChartControls code w).2 ∧
   (setupChartControls code w).1 = Normal ∧
   chartContainer (page (sidebar (setupChartControls code w).2)) = false) ∨
  (∃ sd,
     measurements d !! code = Some sd ∧
     analyteCheckboxes (sidebar (setupChartControls code w).2)
     = map (checkbox_for d (selectedAnalytes (sidebar w))) (Object_keys sd) ∧
     currentStation (sidebar (setupChartControls code w).2)
     = currentStation (sidebar w) ∧
     data (sidebar (setupChartControls code w).2) = data (sidebar w) ∧
     selectedAnalytes (sidebar (setupChartControls code w).2)
     = selectedAnalytes (sidebar w) ∧
     chartContainer (page (sidebar (setupChartControls code w).2)) = true ∧
     chartControls (page (sidebar (setupChartControls code w).2)) = true ∧
     sidebar_open (page (sidebar (setupChartControls code w).2))
     = sidebar_open (page (sidebar w)) ∧
     setupChartControls code w
     = ((ChartManager.showStation code
           (filter (λ a, a ∈ selectedAnalytes (sidebar w)) (Object_keys sd))
           (chartManager w)).1,
        (setupChartControls code w).2) ∧
     chartManager (setupChartControls code w).2
     = (ChartManager.showStation code
          (filter (λ a, a ∈ selectedAnalytes (sidebar w)) (Object_keys sd))
          (chartManager w)).2).
Proof.
  intros Hd. unfold setupChartControls. rewrite Hd.
  destruct (measurements d !! code) as [sd|] eqn:Hsd; [|by left].
  destruct (Object_keys sd) as [|a rest] eqn:Hk; [by left|].
  right. exists sd. rewrite Hk. simpl.
  destruct (ChartManager.showStation code _ (chartManager w)) as [c cm] eqn:Hs.
  simpl. by split_and!.
Qed.

Lemma synced_hide (d : AppData) (w : world) : synced d w → synced d (hide w).
Proof.
  intros [Hd Hi Hc Hs Hk Hv Hb Hr Hst Hse]. split; simpl; try done.
  by destruct (ColorContinuity.clearChart_keeps (chartManager w) Hi).
  apply Redraw.coherent_clearChart.
Qed.

Lemma synced_same_state (d : AppData) (w w' : world) :
  same_state w w' →
  (chartContainer (page (sidebar w')) = true →
   chartContainer (page (sidebar w)) = true) →
  synced d w → synced d w'.
Proof.
  intros (Hb' & Hc' & Hd' & Hs' & Hm') Hpage [Hd Hi Hc Hs Hk Hv Hb Hr Hst Hse].
  split; rewrite ?Hb', ?Hc', ?Hs', ?Hm'; try done.
  intros cur Hcur Hshown. by apply Hst, Hpage.
Qed.

Lemma synced_showStation (d : AppData) (code : string) (st : Station)
    (w : world) :
  truthy_str code = true → stations d !! code = Some st →
  synced d w → synced d (showStation code (Some st) (Some d) w).2.
Proof.
  intros Ht Hst Hsync. unfold showStation.
  set (w1 := {| sidebar := {| page := page (sidebar w);
                              analyteCheckboxes := analyteCheckboxes (sidebar w);
                              currentStation := Some code;
                              data := Some d;
                              selectedAnalytes := selectedAnalytes (sidebar w) |};
                chartManager := chartManager w |}).
  set (w3 := updateStationInfo code st _).
  assert (H13 : same_state w1 w3) by done.
  assert (Hp13 : chartContainer (page (sidebar w3)) = chartContainer (page (sidebar w)))
    by done.
  destruct (updateCurrentValues_same code d w3 eq_refl) as [Hn H34].
  destruct (updateCurrentValues code w3) as [c4 w4]. simpl in Hn, H34. subst c4.
  pose proof (same_state_trans _ _ _ H13 H34) as (Hb4 & Hc4 & Hd4 & Hs4 & Hm4).
  simpl in Hb4, Hc4, Hd4, Hs4, Hm4. cbn [and_then].
  assert (Hsync1 : ∀ w', same_state w1 w' →
            chartContainer (page (sidebar w')) = false → synced d w').
  { intros w' (Hb' & Hc' & Hd' & Hs' & Hm') Hpage.
    destruct Hsync as [Hd Hi Hc Hs Hk Hv Hb Hr Hstn Hse].
    split; rewrite ?Hb', ?Hc', ?Hs', ?Hm'; simpl; try done.
    - intros code' [= <-]. split; [done|]. by rewrite Hst.
    - intros cur _ Hshown. congruence. }
  destruct (setupChartControls_cases code d w4 Hd4)
    as [(H45 & Hn5 & Hhidden)|(sd & Hsd & Hb5 & Hc5 & Hd5 & Hs5 & Hshown & _ & _ & Hrun & Hm5)].
  - destruct (setupChartControls code w4) as [c5 w5]. simpl in *. subst c5.
    simpl. apply Hsync1; [|done].
    apply (same_state_trans _ w5); [|done].
    apply (same_state_trans _ w4); [|done]. by split_and!.
  - rewrite Hs4, Hm4 in *.
    set (sel := filter (λ a, a ∈ selectedAnalytes (sidebar w)) (Object_keys sd)) in *.
    assert (Hfinal : ∀ w', same_state (setupChartControls code w4).2 w' →
              synced d w').
    { intros w' (Hb' & Hc' & Hd' & Hs' & Hm').
      destruct Hsync as [Hd Hi Hc Hs Hk Hv Hb Hr Hstn Hse].
      destruct (chart_showStation_fields code sel (chartManager w))
        as [Hdata Hcur].
      split; rewrite ?Hb', ?Hc', ?Hs', ?Hm', ?Hb5, ?Hc5, ?Hs5, ?Hm5, ?Hc4; simpl.
      - by rewrite Hdata.
      - by destruct (ColorContinuity.perform_keeps
                       (ChartManager.ShowStation code sel) (chartManager w) Hi).
      - by apply (Redraw.coherent_perform (ChartManager.ShowStation code sel)).
      - done.
      - intros code' [= <-]. split; [done|]. by rewrite Hst.
      - intros cur sd' a Hcur' Hsd' Ha.
        destruct Hcur as [[Hcur Hvis]|Hcur]; [|congruence].
        assert (cur = code) as -> by congruence.
        assert (sd' = sd) as -> by congruence.
        rewrite Hvis, elem_of_Set_of. unfold sel.
        rewrite list_elem_of_filter, elem_of_Object_keys. tauto.
      - intros box (a & -> & _)%list_elem_of_fmap. done.
      - intros cur sd' Hcur' Hsd'.
        destruct Hcur as [[Hcur Hvis]|Hcur]; [|congruence].
        assert (cur = code) as -> by congruence.
        assert (sd' = sd) as -> by congruence.
        rewrite <- list_fmap_compose. apply list_fmap_id.
      - intros cur Hcur' _.
        destruct Hcur as [[Hcur Hvis]|Hcur]; congruence.
      - intros cur Hcur'.
        destruct Hcur as [[Hcur Hvis]|Hcur]; [|congruence].
        assert (cur = code) as -> by congruence. by rewrite Hsd. }
    destruct (setupChartControls code w4) as [c5 w5]. simpl in *.
    destruct c5; simpl; by apply Hfinal.
Qed.

Lemma chart_toggleAnalyte_fields (a : string) (v : bool)
    (s : ChartManager.state) :
  ChartManager.data (ChartManager.toggleAnalyte a v s).2 = ChartManager.data s ∧
  ChartManager.currentStation (ChartManager.toggleAnalyte a v s).2
  = ChartManager.currentStation s ∧
  ChartManager.visibleAnalytes (ChartManager.toggleAnalyte a v s).2
  = if v then Set_add a (ChartManager.visibleAnalytes s)
    else Set_delete a (ChartManager.visibleAnalytes s).
Proof.
  unfold ChartManager.toggleAnalyte.
  match goal with |- context [ChartManager.updateChart ?s1] =>
    destruct (updateChart_fields s1) as (H1 & H2 & H3) end.
  by rewrite H1, H2, H3.
Qed.

Lemma elem_of_toggled (a x : string) (v : bool) (l : list string) :
  x ∈ (if v then Set_add a l else Set_delete a l)
  ↔ if decide (x = a) then v = true else x ∈ l.
Proof.
  destruct v; rewrite ?elem_of_Set_add, ?elem_of_Set_delete;
    case_decide; intuition congruence.
Qed.

Lemma checked_iff (b : bool) (P : Prop) `{Decision P} :
  (b = true ↔ P) → b = bool_decide P.
Proof.
  intros HP. destruct b.
  - symmetry. apply bool_decide_eq_true. by apply HP.
  - symmetry. apply bool_decide_eq_false. intros HP'. by apply HP in HP'.
Qed.

Lemma checked_iff_inv (b : bool) (P : Prop) `{Decision P} :
  b = bool_decide P → (b = true ↔ P).
Proof. intros ->. apply bool_decide_eq_true. Qed.

Lemma synced_change (d : AppData) (a : string) (w : world) :
  synced d w → synced d (change a w).2.
Proof.
  intros Hsync. unfold change.
  destruct (find _ _) as [box|] eqn:Hfind; [|done].
  apply find_some in Hfind as [Hin Hval].
  apply list_elem_of_In in Hin. apply bool_decide_eq_true in Hval.
  destruct Hsync as [Hd Hi Hc Hs Hk Hv Hb Hr Hstn Hse].
  set (v := negb (cb_checked box)).
  assert (Hv' : v = negb (bool_decide (a ∈ selectedAnalytes (sidebar w)))).
  { unfold v. by rewrite (Hb box Hin), Hval. }
  unfold toggleAnalyteChart. simpl.
  destruct (chart_toggleAnalyte_fields a v (chartManager w)) as (H1 & H2 & H3).
  pose proof (ColorContinuity.perform_keeps (ChartManager.ToggleAnalyte a v)
                (chartManager w) Hi) as [Hi' _].
  pose proof (Redraw.coherent_perform (ChartManager.ToggleAnalyte a v)
                (chartManager w) I Hi Hc) as Hc'.
  simpl in Hi', Hc'.
  destruct (ChartManager.toggleAnalyte a v (chartManager w)) as [c cm].
  simpl in *. split; simpl; try done.
  - by rewrite H1.
  - destruct v; [by apply NoDup_Set_add | by apply ColorContinuity.NoDup_Set_delete].
  - intros cur sd x Hcur Hsd Hx. rewrite H3, !elem_of_toggled.
    destruct (decide (x = a)); [tauto|]. apply (Hv cur sd); congruence.
  - intros box' (box0 & -> & Hin0)%list_elem_of_fmap.
    apply checked_iff. rewrite elem_of_toggled.
    pose proof (Hb box0 Hin0) as Hbox0. apply checked_iff_inv in Hbox0.
    unfold flip_box. destruct (bool_decide (cb_value box0 = a)) eqn:Hv0.
    + apply bool_decide_eq_true in Hv0. simpl. rewrite Hv0 in *.
      rewrite decide_True by done. rewrite Hv'.
      rewrite !negb_true_iff, bool_decide_eq_false, <- Hbox0.
      destruct (cb_checked box0); intuition congruence.
    + apply bool_decide_eq_false in Hv0. rewrite decide_False by done.
      exact Hbox0.
  - intros cur sd Hcur Hsd.
    assert (Hcur0 : ChartManager.currentStation (chartManager w) = Some cur)
      by congruence.
    rewrite <- (Hr cur sd Hcur0 Hsd).
    rewrite <- list_fmap_compose. apply list_fmap_ext.
    intros i box0 _. simpl. unfold flip_box.
    by destruct (bool_decide (cb_value box0 = a)).
  - intros cur Hcur. apply Hstn. congruence.
  - intros cur Hcur. apply Hse. congruence.
Qed.

(** The handlers return normally. *)
Lemma chart_updateChart_normal (d : AppData) (s : ChartManager.state) :
  ChartManager.data s = Some d →
  (∀ cur, ChartManager.currentStation s = Some cur →
          is_Some (measurements d !! cur)) →
  (ChartManager.updateChart s).1 = Normal.
Proof.
  intros Hd Hcur. unfold ChartManager.updateChart.
  destruct (ChartManager.chart s) as [c|]; [|done].
  destruct (ChartManager.currentStation s) as [cur|]; [|done].
  destruct (truthy_str cur); [|done]. simpl. rewrite Hd.
  destruct (Hcur cur eq_refl) as [sd ->].
  by destruct (ChartManager.build_datasets d sd _ _) as [[colors dss] n].
Qed.

Lemma chart_showStation_normal (d : AppData) (code : string)
    (v : list string) (s : ChartManager.state) :
  ChartManager.data s = Some d →
  (ChartManager.showStation code v s).1 = Normal.
Proof.
  intros Hd. unfold ChartManager.showStation. simpl.
  destruct (ChartManager.chart s); [|done]. rewrite Hd.
  destruct (measurements d !! code) as [sd|] eqn:Hsd; [|done].
  apply (chart_updateChart_normal d); [done|].
  intros cur [= <-]. by rewrite Hsd.
Qed.

Lemma showStation_normal (d : AppData) (code : string) (st : Station)
    (w : world) :
  ChartManager.data (chartManager w) = Some d →
  (showStation code (Some st) (Some d) w).1 = Normal.
Proof.
  intros Hd. unfold showStation.
  set (w3 := updateStationInfo code st _).
  destruct (updateCurrentValues_same code d w3 eq_refl)
    as [Hn (_ & _ & Hd4 & _ & Hm4)].
  destruct (updateCurrentValues code w3) as [c4 w4]. simpl in Hn, Hd4, Hm4.
  subst c4. cbn [and_then].
  destruct (setupChartControls_cases code d w4 Hd4)
    as [(_ & Hn5 & _)|(sd & _ & _ & _ & _ & _ & _ & _ & _ & Hrun & _)].
  - destruct (setupChartControls code w4) as [c5 w5]. simpl in Hn5. by subst c5.
  - rewrite Hrun. simpl. rewrite (chart_showStation_normal d); [done|].
    by rewrite Hm4.
Qed.

Lemma change_normal (d : AppData) (a : string) (w : world) :
  synced d w → (change a w).1 = Normal.
Proof.
  intros Hsync. unfold change. destruct (find _ _) as [box|]; [|done].
  unfold toggleAnalyteChart. simpl.
  pose proof (chart_updateChart_normal d
                (ChartManager.with_visible
                   (if negb (cb_checked box)
                    then Set_add a (ChartManager.visibleAnalytes (chartManager w))
                    else Set_delete a (ChartManager.visibleAnalytes (chartManager w)))
                   (chartManager w))
                (sy_data d w Hsync) (sy_series d w Hsync)) as Hn.
  unfold ChartManager.toggleAnalyte.
  destruct (ChartManager.updateChart _) as [c cm]. by simpl in *.
Qed.

(** [showStation] never touches the selection, and ends with the
    sidebar open on the station when it returns. *)
Lemma showStation_selected (code : string) (st : option Station)
    (appData : option AppData) (w : world) :
  selectedAnalytes (sidebar (showStation code st appData w).2)
  = selectedAnalytes (sidebar w).
Proof.
  unfold showStation. destruct st as [st|]; [|done].
  set (w3 := updateStationInfo code st _).
  assert (H3 : selectedAnalytes (sidebar w3) = selectedAnalytes (sidebar w)) by done.
  assert (H4 : selectedAnalytes (sidebar (updateCurrentValues code w3).2)
               = selectedAnalytes (sidebar w3)).
  { unfold updateCurrentValues. destruct (data (sidebar w3)) as [d|]; [|done].
    destruct (latestValues d !! code) as [latest|]; [|done].
    by destruct (map_to_list latest). }
  destruct (updateCurrentValues code w3) as [[] w4]; simpl in *; [|congruence].
  assert (H5 : selectedAnalytes (sidebar (setupChartControls code w4).2)
               = selectedAnalytes (sidebar w4)).
  { unfold setupChartControls. destruct (data (sidebar w4)) as [d|]; [|done].
    destruct (measurements d !! code) as [sd|]; [|done].
    destruct (Object_keys sd); [done|].
    by destruct (ChartManager.showStation _ _ _). }
  destruct (setupChartControls code w4) as [[] w5]; simpl in *; congruence.
Qed.

Lemma showStation_shown (code : string) (st : option Station)
    (appData : option AppData) (w : world) :
  (showStation code st appData w).1 = Normal →
  sidebar_open (page (sidebar (showStation code st appData w).2)) = true ∧
  currentStation (sidebar (showStation code st appData w).2) = Some code.
Proof.
  unfold showStation. destruct st as [st|]; [|done].
  set (w3 := updateStationInfo code st _).
  assert (H3 : currentStation (sidebar w3) = Some code) by done.
  assert (H4 : currentStation (sidebar (updateCurrentValues code w3).2)
               = currentStation (sidebar w3)).
  { unfold updateCurrentValues. destruct (data (sidebar w3)) as [d|]; [|done].
    destruct (latestValues d !! code) as [latest|]; [|done].
    by destruct (map_to_list latest). }
  destruct (updateCurrentValues code w3) as [[] w4]; simpl in *; [|done].
  assert (H5 : currentStation (sidebar (setupChartControls code w4).2)
               = currentStation (sidebar w4)).
  { unfold setupChartControls. destruct (data (sidebar w4)) as [d|]; [|done].
    destruct (measurements d !! code) as [sd|]; [|done].
    destruct (Object_keys sd); [done|].
    by destruct (ChartManager.showStation _ _ _). }
  destruct (setupChartControls code w4) as [[] w5]; simpl in *; [|done].
  intros _. split; [done|congruence].
Qed.

Lemma change_selected (a a' : string) (w : world) :
  a ≠ a' →
  a ∈ selectedAnalytes (sidebar (change a' w).2)
  ↔ a ∈ selectedAnalytes (sidebar w).
Proof.
  intros Hne. unfold change. destruct (find _ _) as [box|]; [|done].
  unfold toggleAnalyteChart. simpl.
  destruct (ChartManager.toggleAnalyte _ _ _) as [c cm]. simpl.
  rewrite elem_of_toggled. by rewrite decide_False.
Qed.

Lemma perform_normal (d : AppData) (c : call) (w : world) :
  from_data d c → synced d w → (perform c w).1 = Normal.
Proof.
  destruct c as [code st appData| |a]; simpl.
  - intros (Ht & [station ->] & Hst & ->) Hs.
    apply showStation_normal, (sy_data d w Hs).
  - done.
  - intros _. apply change_normal.
Qed.

Lemma synced_perform (d : AppData) (c : call) (w : world) :
  from_data d c → synced d w → synced d (perform c w).2.
Proof.
  destruct c as [code st appData| |a]; simpl.
  - intros (Ht & [station ->] & Hst & ->) Hs. by apply synced_showStation.
  - intros _. apply synced_hide.
  - intros _. apply synced_change.
Qed.

Lemma synced_session (d : AppData) (cs : list call) (w : world) :
  Forall (from_data d) cs → synced d w → synced d (session cs w).
Proof.
  revert w. induction cs as [|c cs IH]; intros w Hcs Hw; [done|].
  apply Forall_cons in Hcs as [Hc Hcs]. simpl. by apply IH, synced_perform.
Qed.

(** The sidebar of a freshly loaded page and the chart manager after
    [initChart(d)]. *)
Definition started (p : Page) (d : AppData) (canvas : bool) : world :=
  {| sidebar := constructor p;
     chartManager := ChartManager.initChart d canvas ChartManager.constructor |}.

Lemma synced_started (p : Page) (d : AppData) (canvas : bool) :
  synced d (started p d canvas).
Proof.
  split; simpl; try done.
  - apply ColorContinuity.inv_initChart, ColorContinuity.inv_chart_constructor.
  - intros c Hc. left. destruct canvas; simpl in Hc; [|done]. by injection Hc as <-.
  - apply ColorContinuity.NoDup_Set_of.
  - intros box Hbox. by apply elem_of_nil in Hbox.
Qed.

End SidebarSync.

(* ===================================================================== *)
(** ** MapManager: the markers show the selected analyte *)
(* ===================================================================== *)

Module MapShows.
Import JS Model MapManager JSFacts MarkerColors.

(** What the loop of [updateMarkerColors] makes of a marker. *)
Definition recolored (d : AppData) (stationCode : string) (station : Station)
    (analyte : option string) (mk : Marker) : Marker :=
  setPopupContent
    (createPopupContent stationCode station analyte
       (if truthy_ostr analyte then latest_entry d stationCode analyte
        else None))
    (setStyle_fillColor
       (color_for (status_of (latest_entry d stationCode analyte))) mk).

Lemma recolored_fields (d : AppData) (code : string) (st : Station)
    (a : option string) (mk : Marker) :
  latlng (recolored d code st a mk) = latlng mk ∧
  radius (recolored d code st a mk) = radius mk ∧
  fillColor (recolored d code st a mk) = fillColor (marker_for d code st a) ∧
  popup (recolored d code st a mk) = popup (marker_for d code st a).
Proof.
  unfold recolored, marker_for.
  destruct (truthy_ostr a) eqn:Ha; [done|].
  by rewrite (latest_entry_no_analyte d code a Ha).
Qed.

Lemma recolor_all_recolored (d : AppData) (a : option string)
    (entries : list (string * nat)) :
  NoDup entries.*2 →
  ∀ h, (∀ code id, (code, id) ∈ entries →
          is_Some (stations d !! code) ∧ is_Some (h !! id)) →
    ∃ h', recolor_all (Some d) a entries h = (Normal, h') ∧
      (∀ code id st mk, (code, id) ∈ entries →
         stations d !! code = Some st → h !! id = Some mk →
         h' !! id = Some (recolored d code st a mk)) ∧
      (∀ id, id ∉ entries.*2 → h' !! id = h !! id).
Proof.
  induction entries as [|[code id] rest IH]; intros Hnd h Hh.
  - exists h. split_and!; try done.
    intros c i st mk Hin. by apply elem_of_nil in Hin.
  - simpl in Hnd. apply NoDup_cons in Hnd as [Hnin Hnd].
    destruct (Hh code id) as ([st Hst] & [mk Hid]); [by left|].
    set (h2 := <[id := recolored d code st a mk]> h).
    assert (Hstep : recolor (Some d) a code id h = (Normal, h2)).
    { unfold recolor. simpl. rewrite andb_false_r, Hst.
      f_equal. apply map_eq. intros i. unfold h2.
      destruct (decide (id = i)) as [->|Hne].
      - by rewrite !lookup_alter_eq, lookup_insert_eq, Hid.
      - by rewrite !lookup_alter_ne, lookup_insert_ne. }
    assert (Hother : ∀ i, i ∈ rest.*2 → h2 !! i = h !! i).
    { intros i Hi. unfold h2. rewrite lookup_insert_ne; [done|]. by intros <-. }
    destruct (IH Hnd h2) as (h' & Hrun & Hdone & Hrest).
    { intros c i Hin. destruct (Hh c i) as [Hc Hi]; [by right|].
      split; [done|]. rewrite Hother; [done|].
      apply list_elem_of_fmap. by exists (c, i). }
    exists h'. cbn [recolor_all]. rewrite Hstep, Hrun. split_and!; [done| |].
    + intros c i st' mk' [[= -> ->]|Hin]%elem_of_cons Hst' Hmk'.
      * rewrite (Hrest id Hnin). unfold h2. rewrite lookup_insert_eq. congruence.
      * apply (Hdone c i st' mk' Hin Hst'). rewrite Hother; [done|].
        apply list_elem_of_fmap. by exists (c, i).
    + intros i Hi. rewrite Hrest.
      * unfold h2. rewrite lookup_insert_ne; [done|]. intros <-. apply Hi. by left.
      * intros Hin. apply Hi. by right.
Qed.

(** The map shows the analyte [a] of the data [d]: there is exactly one
    circle per station, on the map, at the station's coordinates, with
    the colour and the popup that [addStationMarker] gives it for
    [a]. *)
Record shows (d : AppData) (a : option string) (s : state) : Prop := {
  sh_sound : MapSession.sound s;
  sh_data : data s = Some d;
  sh_none : ∀ code, stations d !! code = None → markers s !! code = None;
  sh_some : ∀ code st, stations d !! code = Some st →
    ∃ m id mk,
      map s = Some m ∧ id ∈ layers m ∧
      markers s !! code = Some id ∧ heap s !! id = Some mk ∧
      latlng mk = (st_latitude st, st_longitude st) ∧
      fillColor mk = fillColor (marker_for d code st a) ∧
      popup mk = popup (marker_for d code st a);
  sh_map : is_Some (map s)
}.

Lemma marker_for_falsy (d : AppData) (code : string) (st : Station)
    (a : option string) :
  truthy_ostr a = false → marker_for d code st a = marker_for d code st None.
Proof.
  intros Ha. unfold marker_for. rewrite (latest_entry_no_analyte d code a Ha).
  simpl. unfold createPopupContent. destruct a as [a|]; [|done].
  simpl in Ha. by rewrite Ha.
Qed.

Lemma shows_falsy (d : AppData) (a : option string) (s : state) :
  truthy_ostr a = false → shows d None s → shows d a s.
Proof.
  intros Ha [Hs Hd Hn Hsome Hm]. split; try done.
  intros code st Hst. rewrite (marker_for_falsy d code st a Ha). by apply Hsome.
Qed.

Lemma NoDup_marker_ids (s : state) :
  MapSession.sound s → NoDup (map_to_list (markers s)).*2.
Proof.
  intros Hs. apply NoDup_fmap_2_strong; [|apply NoDup_map_to_list].
  intros [c1 i1] [c2 i2] H1 H2 Heq. simpl in Heq. subst i2.
  apply elem_of_map_to_list in H1, H2.
  by rewrite (MapSession.sound_inj s Hs c1 c2 i1 H1 H2).
Qed.

Lemma shows_addStationMarkers (d : AppData) (a : option string) (s : state) :
  MapSession.sound s → is_Some (map s) → data s = Some d →
  ∃ s', addStationMarkers a s = (Normal, s') ∧ shows d a s'.
Proof.
  intros Hs [m Hm] Hd.
  pose proof (MapSession.sound_addStationMarkers a s Hs) as Hs'.
  destruct (MapViews.addStationMarkers_steps a s m d Hm Hd
              (MapSession.sound_tracked s Hs))
    as (s2 & Hrun & Hd2 & Hm2 & Hnone & Hsome).
  destruct (fitToMarkers_view s2 _ Hm2) as [v Hfit].
  rewrite Hrun, Hfit in *. eexists. split; [done|].
  split; simpl; try done.
  intros code st Hst. destruct (Hsome code st Hst) as (i & Hi & _ & Hmk & Hhp).
  eexists _, (next s + i), _. split_and!; try done.
  simpl. apply elem_of_seq. lia.
Qed.

Lemma shows_updateMarkerColors (d : AppData) (a a' : option string)
    (s : state) :
  shows d a s →
  ∃ s', updateMarkerColors a' s = (Normal, s') ∧ shows d a' s'.
Proof.
  intros [Hs Hd Hn Hsome Hm].
  pose proof (MapSession.sound_updateMarkerColors a' s Hs) as Hs'.
  destruct (recolor_all_recolored d a' (map_to_list (markers s))
              (NoDup_marker_ids s Hs) (heap s))
    as (h' & Hrun & Hdone & _).
  { intros code id Hin. apply elem_of_map_to_list in Hin.
    split; [|by apply (MapSession.sound_ids s Hs code id)].
    destruct (stations d !! code) eqn:Hst; [done|].
    rewrite (Hn code Hst) in Hin. done. }
  unfold updateMarkerColors in *. rewrite Hd, Hrun in *.
  eexists. split; [done|]. split; simpl; try done.
  intros code st Hst.
  destruct (Hsome code st Hst) as (m & id & mk & Hmap & Hl & Hmk & Hh & Hpos & _).
  exists m, id, (recolored d code st a' mk).
  destruct (recolored_fields d code st a' mk) as (F1 & _ & F3 & F4).
  split_and!; try done.
  apply (Hdone code id st mk); [|done..]. by apply elem_of_map_to_list.
Qed.

Lemma shows_updateMarkerSizes (d : AppData) (a : option string) (zoom : Q)
    (s : state) :
  shows d a s →
  ∃ s', updateMarkerSizes zoom s = (Normal, s') ∧ shows d a s'.
Proof.
  intros [Hs Hd Hn Hsome [m Hm]].
  pose proof (MapSession.sound_updateMarkerSizes zoom s Hs) as Hs'.
  unfold updateMarkerSizes in *. rewrite Hm in *.
  eexists. split; [done|]. split; simpl; try done.
  intros code st Hst.
    destruct (Hsome code st Hst)
      as (m' & id & mk & Hmap & Hl & Hmk & Hh & F1 & F2 & F3).
    exists m', id, (setRadius (8 * scaleFactor zoom) mk).
    split_and!; try done.
    rewrite MapSession.resize_lookup, Hh, decide_True; [done|].
    apply elem_of_Object_values. by exists code.
Qed.

End MapShows.

(* ===================================================================== *)
(** ** CreekMonitoringApp: start-up and the page session *)
(* ===================================================================== *)

Module AppSession.
Import JS Model CreekMonitoringApp JSFacts.

(** The events of a session on the data [d]: marker clicks show
    stations of [d]. *)
Definition valid (d : AppData) (e : event) : Prop :=
  match e with
  | Sidebar c => SidebarSync.from_data d c
  | _ => True
  end.

(** What holds once the application runs on the data [d]. *)
Record running (d : AppData) (s : state) : Prop := {
  run_data : data s = Some d;
  run_map : MapShows.shows d (currentAnalyte s) (mapManager s);
  run_ui : SidebarSync.synced d (ui s)
}.

(** [selectAnalyte] on a drawn map: the map part succeeds and shows
    the analyte; what is left is the refresh of the sidebar. *)
Lemma selectAnalyte_steps (a : string) (s : state) (d : AppData)
    (a0 : option string) :
  MapShows.shows d a0 (mapManager s) →
  ∃ mm, MapShows.shows d (Some a) mm ∧
    selectAnalyte a s
    = (let s2 := {| data := data s; currentAnalyte := Some a;
                    loading := loading s; page := page s;
                    mapManager := mm; ui := ui s |} in
       if truthy_ostr (SidebarManager.currentStation
                         (SidebarManager.sidebar (ui s)))
          && truthy_str a
       then
         match data s with
         | None => (Throw, s2)
         | Some d' =>
             let '(c', w) :=
               SidebarManager.showStation
                 (default ""%string
                    (SidebarManager.currentStation
                       (SidebarManager.sidebar (ui s))))
                 (stations d' !! default ""%string
                    (SidebarManager.currentStation
                       (SidebarManager.sidebar (ui s))))
                 (Some d') (ui s) in
             (c', with_ui w s2)
         end
       else (Normal, s2)).
Proof.
  intros Hsh. unfold selectAnalyte. simpl.
  destruct (truthy_str a) eqn:Ha.
  - destruct (MapShows.shows_updateMarkerColors d a0 (Some a) _ Hsh)
      as (mm & Hrun & Hsh').
    exists mm. split; [done|]. by rewrite Hrun.
  - destruct (MapShows.shows_addStationMarkers d None (mapManager s)
                (MapShows.sh_sound _ _ _ Hsh) (MapShows.sh_map _ _ _ Hsh)
                (MapShows.sh_data _ _ _ Hsh))
      as (mm & Hrun & Hsh').
    exists mm. split.
    + apply MapShows.shows_falsy; [by simpl|done].
    + rewrite Hrun. simpl. by rewrite !andb_false_r.
Qed.

Lemma shows_handle (d : AppData) (e : event) (s : state) :
  MapShows.shows d (currentAnalyte s) (mapManager s) →
  MapShows.shows d (currentAnalyte (handle e s).2) (mapManager (handle e s).2).
Proof.
  intros Hsh. destruct e as [a|zoom|c]; simpl.
  - case_decide; [|done].
    match goal with |- context [selectAnalyte a ?s1] =>
      destruct (selectAnalyte_steps a s1 d _ Hsh) as (mm & Hsh' & ->) end.
    simpl. destruct (_ && _); [|done].
    destruct (data s) as [d'|]; [|done].
    by destruct (SidebarManager.showStation _ _ _ _).
  - destruct (MapShows.shows_updateMarkerSizes d _ zoom _ Hsh)
      as (mm & -> & Hsh'). done.
  - by destruct (SidebarManager.perform c (ui s)).
Qed.

Lemma running_handle (d : AppData) (e : event) (s : state) :
  valid d e → running d s →
  running d (handle e s).2 ∧ (handle e s).1 = Normal.
Proof.
  intros He [Hd Hsh Hui].
  pose proof (shows_handle d e s Hsh) as Hsh'.
  destruct e as [a|zoom|c]; simpl in *.
  - case_decide; [|by split].
    match type of Hsh' with context [selectAnalyte a ?s1] =>
      destruct (selectAnalyte_steps a s1 d _ Hsh) as (mm & _ & Hrun) end.
    rewrite Hrun in *. clear Hrun. simpl in *.
    destruct (SidebarManager.currentStation (SidebarManager.sidebar (ui s)))
      as [code|] eqn:Hcur; simpl in *; [|by split].
    destruct (truthy_str code && truthy_str a) eqn:Hguard; [|by split].
    rewrite Hd in *.
    destruct (SidebarSync.sy_known d _ Hui code Hcur) as [Ht [st Hst]].
    rewrite Hst in *.
    pose proof (SidebarSync.synced_showStation d code st (ui s) Ht Hst Hui) as Hui'.
    pose proof (SidebarSync.showStation_normal d code st (ui s)
                  (SidebarSync.sy_data d _ Hui)) as Hn.
    destruct (SidebarManager.showStation code (Some st) (Some d) (ui s))
      as [c w]. simpl in *. by split.
  - destruct (MapShows.shows_updateMarkerSizes d _ zoom _ Hsh)
      as (mm & Hrun & _). rewrite Hrun in *. by split.
  - pose proof (SidebarSync.synced_perform d c (ui s) He Hui) as Hui'.
    pose proof (SidebarSync.perform_normal d c (ui s) He Hui) as Hn.
    destruct (SidebarManager.perform c (ui s)) as [c' w]. simpl in *. by split.
Qed.

Lemma running_run (d : AppData) (es : list event) (s : state) :
  Forall (valid d) es → running d s → running d (run es s).
Proof.
  revert s. induction es as [|e es IH]; intros s Hes Hs; [done|].
  apply Forall_cons in Hes as [He Hes]. simpl.
  apply IH; [done|]. by apply running_handle.
Qed.

(** The application after a successful [init]. *)
Lemma init_resolved (p : Page) (sp : SidebarManager.Page) (d : AppData)
    (canvas : bool) :
  ∃ mm,
    MapShows.shows d (Some "Temperature"%string) mm ∧
    init (DataLoader.Resolved d) canvas (constructor p sp)
    = {| data := Some d;
         currentAnalyte := Some "Temperature"%string;
         loading := false;
         page :=
           {| analyteSelect :=
                set_value "Temperature"
                  {| options := ""%string :: DataLoader.getAnalytes d;
                     value := "" |};
              loadingIndicator := false;
              errorMessage := errorMessage p;
              errorModal := errorModal p |};
         mapManager := mm;
         ui := SidebarSync.started sp d canvas |}.
Proof.
  unfold init. simpl.
  set (mm0 := MapManager.setData (Some d)
                (MapManager.initMap MapManager.constructor)).
  assert (Hs0 : MapSession.sound mm0).
  { apply (MapSession.sound_session
             [MapManager.InitMap; MapManager.SetData (Some d)]
             MapManager.constructor MapSession.sound_constructor). }
  destruct (MapShows.shows_addStationMarkers d None mm0 Hs0) as (mm1 & Hrun1 & Hsh1);
    [by eexists | done |].
  unfold setupInitialMapView, setupAnalyteSelector. simpl.
  fold mm0. rewrite Hrun1.
  match goal with |- context [selectAnalyte ?a ?s] =>
    destruct (selectAnalyte_steps a s d None Hsh1) as (mm & Hsh & ->) end.
  exists mm. split; [done|]. reflexivity.
Qed.

Definition sidebar_of (s : state) : SidebarManager.state :=
  SidebarManager.sidebar (ui s).

Definition chart_of (s : state) : ChartManager.state :=
  SidebarManager.chartManager (ui s).

(** The application on a freshly loaded page, once [init] has run on
    the loaded data [d]. *)
Definition launched (p : Page) (sp : SidebarManager.Page) (d : AppData)
    (canvas : bool) : state :=
  init (DataLoader.Resolved d) canvas (constructor p sp).

Lemma running_launched (p : Page) (sp : SidebarManager.Page) (d : AppData)
    (canvas : bool) :
  running d (launched p sp d canvas).
Proof.
  unfold launched. destruct (init_resolved p sp d canvas) as (mm & Hsh & ->).
  split; simpl; [done..|]. apply SidebarSync.synced_started.
Qed.

Lemma shows_run (d : AppData) (es : list event) (s : state) :
  MapShows.shows d (currentAnalyte s) (mapManager s) →
  MapShows.shows d (currentAnalyte (run es s)) (mapManager (run es s)).
Proof.
  revert s. induction es as [|e es IH]; intros s Hs; [done|].
  simpl. by apply IH, shows_handle.
Qed.

(** One station with two series and their latest values. *)
Definition monitored : AppData :=
  {| stations :=
       {[ "SRA100"%string :=
            {| st_name := "Station SRA100"; st_latitude := 37.8647308;
               st_longitude := -122.0391426;
               st_analytes := ["Temperature"; "pH"]%string;
               st_measurement_count := 3 |} ]};
     measurements := measurements Sample.creek_data;
     latestValues :=
       {[ "SRA100"%string :=
            {[ "Temperature"%string :=
                 {| lv_value := 20; lv_date := Some "2024-01-08"%string;
                    lv_status := "acceptable"; lv_unit := Some "Deg C"%string |};
               "pH"%string :=
                 {| lv_value := 7; lv_date := Some "2024-01-01"%string;
                    lv_status := "acceptable"; lv_unit := None |} ]} ]};
     analyteRanges := analyteRanges Sample.creek_data |}.

Definition SRA100 : Station :=
  {| st_name := "Station SRA100"; st_latitude := 37.8647308;
     st_longitude := -122.0391426;
     st_analytes := ["Temperature"; "pH"]%string;
     st_measurement_count := 3 |}.

Definition blank : Page :=
  {| analyteSelect := {| options := []; value := "" |};
     loadingIndicator := false; errorMessage := ""; errorModal := false |}.

Definition closed : SidebarManager.Page :=
  {| SidebarManager.sidebar_open := false;
     SidebarManager.sidebarTitle := "";
     SidebarManager.stationInfo := None;
     SidebarManager.currentValues := false;
     SidebarManager.valuesList := [];
     SidebarManager.chartControls := false;
     SidebarManager.chartContainer := false |}.

(** A marker click on SRA100, then the pH checkbox is ticked. *)
Definition clicks : list event :=
  [ Sidebar (SidebarManager.ShowStation "SRA100" (Some SRA100) (Some monitored));
    Sidebar (SidebarManager.Change "pH") ].

(** X16.  The chart follows the selection.  At any point of a page
    session after a successful start (analyte selections, zooms, marker
    clicks on stations of the data, closings of the sidebar, clicks on
    the rendered checkboxes), the chart shows nothing or the station of
    its last drawing, which is the sidebar's station whenever the chart
    container is displayed, with exactly one series per selected analyte
    that has a non-empty series at that station, each made of that
    series' dated measurements. *)
Theorem chart_follows_selection (p : Page) (sp : SidebarManager.Page)
    (d : AppData) (canvas : bool) (es : list event) (c : ChartManager.Chart) :
  Forall (valid d) es →
  ChartManager.chart (chart_of (run es (launched p sp d canvas))) = Some c →
  ChartManager.datasets c = [] ∨
  ∃ cur sd,
    ChartManager.currentStation (chart_of (run es (launched p sp d canvas)))
    = Some cur ∧
    measurements d !! cur = Some sd ∧
    (SidebarManager.chartContainer
       (SidebarManager.page (sidebar_of (run es (launched p sp d canvas)))) = true →
     SidebarManager.currentStation (sidebar_of (run es (launched p sp d canvas)))
     = Some cur) ∧
    NoDup (ChartManager.ds_label <$> ChartManager.datasets c) ∧
    (∀ a, a ∈ ChartManager.ds_label <$> ChartManager.datasets c ↔
          a ∈ SidebarManager.selectedAnalytes
                (sidebar_of (run es (launched p sp d canvas))) ∧
          ∃ ms, sd !! a = Some ms ∧ ms ≠ []) ∧
    (∀ ds, ds ∈ ChartManager.datasets c →
       ∃ ms, sd !! ChartManager.ds_label ds = Some ms ∧
             ChartManager.ds_data ds = ChartManager.chartData ms).
Proof.
  intros Hes Hc.
  destruct (running_run d es _ Hes (running_launched p sp d canvas))
    as [_ _ Hui].
  set (s := run es (launched p sp d canvas)) in *.
  destruct Hui as [Hd Hi Hco _ _ Hv _ _ Hstn _].
  destruct Hi as (_ & Hnd & _).
  destruct (Hco c Hc) as [?|(cur & d' & sd & Hcur & Ht & Hd' & Hsd & Hds)];
    [by left|].
  assert (d' = d) as -> by (unfold chart_of in *; congruence).
  right. exists cur, sd. split_and!; try done.
  - by apply Hstn.
  - rewrite Hds, <- list_fmap_compose.
    by apply (Redraw.NoDup_drawn_labels sd).
  - intros a. rewrite Hds, <- list_fmap_compose. split.
    + intros ([a' ms] & -> & Hin)%list_elem_of_fmap. simpl.
      apply Redraw.elem_of_drawn in Hin as (Hin & Hms & Hne). simpl in *.
      split; [|by exists ms]. apply (Hv cur sd a' Hcur Hsd); [by eexists|done].
    + intros (Ha & ms & Hms & Hne). apply list_elem_of_fmap.
      exists (a, ms). split; [done|]. apply Redraw.elem_of_drawn. simpl.
      split_and!; try done. apply (Hv cur sd a Hcur Hsd); [by eexists|done].
  - intros ds. rewrite Hds. intros (x & -> & Hin)%list_elem_of_fmap.
    apply Redraw.elem_of_drawn in Hin as (? & ? & ?). by exists x.2.
Qed.

Lemma chart_follows_selection_witness :
  ∃ c,
    ChartManager.chart (chart_of (run clicks (launched blank closed monitored true)))
    = Some c ∧
    (ChartManager.datasets c = [] ∨
     ∃ cur sd,
       ChartManager.currentStation
         (chart_of (run clicks (launched blank closed monitored true)))
       = Some cur ∧
       measurements monitored !! cur = Some sd ∧
       (SidebarManager.chartContainer
          (SidebarManager.page
             (sidebar_of (run clicks (launched blank closed monitored true))))
        = true →
        SidebarManager.currentStation
          (sidebar_of (run clicks (launched blank closed monitored true)))
        = Some cur) ∧
       NoDup (ChartManager.ds_label <$> ChartManager.datasets c) ∧
       (∀ a, a ∈ ChartManager.ds_label <$> ChartManager.datasets c ↔
             a ∈ SidebarManager.selectedAnalytes
                   (sidebar_of (run clicks (launched blank closed monitored true))) ∧
             ∃ ms, sd !! a = Some ms ∧ ms ≠ []) ∧
       (∀ ds, ds ∈ ChartManager.datasets c →
          ∃ ms, sd !! ChartManager.ds_label ds = Some ms ∧
                ChartManager.ds_data ds = ChartManager.chartData ms)).
Proof.
  eexists. split; [vm_compute; reflexivity|].
  apply (chart_follows_selection blank closed monitored true clicks).
  - repeat constructor. by eexists.
  - vm_compute. reflexivity.
Defined.

(** After the two clicks the chart shows Temperature and pH. *)
Example clicks_show_two_series :
  ChartManager.ds_label <$>
    default [] (ChartManager.datasets <$>
                  ChartManager.chart
                    (chart_of (run clicks (launched blank closed monitored true))))
  = ["Temperature"; "pH"]%string.
Proof. vm_compute. reflexivity. Qed.

(** X17.  The checkboxes follow the selection.  At any point of a page
    session every rendered checkbox is ticked exactly when its analyte
    is selected; and while the chart has a station, the checkboxes are
    those of the station's series, in the order of [Object.keys], and
    the ticked ones are exactly the station's analytes the chart holds
    visible. *)
Theorem checkboxes_follow_selection (p : Page) (sp : SidebarManager.Page)
    (d : AppData) (canvas : bool) (es : list event) :
  Forall (valid d) es →
  (∀ box,
     box ∈ SidebarManager.analyteCheckboxes
             (sidebar_of (run es (launched p sp d canvas))) →
     (SidebarManager.cb_checked box = true ↔
      SidebarManager.cb_value box
        ∈ SidebarManager.selectedAnalytes
            (sidebar_of (run es (launched p sp d canvas))))) ∧
  (∀ cur sd,
     ChartManager.currentStation (chart_of (run es (launched p sp d canvas)))
     = Some cur →
     measurements d !! cur = Some sd →
     SidebarManager.cb_value <$>
       SidebarManager.analyteCheckboxes
         (sidebar_of (run es (launched p sp d canvas)))
     = Object_keys sd ∧
     ∀ a,
       (a ∈ ChartManager.visibleAnalytes
              (chart_of (run es (launched p sp d canvas))) ∧
        is_Some (sd !! a)) ↔
       ∃ box,
         box ∈ SidebarManager.analyteCheckboxes
                 (sidebar_of (run es (launched p sp d canvas))) ∧
         SidebarManager.cb_value box = a ∧
         SidebarManager.cb_checked box = true).
Proof.
  intros Hes.
  destruct (running_run d es _ Hes (running_launched p sp d canvas))
    as [_ _ Hui].
  set (s := run es (launched p sp d canvas)) in *.
  destruct Hui as [_ _ _ _ _ Hv Hb Hr _ _].
  assert (Hbox : ∀ box,
            box ∈ SidebarManager.analyteCheckboxes (sidebar_of s) →
            (SidebarManager.cb_checked box = true ↔
             SidebarManager.cb_value box
               ∈ SidebarManager.selectedAnalytes (sidebar_of s))).
  { intros box Hin. rewrite (Hb box Hin). apply bool_decide_eq_true. }
  split; [done|]. intros cur sd Hcur Hsd.
  pose proof (Hr cur sd Hcur Hsd) as Hkeys. split; [done|].
  intros a. split.
  - intros [Ha Hsome].
    assert (Hin : a ∈ SidebarManager.cb_value <$>
                        SidebarManager.analyteCheckboxes (sidebar_of s)).
    { unfold sidebar_of. rewrite Hkeys. by apply elem_of_Object_keys. }
    apply list_elem_of_fmap in Hin as (box & -> & Hin).
    exists box. split_and!; try done.
    apply (Hbox box Hin). by apply (Hv cur sd _ Hcur Hsd).
  - intros (box & Hin & <- & Hchecked).
    assert (Hsome : is_Some (sd !! SidebarManager.cb_value box)).
    { apply elem_of_Object_keys. rewrite <- Hkeys.
      apply list_elem_of_fmap. by exists box. }
    split; [|done]. apply (Hv cur sd _ Hcur Hsd Hsome).
    by apply (Hbox box Hin).
Qed.

Lemma checkboxes_follow_selection_witness :
  (∀ box,
     box ∈ SidebarManager.analyteCheckboxes
             (sidebar_of (run clicks (launched blank closed monitored true))) →
     (SidebarManager.cb_checked box = true ↔
      SidebarManager.cb_value box
        ∈ SidebarManager.selectedAnalytes
            (sidebar_of (run clicks (launched blank closed monitored true))))) ∧
  (∀ cur sd,
     ChartManager.currentStation
       (chart_of (run clicks (launched blank closed monitored true)))
     = Some cur →
     measurements monitored !! cur = Some sd →
     SidebarManager.cb_value <$>
       SidebarManager.analyteCheckboxes
         (sidebar_of (run clicks (launched blank closed monitored true)))
     = Object_keys sd ∧
     ∀ a,
       (a ∈ ChartManager.visibleAnalytes
              (chart_of (run clicks (launched blank closed monitored true))) ∧
        is_Some (sd !! a)) ↔
       ∃ box,
         box ∈ SidebarManager.analyteCheckboxes
                 (sidebar_of (run clicks (launched blank closed monitored true))) ∧
         SidebarManager.cb_value box = a ∧
         SidebarManager.cb_checked box = true).
Proof.
  apply (checkboxes_follow_selection blank closed monitored true clicks).
  repeat constructor. by eexists.
Defined.

(** X18.  The outcome of [init].  When the data is loaded, the
    application holds it, the loading indicator is hidden and the error
    modal is not touched; the selector lists the placeholder and the
    sorted analytes and is set to Temperature when that is one of them;
    Temperature is the current analyte; the sidebar is as constructed
    and the chart manager holds the data; and every station has one
    circle on the map, at its coordinates, with the colour of its
    latest Temperature status and the Temperature popup.  When loading
    fails, no data is stored, no map is created, the managers are as
    constructed and the error modal shows the message.  In both cases
    the outcome refines [App.init]. *)
Theorem init_outcome (p : Page) (sp : SidebarManager.Page) (canvas : bool)
    (loaded : DataLoader.outcome AppData) :
  data (init loaded canvas (constructor p sp))
  = App.data (App.init loaded) ∧
  loading (init loaded canvas (constructor p sp))
  = App.loading (App.init loaded) ∧
  loadingIndicator (page (init loaded canvas (constructor p sp))) = false ∧
  (is_Some (MapManager.map (mapManager (init loaded canvas (constructor p sp))))
   ↔ App.widgets_initialized (App.init loaded) = true) ∧
  match loaded with
  | DataLoader.Resolved d =>
      App.error_message (App.init loaded) = None ∧
      errorModal (page (init loaded canvas (constructor p sp))) = errorModal p ∧
      errorMessage (page (init loaded canvas (constructor p sp)))
      = errorMessage p ∧
      options (analyteSelect (page (init loaded canvas (constructor p sp))))
      = ""%string :: DataLoader.getAnalytes d ∧
      value (analyteSelect (page (init loaded canvas (constructor p sp))))
      = (if decide ("Temperature"%string ∈ DataLoader.getAnalytes d)
         then "Temperature" else "")%string ∧
      currentAnalyte (init loaded canvas (constructor p sp))
      = Some "Temperature"%string ∧
      ui (init loaded canvas (constructor p sp))
      = {| SidebarManager.sidebar := SidebarManager.constructor sp;
           SidebarManager.chartManager :=
             ChartManager.initChart d canvas ChartManager.constructor |} ∧
      (∀ code, stations d !! code = None →
         MapManager.markers (mapManager (init loaded canvas (constructor p sp)))
           !! code = None) ∧
      ∀ code st, stations d !! code = Some st →
        ∃ m id mk,
          MapManager.map (mapManager (init loaded canvas (constructor p sp)))
          = Some m ∧
          id ∈ MapManager.layers m ∧
          MapManager.markers (mapManager (init loaded canvas (constructor p sp)))
            !! code = Some id ∧
          MapManager.heap (mapManager (init loaded canvas (constructor p sp)))
            !! id = Some mk ∧
          MapManager.latlng mk = (st_latitude st, st_longitude st) ∧
          MapManager.fillColor mk
          = MapManager.color_for
              (MapManager.status_of
                 (MapManager.latest_entry d code (Some "Temperature"%string))) ∧
          MapManager.popup mk
          = Some (MapManager.createPopupContent code st
                    (Some "Temperature"%string)
                    (MapManager.latest_entry d code (Some "Temperature"%string)))
  | DataLoader.Failed _ =>
      App.error_message (App.init loaded)
      = Some (errorMessage (page (init loaded canvas (constructor p sp)))) ∧
      errorModal (page (init loaded canvas (constructor p sp))) = true ∧
      analyteSelect (page (init loaded canvas (constructor p sp)))
      = analyteSelect p ∧
      currentAnalyte (init loaded canvas (constructor p sp)) = None ∧
      mapManager (init loaded canvas (constructor p sp)) = MapManager.constructor ∧
      ui (init loaded canvas (constructor p sp))
      = {| SidebarManager.sidebar := SidebarManager.constructor sp;
           SidebarManager.chartManager := ChartManager.constructor |}
  end.
Proof.
  destruct loaded as [d|e].
  - destruct (init_resolved p sp d canvas) as (mm & Hsh & ->).
    destruct Hsh as [_ _ Hnone Hsome Hmap]. simpl.
    split_and!; try done.
    assert (Hin : "Temperature"%string ∈ ""%string :: DataLoader.getAnalytes d
                  ↔ "Temperature"%string ∈ DataLoader.getAnalytes d).
    { rewrite elem_of_cons. split; [by intros [?|?]|by right]. }
    destruct (decide ("Temperature"%string ∈ DataLoader.getAnalytes d)).
    + rewrite decide_True; [done|]. by apply Hin.
    + rewrite decide_False; [done|]. by rewrite Hin.
  - simpl. split_and!; try done.
Qed.

(** X19.  The map shows the current analyte.  After a successful
    start and any sequence of events (analyte selections, the empty
    selection included, zooms, sidebar events of any kind), the map
    holds pairwise distinct circles, one per station and no other, each
    at its station's coordinates, with the colour of the station's
    latest status for the application's current analyte (the neutral
    colour without one) and the matching popup. *)
Theorem map_shows_current_analyte (p : Page) (sp : SidebarManager.Page)
    (d : AppData) (canvas : bool) (es : list event) :
  ∃ m,
    MapManager.map (mapManager (run es (launched p sp d canvas))) = Some m ∧
    NoDup (MapManager.layers m) ∧
    (∀ id, id ∈ MapManager.layers m →
       ∃ code, is_Some (stations d !! code) ∧
         MapManager.markers (mapManager (run es (launched p sp d canvas)))
           !! code = Some id) ∧
    ∀ code st, stations d !! code = Some st →
      ∃ id mk,
        id ∈ MapManager.layers m ∧
        MapManager.markers (mapManager (run es (launched p sp d canvas)))
          !! code = Some id ∧
        MapManager.heap (mapManager (run es (launched p sp d canvas)))
          !! id = Some mk ∧
        MapManager.latlng mk = (st_latitude st, st_longitude st) ∧
        MapManager.fillColor mk
        = MapManager.color_for
            (MapManager.status_of
               (MapManager.latest_entry d code
                  (currentAnalyte (run es (launched p sp d canvas))))) ∧
        MapManager.popup mk
        = Some (MapManager.createPopupContent code st
                  (currentAnalyte (run es (launched p sp d canvas)))
                  (MapManager.latest_entry d code
                     (currentAnalyte (run es (launched p sp d canvas))))).
Proof.
  pose proof (shows_run d es _ (run_map d _ (running_launched p sp d canvas)))
    as [Hs _ Hnone Hsome [m Hm]].
  set (s := run es (launched p sp d canvas)) in *.
  exists m. split_and!.
  - done.
  - by apply (MapSession.sound_layers _ Hs).
  - intros id Hid.
    destruct (MapSession.sound_tracked _ Hs m id Hm Hid) as [code Hcode].
    exists code. split; [|done].
    destruct (stations d !! code) eqn:Hst; [done|].
    rewrite (Hnone code Hst) in Hcode. done.
  - intros code st Hst.
    destruct (Hsome code st Hst)
      as (m' & id & mk & Hm' & Hl & Hmk & Hh & F1 & F2 & F3).
    assert (m' = m) as -> by congruence.
    exists id, mk. split_and!; [done..| exact F2 | exact F3].
Qed.

(** Selecting pH colours the circle of SRA100 green; selecting the
    empty entry afterwards draws it anew in gray. *)
Example pH_then_neutral :
  let colour (es : list event) :=
    MapManager.markers (mapManager (run es (launched blank closed monitored true)))
      !! "SRA100"%string
    ≫= λ id, MapManager.fillColor <$>
               MapManager.heap (mapManager (run es (launched blank closed
                                                       monitored true))) !! id in
  colour [SelectAnalyte "pH"] = Some "#28a745"%string ∧
  colour [SelectAnalyte "pH"; SelectAnalyte ""] = Some "#6c757d"%string.
Proof. vm_compute. done. Qed.

(** X20.  No handler throws.  At any point of a page session after a
    successful start, the handler of the next event (an analyte
    selection, a zoom, a marker click on a station of the data, the
    closing of the sidebar, a click on a checkbox) returns normally. *)
Theorem handlers_return (p : Page) (sp : SidebarManager.Page) (d : AppData)
    (canvas : bool) (es : list event) (e : event) :
  Forall (valid d) es → valid d e →
  (handle e (run es (launched p sp d canvas))).1 = Normal.
Proof.
  intros Hes He.
  apply (running_handle d e _ He).
  apply running_run; [done|]. apply running_launched.
Qed.

Lemma handlers_return_witness :
  (handle (SelectAnalyte "pH") (run clicks (launched blank closed monitored true))).1
  = Normal.
Proof.
  apply (handlers_return blank closed monitored true clicks (SelectAnalyte "pH")).
  - repeat constructor. by eexists.
  - exact I.
Defined.

(** X21.  Closing the sidebar does not forget its station.  After a
    marker click on a station and the closing of the sidebar, the
    sidebar is closed and the chart has no station, yet the sidebar
    still holds the station: [selectAnalyte] with an analyte then
    returns normally and opens the sidebar on that station again. *)
Theorem selectAnalyte_reopens_sidebar (p : Page) (sp : SidebarManager.Page)
    (d : AppData) (canvas : bool) (es : list event) (code a : string)
    (st : Station) :
  Forall (valid d) es → stations d !! code = Some st →
  truthy_str code = true → truthy_str a = true →
  let s := run (es ++ [Sidebar (SidebarManager.ShowStation code (Some st) (Some d));
                       Sidebar SidebarManager.Hide])
               (launched p sp d canvas) in
  SidebarManager.sidebar_open (SidebarManager.page (sidebar_of s)) = false ∧
  ChartManager.currentStation (chart_of s) = None ∧
  SidebarManager.currentStation (sidebar_of s) = Some code ∧
  (selectAnalyte a s).1 = Normal ∧
  SidebarManager.sidebar_open
    (SidebarManager.page (sidebar_of (selectAnalyte a s).2)) = true ∧
  SidebarManager.currentStation (sidebar_of (selectAnalyte a s).2) = Some code.
Proof.
  intros Hes Hst Ht Ha s.
  assert (Hvalid : valid d (Sidebar (SidebarManager.ShowStation code (Some st)
                                       (Some d)))).
  { simpl. by split_and!. }
  assert (Hrun : running d s).
  { apply running_run; [|apply running_launched].
    apply Forall_app. split; [done|]. by repeat constructor. }
  assert (Hshown : SidebarManager.currentStation (sidebar_of s) = Some code ∧
                   SidebarManager.sidebar_open (SidebarManager.page (sidebar_of s))
                   = false ∧
                   ChartManager.currentStation (chart_of s) = None).
  { unfold s, run. rewrite fold_left_app. fold (run es (launched p sp d canvas)).
    set (s0 := run es (launched p sp d canvas)).
    assert (Hrun0 : running d s0)
      by (apply running_run; [done|apply running_launched]).
    cbn [fold_left handle SidebarManager.perform].
    pose proof (SidebarSync.showStation_normal d code st (ui s0)
                  (SidebarSync.sy_data d _ (run_ui d s0 Hrun0))) as Hn.
    destruct (SidebarSync.showStation_shown code (Some st) (Some d) (ui s0) Hn)
      as [_ Hcur].
    destruct (SidebarManager.showStation code (Some st) (Some d) (ui s0))
      as [c w]. simpl in *. done. }
  destruct Hshown as (Hcur & Hclosed & Hchart).
  destruct Hrun as [Hd Hsh Hui].
  destruct (selectAnalyte_steps a s d _ Hsh) as (mm & _ & Hsel).
  rewrite Hsel. clear Hsel. unfold sidebar_of in *. rewrite Hcur.
  cbn [truthy_ostr default]. rewrite Ht, Ha, Hd. cbn [andb].
  cbv beta iota zeta. unfold id. rewrite Hst.
  pose proof (SidebarSync.showStation_normal d code st (ui s)
                (SidebarSync.sy_data d _ Hui)) as Hn.
  destruct (SidebarSync.showStation_shown code (Some st) (Some d) (ui s) Hn)
    as [Hopen Hsame].
  destruct (SidebarManager.showStation code (Some st) (Some d) (ui s)) as [c w].
  simpl in *. by split_and!.
Qed.

Lemma selectAnalyte_reopens_sidebar_witness :
  let s := run ([] ++ [Sidebar (SidebarManager.ShowStation "SRA100" (Some SRA100)
                                  (Some monitored));
                       Sidebar SidebarManager.Hide])
               (launched blank closed monitored true) in
  SidebarManager.sidebar_open (SidebarManager.page (sidebar_of s)) = false ∧
  ChartManager.currentStation (chart_of s) = None ∧
  SidebarManager.currentStation (sidebar_of s) = Some "SRA100"%string ∧
  (selectAnalyte "pH" s).1 = Normal ∧
  SidebarManager.sidebar_open
    (SidebarManager.page (sidebar_of (selectAnalyte "pH" s).2)) = true ∧
  SidebarManager.currentStation (sidebar_of (selectAnalyte "pH" s).2)
  = Some "SRA100"%string.
Proof.
  apply (selectAnalyte_reopens_sidebar blank closed monitored true []
           "SRA100" "pH" SRA100).
  - constructor.
  - reflexivity.
  - reflexivity.
  - reflexivity.
Defined.

Lemma handle_selected (e : event) (s : state) (a : string) :
  e ≠ Sidebar (SidebarManager.Change a) →
  a ∈ SidebarManager.selectedAnalytes (sidebar_of (handle e s).2)
  ↔ a ∈ SidebarManager.selectedAnalytes (sidebar_of s).
Proof.
  intros Hne. unfold sidebar_of. destruct e as [a'|zoom|c]; simpl.
  - case_decide; [|done]. unfold selectAnalyte. simpl.
    destruct (if truthy_str a' then _ else _) as [[] mm]; simpl; [|done].
    destruct (_ && _); [|done].
    destruct (data s) as [d|]; [|done].
    pose proof (SidebarSync.showStation_selected
                  (default ""%string
                     (SidebarManager.currentStation (SidebarManager.sidebar (ui s))))
                  (stations d !! default ""%string
                     (SidebarManager.currentStation (SidebarManager.sidebar (ui s))))
                  (Some d) (ui s)) as Hsel.
    destruct (SidebarManager.showStation _ _ _ _) as [c w]. simpl in *.
    by rewrite Hsel.
  - by destruct (MapManager.updateMarkerSizes zoom (mapManager s)).
  - destruct c as [code st appData| |a'].
    + pose proof (SidebarSync.showStation_selected code st appData (ui s)) as Hsel.
      simpl. destruct (SidebarManager.showStation _ _ _ _) as [c w]. simpl in *.
      by rewrite Hsel.
    + done.
    + pose proof (SidebarSync.change_selected a a' (ui s)) as Hsel.
      simpl. destruct (SidebarManager.change a' (ui s)) as [c w]. simpl in *.
      apply Hsel. congruence.
Qed.

(** X22.  The selection is global and changes by its checkbox only.
    It starts as Temperature alone, and an analyte whose checkbox was
    never clicked is selected exactly when it is Temperature, whatever
    stations were shown or closed and whatever else was selected in
    between. *)
Theorem selection_persists (p : Page) (sp : SidebarManager.Page) (d : AppData)
    (canvas : bool) (es : list event) (a : string) :
  Forall (λ e, e ≠ Sidebar (SidebarManager.Change a)) es →
  a ∈ SidebarManager.selectedAnalytes (sidebar_of (run es (launched p sp d canvas)))
  ↔ a = "Temperature"%string.
Proof.
  intros Hes.
  assert (H0 : a ∈ SidebarManager.selectedAnalytes
                     (sidebar_of (launched p sp d canvas))
               ↔ a = "Temperature"%string).
  { unfold launched. destruct (init_resolved p sp d canvas) as (mm & _ & ->).
    unfold sidebar_of. simpl. apply list_elem_of_singleton. }
  revert H0. generalize (launched p sp d canvas).
  induction es as [|e es IH]; intros s H0; [done|].
  apply Forall_cons in Hes as [He Hes]. simpl. apply IH; [done|].
  by rewrite (handle_selected e s a He).
Qed.

Lemma selection_persists_witness :
  "Temperature"%string
    ∈ SidebarManager.selectedAnalytes
        (sidebar_of (run clicks (launched blank closed monitored true)))
  ↔ "Temperature"%string = "Temperature"%string.
Proof.
  apply (selection_persists blank closed monitored true clicks "Temperature").
  repeat constructor; discriminate.
Defined.

(** X24.  [destroy] at any point of a session.  It returns normally
    and leaves no map, an empty marker table and no chart; the chart
    manager has no station and no visible analyte left; the data, the
    page and the sidebar are kept.  A second [destroy] changes
    nothing. *)
Theorem destroy_clears (p : Page) (sp : SidebarManager.Page) (d : AppData)
    (canvas : bool) (es : list event) :
  let s := run es (launched p sp d canvas) in
  (destroy s).1 = Normal ∧
  MapManager.map (mapManager (destroy s).2) = None ∧
  MapManager.markers (mapManager (destroy s).2) = ∅ ∧
  ChartManager.chart (chart_of (destroy s).2) = None ∧
  ChartManager.currentStation (chart_of (destroy s).2) = None ∧
  ChartManager.visibleAnalytes (chart_of (destroy s).2) = [] ∧
  data (destroy s).2 = data s ∧ page (destroy s).2 = page s ∧
  sidebar_of (destroy s).2 = sidebar_of s ∧
  destroy (destroy s).2 = (Normal, (destroy s).2).
Proof.
  intros s.
  pose proof (shows_run d es _ (run_map d _ (running_launched p sp d canvas)))
    as [Hs _ _ _ [m Hm]].
  fold s in Hs, Hm.
  assert (Hrun : destroy s
                 = (Normal,
                    with_ui
                      (SidebarManager.with_chartManager
                         (ChartManager.destroy (chart_of s)) (ui s))
                      (with_mapManager
                         {| MapManager.map := None;
                            MapManager.markers := ∅;
                            MapManager.heap := MapManager.heap (mapManager s);
                            MapManager.next := MapManager.next (mapManager s);
                            MapManager.currentAnalyte :=
                              MapManager.currentAnalyte (mapManager s);
                            MapManager.data := MapManager.data (mapManager s) |}
                         s))).
  { unfold destroy, MapManager.destroy. rewrite Hm.
    by rewrite (MarkerColors.clearMarkers_tracked _ m Hm
                  (MapSession.sound_tracked _ Hs)). }
  rewrite Hrun. by split_and!.
Qed.

End AppSession.

(* ===================================================================== *)
(** ** DataLoader: the stations of an analyte *)
(* ===================================================================== *)

Module StationsForAnalyte.
Import JS Model DataLoader JSFacts.

(** X23.  [getStationsForAnalyte] lists, each once, the station codes
    of the data whose latest values have an entry for the analyte.  For
    a non-empty analyte name these are exactly the stations whose
    marker, drawn for that analyte, is coloured by a latest value and
    whose popup shows it; the others get the neutral marker. *)
Theorem getStationsForAnalyte_markers (d : AppData) (a : string) :
  NoDup (getStationsForAnalyte d a) ∧
  (∀ code,
     code ∈ getStationsForAnalyte d a ↔
     ∃ st entries lv,
       stations d !! code = Some st ∧ latestValues d !! code = Some entries ∧
       entries !! a = Some lv) ∧
  (truthy_str a = true →
   ∀ code st, stations d !! code = Some st →
     (code ∈ getStationsForAnalyte d a →
      ∃ lv,
        MapManager.latest_entry d code (Some a) = Some lv ∧
        MapManager.fillColor (MarkerColors.marker_for d code st (Some a))
        = MapManager.color_for (lv_status lv) ∧
        ∃ body, MapManager.popup (MarkerColors.marker_for d code st (Some a))
                = Some body ∧
                MapManager.pc_body body ≠ MapManager.NoData a) ∧
     (code ∉ getStationsForAnalyte d a →
      MapManager.latest_entry d code (Some a) = None ∧
      MapManager.fillColor (MarkerColors.marker_for d code st (Some a))
      = "#6c757d"%string ∧
      ∃ body, MapManager.popup (MarkerColors.marker_for d code st (Some a))
              = Some body ∧
              MapManager.pc_body body = MapManager.NoData a)).
Proof.
  assert (Hmem : ∀ code,
            code ∈ getStationsForAnalyte d a ↔
            ∃ st entries lv,
              stations d !! code = Some st ∧
              latestValues d !! code = Some entries ∧ entries !! a = Some lv).
  { intros code. unfold getStationsForAnalyte.
    rewrite list_elem_of_filter, elem_of_Object_keys. unfold has_latest. split.
    - intros [Hl [st Hst]].
      destruct (latestValues d !! code) as [entries|]; [|done].
      destruct (entries !! a) as [lv|] eqn:Hlv; [|done].
      by exists st, entries, lv.
    - intros (st & entries & lv & Hst & -> & ->). split; [done|by exists st]. }
  split_and!; [|done|].
  - unfold getStationsForAnalyte, Object_keys.
    apply NoDup_filter, NoDup_fst_map_to_list.
  - intros Ha code st Hst. split.
    + intros (st' & entries & lv & _ & Hentries & Hlv)%Hmem.
      assert (Hle : MapManager.latest_entry d code (Some a) = Some lv).
      { rewrite (MarkerColors.latest_entry_analyte d code a Ha), Hentries.
        simpl. done. }
      exists lv. split; [done|]. unfold MarkerColors.marker_for. rewrite Hle.
      simpl. split; [done|]. eexists. split; [done|]. simpl. by rewrite Ha.
    + intros Hnot.
      assert (Hle : MapManager.latest_entry d code (Some a) = None).
      { destruct (MapManager.latest_entry d code (Some a)) as [lv|] eqn:Hle;
          [|done].
        rewrite (MarkerColors.latest_entry_analyte d code a Ha) in Hle.
        destruct (latestValues d !! code) as [entries|] eqn:He; [|done].
        simpl in Hle. exfalso. apply Hnot, Hmem. by exists st, entries, lv. }
      split; [done|]. unfold MarkerColors.marker_for. rewrite Hle.
      simpl. split; [done|]. eexists. split; [done|]. simpl. by rewrite Ha.
Qed.

(** Both stations of the sample have a latest pH. *)
Example stations_with_pH (code : string) :
  code ∈ getStationsForAnalyte Sample.two_pH "pH"
  ↔ code = "SRA100"%string ∨ code = "SRA190"%string.
Proof.
  replace (getStationsForAnalyte Sample.two_pH "pH")
    with ["SRA190"; "SRA100"]%string by (vm_compute; reflexivity).
  rewrite !elem_of_cons, elem_of_nil. tauto.
Qed.

End StationsForAnalyte.
